(** * The cooperative task engine of ngx_python.c

    A shallow embedding of [src/ngx_python.c] (the asynchronous build, that is
    with [NGX_PYTHON_SYNC] undefined) and the properties of its task engine:
    [ngx_python_eval], [ngx_python_yield], [ngx_python_task_handler],
    [ngx_python_cleanup_ctx], [ngx_python_set_value] and
    [ngx_python_reset_value].

    How the C program is represented.

    - A [PyObject *] that may be [NULL] is an [option PyObject]; the result
      slot, which also holds the sentinel [NGX_PYTHON_AGAIN], is a [pyresult].
    - An [ngx_python_ctx_t *] is an index into the list [ctxs] of the machine
      state; the global [ngx_python_ctx] is an [option] of such an index.
    - The code the interpreter runs (what [PyEval_EvalCode] does with a code
      object) is a tree [prog] of the actions that matter to the engine:
      changing the thread state, reading and writing globals, calling
      [ngx_python_yield], calling [ngx_python_eval] again, returning.
      Deleting a global and importing a module are not among them.
    - A machine context saved by [swapcontext] inside [ngx_python_yield] is
      the rest of the body, a continuation [ngx_int_t -> prog]; control
      flowing back to the context saved in [ruc] is the return of the
      function that runs the body.
    - [ngx_palloc], [getcontext] and [swapcontext] may fail; whether the next
      call does is read from scripts carried by the state.
    - [ngx_log_debug0] is compiled out unless nginx is built for debugging and
      is left out; [ngx_log_error] appends to [log]. *)

From Stdlib Require Import ZArith String List Lia.
From stdpp Require Import base option list gmap strings.

Local Open Scope Z_scope.
Local Open Scope string_scope.

(** ** Python objects *)

Inductive PyObject : Type :=
| PyExc_RuntimeError
| PyExc_OSError
| PyExc_KeyError
| PyString (s : string)
| PyLong (z : Z)
| PyOpaque (id : nat).

#[global] Instance PyObject_eq_dec : EqDecision PyObject.
Proof. solve_decision. Defined.

(** Modelled from the spec: [NGX_PYTHON_AGAIN] is declared in ngx_python.h,
    which is not part of the sources at hand; the spec calls it the pending
    sentinel, "distinct from any real value".  A result is [NULL], the
    sentinel, or a pointer to an object. *)
Inductive pyresult : Type :=
| NULL
| NGX_PYTHON_AGAIN
| Ptr (o : PyObject).

#[global] Instance pyresult_eq_dec : EqDecision pyresult.
Proof. solve_decision. Defined.

Definition of_option (r : option PyObject) : pyresult :=
  match r with
  | None => NULL
  | Some o => Ptr o
  end.

(** nginx return codes (ngx_core.h). *)
Definition ngx_int_t := Z.
Definition NGX_OK : ngx_int_t := 0.
Definition NGX_ERROR : ngx_int_t := -1.

(** The fields of [PyThreadState] the engine swaps. *)
Record PyThreadState : Type := {
  ps_recursion_depth : Z;
  ps_frame : option nat;
  curexc_type : option PyObject;
  curexc_value : option PyObject;
  curexc_traceback : option PyObject
}.

(** ** Script bodies *)

#[warnings="-register-all"]
Inductive prog : Type :=
| Return (r : option PyObject)
| PyOp (f : PyThreadState -> PyThreadState) (k : prog)
| LoadGlobal (name : string) (k : option PyObject -> prog)
| StoreGlobal (name : string) (v : PyObject) (k : prog)
| Yield (k : ngx_int_t -> prog)
| Eval (c : nat) (code : option prog) (wake : option nat) (k : pyresult -> prog).

(** ** Machine contexts and tasks *)

(** Where a [ucontext_t] resumes. *)
Inductive mcontext : Type :=
| mc_blank                           (* zeroed memory, never saved *)
| mc_entry                           (* makecontext: start ngx_python_task_handler *)
| mc_yield (k : ngx_int_t -> prog)   (* saved in ngx_python_yield; [k] is the rest of the body *)
| mc_stale.                          (* the flow saved here is running or gone *)

Record ucontext_t : Type := {
  uc_stack_sp : option nat;
  uc_stack_size : Z;
  uc_link : option nat;              (* [Some c] is [&ctx->ruc] of task [c] *)
  uc_mcontext : mcontext
}.

Record ngx_python_ctx_t : Type := {
  code : option prog;
  ns : nat;
  result : pyresult;
  wake : option nat;
  stack_size : Z;
  stack : option nat;
  uc : ucontext_t;
  recursion_depth : Z;
  frame : option nat;
  exc_type : option PyObject;
  exc_value : option PyObject;
  exc_traceback : option PyObject;
  terminate : bool
}.

Definition zero_uc : ucontext_t :=
  {| uc_stack_sp := None; uc_stack_size := 0; uc_link := None;
     uc_mcontext := mc_blank |}.

(** What [ngx_pcalloc] returns in [ngx_python_create_ctx], with [ns] and
    [stack_size] copied from the configuration. *)
Definition new_ctx (pns : nat) (size : Z) : ngx_python_ctx_t :=
  {| code := None; ns := pns; result := NULL; wake := None;
     stack_size := size; stack := None; uc := zero_uc;
     recursion_depth := 0; frame := None;
     exc_type := None; exc_value := None; exc_traceback := None;
     terminate := false |}.

#[global] Instance ngx_python_ctx_t_inhabited : Inhabited ngx_python_ctx_t :=
  populate (new_ctx 0%nat 0).

Inductive log_entry : Type :=
| log_python_error (t v tb : option PyObject)   (* "python error: %s" *)
| log_swapcontext_failed (errno : Z).           (* "swapcontext() failed" *)

(** ** The machine state *)

Record state : Type := {
  ngx_python_ctx : option nat;
  ps : PyThreadState;
  ctxs : list ngx_python_ctx_t;
  dicts : gmap nat (gmap string PyObject);
  log : list log_entry;
  brk : nat;
  palloc_script : list bool;
  getcontext_script : list (option Z);
  swapcontext_script : list (option Z)
}.

Definition set_ngx_python_ctx (v : option nat) (st : state) : state :=
  {| ngx_python_ctx := v; ps := ps st; ctxs := ctxs st; dicts := dicts st;
     log := log st; brk := brk st; palloc_script := palloc_script st;
     getcontext_script := getcontext_script st;
     swapcontext_script := swapcontext_script st |}.

Definition set_ps (v : PyThreadState) (st : state) : state :=
  {| ngx_python_ctx := ngx_python_ctx st; ps := v; ctxs := ctxs st;
     dicts := dicts st; log := log st; brk := brk st;
     palloc_script := palloc_script st;
     getcontext_script := getcontext_script st;
     swapcontext_script := swapcontext_script st |}.

Definition set_ctxs (v : list ngx_python_ctx_t) (st : state) : state :=
  {| ngx_python_ctx := ngx_python_ctx st; ps := ps st; ctxs := v;
     dicts := dicts st; log := log st; brk := brk st;
     palloc_script := palloc_script st;
     getcontext_script := getcontext_script st;
     swapcontext_script := swapcontext_script st |}.

Definition set_dicts (v : gmap nat (gmap string PyObject)) (st : state) : state :=
  {| ngx_python_ctx := ngx_python_ctx st; ps := ps st; ctxs := ctxs st;
     dicts := v; log := log st; brk := brk st;
     palloc_script := palloc_script st;
     getcontext_script := getcontext_script st;
     swapcontext_script := swapcontext_script st |}.

Definition ngx_log_error (e : log_entry) (st : state) : state :=
  {| ngx_python_ctx := ngx_python_ctx st; ps := ps st; ctxs := ctxs st;
     dicts := dicts st; log := log st ++ [e]; brk := brk st;
     palloc_script := palloc_script st;
     getcontext_script := getcontext_script st;
     swapcontext_script := swapcontext_script st |}.

(** Updating the task record [*ctx]. *)
Definition with_ctx (c : nat) (f : ngx_python_ctx_t -> ngx_python_ctx_t)
    (st : state) : state :=
  set_ctxs (alter f c (ctxs st)) st.

Definition ctx_at (st : state) (c : nat) : ngx_python_ctx_t := ctxs st !!! c.

(** ** Platform calls *)

Definition next_outcome {A : Type} (ok : A) (script : list A) : A * list A :=
  match script with
  | [] => (ok, [])
  | x :: rest => (x, rest)
  end.

(** [ngx_palloc(pool, size)]: [None] is [NULL]. *)
Definition ngx_palloc (st : state) : option nat * state :=
  let '(fails, rest) := next_outcome false (palloc_script st) in
  if fails : bool then
    (None,
     {| ngx_python_ctx := ngx_python_ctx st; ps := ps st; ctxs := ctxs st;
        dicts := dicts st; log := log st; brk := brk st;
        palloc_script := rest;
        getcontext_script := getcontext_script st;
        swapcontext_script := swapcontext_script st |})
  else
    (Some (brk st),
     {| ngx_python_ctx := ngx_python_ctx st; ps := ps st; ctxs := ctxs st;
        dicts := dicts st; log := log st; brk := S (brk st);
        palloc_script := rest;
        getcontext_script := getcontext_script st;
        swapcontext_script := swapcontext_script st |}).

(** [getcontext(&uc)]: the errno of a failure, [None] on success. *)
Definition getcontext (st : state) : option Z * state :=
  let '(err, rest) := next_outcome None (getcontext_script st) in
  (err,
   {| ngx_python_ctx := ngx_python_ctx st; ps := ps st; ctxs := ctxs st;
      dicts := dicts st; log := log st; brk := brk st;
      palloc_script := palloc_script st;
      getcontext_script := rest;
      swapcontext_script := swapcontext_script st |}).

(** Whether the next [swapcontext] fails, and with which errno.  The transfer
    of control itself is written out where [swapcontext] is called. *)
Definition swapcontext (st : state) : option Z * state :=
  let '(err, rest) := next_outcome None (swapcontext_script st) in
  (err,
   {| ngx_python_ctx := ngx_python_ctx st; ps := ps st; ctxs := ctxs st;
      dicts := dicts st; log := log st; brk := brk st;
      palloc_script := palloc_script st;
      getcontext_script := getcontext_script st;
      swapcontext_script := rest |}).

(** ** The CPython calls the engine makes *)

(** [PyErr_SetString(type, msg)]. *)
Definition PyErr_SetString (t : PyObject) (msg : string) (st : state) : state :=
  set_ps {| ps_recursion_depth := ps_recursion_depth (ps st);
            ps_frame := ps_frame (ps st);
            curexc_type := Some t;
            curexc_value := Some (PyString msg);
            curexc_traceback := None |} st.

(** [PyErr_SetFromErrno(type)]; the value stands for the pair of errno and
    its message. *)
Definition PyErr_SetFromErrno (t : PyObject) (errno : Z) (st : state) : state :=
  set_ps {| ps_recursion_depth := ps_recursion_depth (ps st);
            ps_frame := ps_frame (ps st);
            curexc_type := Some t;
            curexc_value := Some (PyLong errno);
            curexc_traceback := None |} st.

(** The namespace a [PyObject *ns] points to. *)
Definition dict_of (st : state) (p : nat) : gmap string PyObject :=
  dicts st !!! p.

Definition PyDict_GetItemString (st : state) (p : nat) (name : string)
    : option PyObject :=
  dict_of st p !! name.

(** Returns 0; failures of the interpreter's allocator are not modelled. *)
Definition PyDict_SetItemString (st : state) (p : nat) (name : string)
    (v : PyObject) : Z * state :=
  (0, set_dicts (<[p := <[name := v]> (dict_of st p)]> (dicts st)) st).

(** Returns -1 (KeyError) when [name] is not bound. *)
Definition PyDict_DelItemString (st : state) (p : nat) (name : string)
    : Z * state :=
  match dict_of st p !! name with
  | None =>
      (-1, PyErr_SetString PyExc_KeyError name st)
  | Some _ =>
      (0, set_dicts (<[p := delete name (dict_of st p)]> (dicts st)) st)
  end.

(** [ngx_python_get_error(pool)]: fetches and clears the error indicator;
    the text it formats is represented by the fetched triple.  Not
    represented: the import of [traceback] (line 788) that finds the file
    and the line, the buffer taken from the pool for the text (line 829),
    and the empty text returned when that allocation fails. *)
Definition ngx_python_get_error (st : state) : log_entry * state :=
  (log_python_error (curexc_type (ps st)) (curexc_value (ps st))
     (curexc_traceback (ps st)),
   set_ps {| ps_recursion_depth := ps_recursion_depth (ps st);
             ps_frame := ps_frame (ps st);
             curexc_type := None;
             curexc_value := None;
             curexc_traceback := None |} st).

(** [ngx_log_error(NGX_LOG_ERR, ctx->log, 0, "python error: %s",
    ngx_python_get_error(ctx->pool))]. *)
Definition log_python_error_of (st : state) : state :=
  let '(e, st1) := ngx_python_get_error st in ngx_log_error e st1.

(** ** Namespace bindings around an evaluation *)

Definition ngx_python_set_value (st : state) (c : nat) (name : string)
    (value : PyObject) : option PyObject * state :=
  let old := PyDict_GetItemString st (ns (ctx_at st c)) name in
  match old with
  | None =>
      let '(rc, st1) := PyDict_SetItemString st (ns (ctx_at st c)) name value in
      if (rc <? 0)%Z then (old, log_python_error_of st1) else (old, st1)
  | Some _ => (old, st)
  end.

Definition ngx_python_reset_value (st : state) (c : nat) (name : string)
    (old : option PyObject) : state :=
  match old with
  | None =>
      let '(rc, st1) := PyDict_DelItemString st (ns (ctx_at st c)) name in
      if (rc <? 0)%Z then log_python_error_of st1 else st1
  | Some _ => st
  end.

(** ** Results of running code *)

Inductive outcome (A : Type) : Type :=
| Ok (a : A)
| Fault          (* the C program has no defined behaviour on this path *)
| OutOfFuel.     (* the bound on the depth of the run was reached *)

Arguments Ok {A} a.
Arguments Fault {A}.
Arguments OutOfFuel {A}.

#[global] Instance outcome_ret : MRet outcome := fun A a => Ok a.
#[global] Instance outcome_bind : MBind outcome := fun A B f m =>
  match m with
  | Ok a => f a
  | Fault => Fault
  | OutOfFuel => OutOfFuel
  end.

(** How a call of [PyEval_EvalCode] made on a task stack ends, as seen by the
    flow that switched to that stack: the call returned, or the body called
    [ngx_python_yield] and control was switched back. *)
Inductive body_end : Type :=
| Finished (r : option PyObject)
| Switched.

(** ** Field updates of [ngx_python_ctx_t] *)

Definition set_code (v : option prog) (x : ngx_python_ctx_t) : ngx_python_ctx_t :=
  {| code := v; ns := ns x; result := result x; wake := wake x;
     stack_size := stack_size x; stack := stack x; uc := uc x;
     recursion_depth := recursion_depth x; frame := frame x;
     exc_type := exc_type x; exc_value := exc_value x;
     exc_traceback := exc_traceback x; terminate := terminate x |}.

Definition set_result (v : pyresult) (x : ngx_python_ctx_t) : ngx_python_ctx_t :=
  {| code := code x; ns := ns x; result := v; wake := wake x;
     stack_size := stack_size x; stack := stack x; uc := uc x;
     recursion_depth := recursion_depth x; frame := frame x;
     exc_type := exc_type x; exc_value := exc_value x;
     exc_traceback := exc_traceback x; terminate := terminate x |}.

Definition set_wake (v : option nat) (x : ngx_python_ctx_t) : ngx_python_ctx_t :=
  {| code := code x; ns := ns x; result := result x; wake := v;
     stack_size := stack_size x; stack := stack x; uc := uc x;
     recursion_depth := recursion_depth x; frame := frame x;
     exc_type := exc_type x; exc_value := exc_value x;
     exc_traceback := exc_traceback x; terminate := terminate x |}.

Definition set_stack (v : option nat) (x : ngx_python_ctx_t) : ngx_python_ctx_t :=
  {| code := code x; ns := ns x; result := result x; wake := wake x;
     stack_size := stack_size x; stack := v; uc := uc x;
     recursion_depth := recursion_depth x; frame := frame x;
     exc_type := exc_type x; exc_value := exc_value x;
     exc_traceback := exc_traceback x; terminate := terminate x |}.

Definition set_uc (v : ucontext_t) (x : ngx_python_ctx_t) : ngx_python_ctx_t :=
  {| code := code x; ns := ns x; result := result x; wake := wake x;
     stack_size := stack_size x; stack := stack x; uc := v;
     recursion_depth := recursion_depth x; frame := frame x;
     exc_type := exc_type x; exc_value := exc_value x;
     exc_traceback := exc_traceback x; terminate := terminate x |}.

Definition set_terminate (v : bool) (x : ngx_python_ctx_t) : ngx_python_ctx_t :=
  {| code := code x; ns := ns x; result := result x; wake := wake x;
     stack_size := stack_size x; stack := stack x; uc := uc x;
     recursion_depth := recursion_depth x; frame := frame x;
     exc_type := exc_type x; exc_value := exc_value x;
     exc_traceback := exc_traceback x; terminate := v |}.

(** [ctx->recursion_depth = ps->recursion_depth; ... ;
    ctx->exc_traceback = ps->curexc_traceback]. *)
Definition set_snapshot (v : PyThreadState) (x : ngx_python_ctx_t) : ngx_python_ctx_t :=
  {| code := code x; ns := ns x; result := result x; wake := wake x;
     stack_size := stack_size x; stack := stack x; uc := uc x;
     recursion_depth := ps_recursion_depth v; frame := ps_frame v;
     exc_type := curexc_type v; exc_value := curexc_value v;
     exc_traceback := curexc_traceback v; terminate := terminate x |}.

(** The five saved fields of a task, as a thread state. *)
Definition snapshot (x : ngx_python_ctx_t) : PyThreadState :=
  {| ps_recursion_depth := recursion_depth x; ps_frame := frame x;
     curexc_type := exc_type x; curexc_value := exc_value x;
     curexc_traceback := exc_traceback x |}.

Definition set_mcontext (v : mcontext) (x : ngx_python_ctx_t) : ngx_python_ctx_t :=
  set_uc {| uc_stack_sp := uc_stack_sp (uc x);
            uc_stack_size := uc_stack_size (uc x);
            uc_link := uc_link (uc x);
            uc_mcontext := v |} x.

(** ** The engine *)

Definition ngx_python_get_ctx (st : state) : option nat := ngx_python_ctx st.

Definition ngx_python_set_ctx (ctx : option nat) (st : state)
    : option nat * state :=
  (ngx_python_ctx st, set_ngx_python_ctx ctx st).

(** [ngx_python_yield] up to and including its call of [swapcontext]: it
    returns to the body at once, or control leaves the task [c]. *)
Inductive yield_step : Type :=
| yield_return (rc : ngx_int_t)
| yield_switch (c : nat).

Definition ngx_python_yield_enter (st : state) : yield_step * state :=
  match ngx_python_get_ctx st with
  | None =>
      (yield_return NGX_ERROR,
       PyErr_SetString PyExc_RuntimeError "blocking calls are not allowed" st)
  | Some c =>
      match swapcontext st with
      | (Some errno, st1) =>
          (yield_return NGX_ERROR, PyErr_SetFromErrno PyExc_OSError errno st1)
      | (None, st1) => (yield_switch c, st1)
      end
  end.

(** [ngx_python_yield] from the return of [swapcontext] on, when the task [c]
    is switched to again. *)
Definition ngx_python_yield_regain (st : state) (c : nat) : ngx_int_t * state :=
  if terminate (ctx_at st c)
  then (NGX_ERROR, PyErr_SetString PyExc_RuntimeError "terminated" st)
  else (NGX_OK, st).

(** Lines 280-303 of [ngx_python_eval]: the first step of a task. *)
Inductive first_step : Type :=
| proceed (st : state)
| return_NULL (st : state).

Definition ngx_python_eval_first_step (st : state) (c : nat)
    (code0 : option prog) (w : nat) : first_step :=
  match result (ctx_at st c) with
  | NULL =>
      let alloc :=
        match stack (ctx_at st c) with
        | None =>
            let '(p, st1) := ngx_palloc st in
            (p, with_ctx c (set_stack p) st1)
        | Some p => (Some p, st)
        end in
      match alloc with
      | (None, st1) => return_NULL st1
      | (Some _, st1) =>
          match getcontext st1 with
          | (Some _, st2) => return_NULL st2
          | (None, st2) =>
              let st3 :=
                with_ctx c
                  (fun x => set_uc {| uc_stack_sp := stack x;
                                      uc_stack_size := stack_size x;
                                      uc_link := Some c;
                                      uc_mcontext := mc_entry |} x) st2 in
              proceed
                (with_ctx c
                   (fun x => set_result NGX_PYTHON_AGAIN
                               (set_wake (Some w) (set_code code0 x))) st3)
          end
      end
  | _ => proceed st
  end.

(** Lines 315-319: the task's saved fields become the live thread state. *)
Definition load_snapshot (st : state) (c : nat) : state :=
  set_ps (snapshot (ctx_at st c)) st.

(** Lines 326-330. *)
Definition save_snapshot (st : state) (c : nat) : state :=
  with_ctx c (set_snapshot (ps st)) st.

(** Lines 340-347. *)
Definition ngx_python_eval_finish (st : state) (c : nat) : state * pyresult :=
  match result (ctx_at st c) with
  | NGX_PYTHON_AGAIN => (st, NGX_PYTHON_AGAIN)
  | r =>
      (with_ctx c
         (fun x => set_result NULL (set_wake None (set_code None x))) st,
       r)
  end.

(** What [ngx_python_task_handler] does once [PyEval_EvalCode] has returned;
    nothing when the body switched away instead. *)
Definition task_handler_store (st : state) (c : nat) (e : body_end) : state :=
  match e with
  | Switched => st
  | Finished r =>
      let st1 := with_ctx c (set_result (of_option r)) st in
      match r with
      | None => log_python_error_of st1
      | Some _ => st1
      end
  end.

Section Engine.

(** [PyEval_EvalCode(code, ns, ns)], given below by [run]. *)
Variable run_code : state -> nat -> prog -> outcome (state * body_end).

Definition ngx_python_task_handler (st : state) : outcome state :=
  match ngx_python_get_ctx st with
  | None => Fault
  | Some c =>
      match code (ctx_at st c) with
      | None => Fault
      | Some p =>
          '(st1, e) ← run_code st (ns (ctx_at st c)) p;
          Ok (task_handler_store st1 c e)
      end
  end.

(** Lines 321-324: [swapcontext(&ctx->ruc, &ctx->uc)] and all that runs
    until control is back in [ngx_python_eval]. *)
Definition switch_to_task (st : state) (c : nat) : outcome state :=
  match swapcontext st with
  | (Some errno, st1) => Ok (ngx_log_error (log_swapcontext_failed errno) st1)
  | (None, st1) =>
      match uc_mcontext (uc (ctx_at st1 c)) with
      | mc_entry =>
          ngx_python_task_handler (with_ctx c (set_mcontext mc_stale) st1)
      | mc_yield k =>
          let st2 := with_ctx c (set_mcontext mc_stale) st1 in
          let '(rc, st3) := ngx_python_yield_regain st2 c in
          '(st4, e) ← run_code st3 (ns (ctx_at st3 c)) (k rc);
          Ok (task_handler_store st4 c e)
      | mc_blank | mc_stale => Fault
      end
  end.

Definition ngx_python_eval_with (st : state) (c : nat) (code0 : option prog)
    (wake0 : option nat) : outcome (state * pyresult) :=
  match ctxs st !! c with
  | None => Fault
  | Some _ =>
      match wake0 with
      | Some w =>
          match ngx_python_eval_first_step st c code0 w with
          | return_NULL st1 => Ok (st1, NULL)
          | proceed st1 =>
              let '(pctx, st2) := ngx_python_set_ctx (Some c) st1 in
              let saved := ps st2 in
              let st3 := load_snapshot st2 c in
              st4 ← switch_to_task st3 c;
              let st5 := save_snapshot st4 c in
              let st6 := set_ps saved st5 in
              let '(_, st7) := ngx_python_set_ctx pctx st6 in
              Ok (ngx_python_eval_finish st7 c)
          end
      | None =>
          let '(pctx, st1) := ngx_python_set_ctx None st in
          match code0 with
          | None => Fault
          | Some p =>
              '(st2, e) ← run_code st1 (ns (ctx_at st1 c)) p;
              match e with
              | Switched => Fault
              | Finished r =>
                  let st3 :=
                    match r with
                    | None => log_python_error_of st2
                    | Some _ => st2
                    end in
                  let '(_, st4) := ngx_python_set_ctx pctx st3 in
                  Ok (st4, of_option r)
              end
          end
      end
  end.

End Engine.

(** The interpreter running a body against the namespace [p]. *)
Fixpoint run (fuel : nat) (st : state) (p : nat) (b : prog)
    : outcome (state * body_end) :=
  match fuel with
  | O => OutOfFuel
  | S fuel' =>
      match b with
      | Return r => Ok (st, Finished r)
      | PyOp f k => run fuel' (set_ps (f (ps st)) st) p k
      | LoadGlobal name k => run fuel' st p (k (PyDict_GetItemString st p name))
      | StoreGlobal name v k =>
          run fuel' (snd (PyDict_SetItemString st p name v)) p k
      | Yield k =>
          match ngx_python_yield_enter st with
          | (yield_return rc, st1) => run fuel' st1 p (k rc)
          | (yield_switch c, st1) =>
              Ok (with_ctx c (set_mcontext (mc_yield k)) st1, Switched)
          end
      | Eval c code0 wake0 k =>
          '(st1, r) ← ngx_python_eval_with (run fuel') st c code0 wake0;
          run fuel' st1 p (k r)
      end
  end.

Definition ngx_python_eval (fuel : nat) (st : state) (c : nat)
    (code0 : option prog) (wake0 : option nat) : outcome (state * pyresult) :=
  ngx_python_eval_with (run fuel) st c code0 wake0.

(** The loop of [ngx_python_cleanup_ctx], run at most [n] times. *)
Fixpoint cleanup_loop (n fuel : nat) (st : state) (c : nat) (r : pyresult)
    : outcome (state * pyresult) :=
  match r with
  | NGX_PYTHON_AGAIN =>
      match n with
      | O => OutOfFuel
      | S n' =>
          '(st1, r1) ← ngx_python_eval fuel st c None (wake (ctx_at st c));
          cleanup_loop n' fuel st1 c r1
      end
  | _ => Ok (st, r)
  end.

Definition ngx_python_cleanup_ctx (n fuel : nat) (st : state) (c : nat)
    : outcome state :=
  let st1 := with_ctx c (set_terminate true) st in
  '(st2, _) ← cleanup_loop n fuel st1 c (result (ctx_at st1 c));
  Ok st2.

(** ** Notions used to state the properties *)

(** A task that was switched to and has not come back: its result is pending
    and the context saved in [uc] is spent. *)
Definition running (x : ngx_python_ctx_t) : Prop :=
  result x = NGX_PYTHON_AGAIN ∧ uc_mcontext (uc x) = mc_stale.

(** The fields of a task record that no code path of the engine other than
    [ngx_python_cleanup_ctx] writes once the record is created. *)
Definition same_task (x x' : ngx_python_ctx_t) : Prop :=
  terminate x' = terminate x ∧ ns x' = ns x ∧ stack_size x' = stack_size x.

(** Two states hold the same task records, related one by one by [R]. *)
Definition tasks_rel (R : nat -> ngx_python_ctx_t -> ngx_python_ctx_t -> Prop)
    (st st' : state) : Prop :=
  ∀ c : nat,
    match ctxs st !! c, ctxs st' !! c with
    | Some x, Some x' => R c x x'
    | None, None => True
    | _, _ => False
    end.

(** Only the record of task [c] may differ. *)
Definition touches (c : nat) : state -> state -> Prop :=
  tasks_rel (fun c' x x' => same_task x x' ∧ (c' ≠ c -> x' = x)).

(** What a call of [ngx_python_eval] leaves as it was. *)
Definition eval_frame (st st' : state) : Prop :=
  ngx_python_ctx st' = ngx_python_ctx st
  ∧ tasks_rel (fun _ x x' => same_task x x' ∧ (running x -> x' = x)) st st'.

(** What running a body leaves as it was; when the body switched away, the
    active task has a new saved context. *)
Definition run_frame (st st' : state) (e : body_end) : Prop :=
  ngx_python_ctx st' = ngx_python_ctx st
  ∧ match e with
    | Finished _ =>
        tasks_rel (fun _ x x' => same_task x x' ∧ (running x -> x' = x)) st st'
    | Switched =>
        ∃ a : nat,
          ngx_python_ctx st = Some a
          ∧ tasks_rel
              (fun c x x' =>
                 same_task x x'
                 ∧ (running x ->
                    if decide (c = a)
                    then ∃ k, x' = set_mcontext (mc_yield k) x
                    else x' = x)) st st'
    end.

(** ** Sample states and bodies *)

Definition ps0 : PyThreadState :=
  {| ps_recursion_depth := 0; ps_frame := None; curexc_type := None;
     curexc_value := None; curexc_traceback := None |}.

(** A worker with one namespace and two tasks just created. *)
Definition boot : state :=
  {| ngx_python_ctx := None; ps := ps0;
     ctxs := [new_ctx 0%nat 32768; new_ctx 0%nat 32768];
     dicts := {[ 0%nat := ∅ ]}; log := []; brk := 100%nat;
     palloc_script := []; getcontext_script := []; swapcontext_script := [] |}.

(** [x = 7] *)
Definition body_seven : prog := Return (Some (PyLong 7)).

(** A body that blocks once: it returns 7 when the blocking call succeeds and
    lets the error of a failed call propagate. *)
Definition after_sleep (rc : ngx_int_t) : prog :=
  if (rc =? NGX_OK)%Z then Return (Some (PyLong 7)) else Return None.

Definition body_sleep : prog := Yield after_sleep.

(** A body that enters a call (one more frame, one more level of recursion)
    and blocks there. *)
Definition body_call_sleep : prog :=
  PyOp (fun s => {| ps_recursion_depth := ps_recursion_depth s + 1;
                    ps_frame := Some 42%nat;
                    curexc_type := curexc_type s;
                    curexc_value := curexc_value s;
                    curexc_traceback := curexc_traceback s |})
    body_sleep.

(** The thread state of a task in the middle of a call three levels deep. *)
Definition ps_busy : PyThreadState :=
  {| ps_recursion_depth := 3; ps_frame := Some 17%nat; curexc_type := None;
     curexc_value := None; curexc_traceback := None |}.

(** Task 0 is running (it is the active task and its context is spent), task
    1 has not started. *)
Definition in_task_0 : state :=
  {| ngx_python_ctx := Some 0%nat; ps := ps_busy;
     ctxs := [set_mcontext mc_stale
                (set_result NGX_PYTHON_AGAIN
                   (set_wake (Some 5%nat) (set_stack (Some 99%nat)
                      (new_ctx 0%nat 32768))));
              new_ctx 0%nat 32768];
     dicts := {[ 0%nat := ∅ ]}; log := []; brk := 100%nat;
     palloc_script := []; getcontext_script := []; swapcontext_script := [] |}.

(** Task 0 is suspended in the blocking call of [body_sleep]. *)
Definition sleeping_0 : state :=
  {| ngx_python_ctx := None; ps := ps0;
     ctxs := [{| code := Some body_sleep; ns := 0%nat;
                 result := NGX_PYTHON_AGAIN; wake := Some 5%nat;
                 stack_size := 32768; stack := Some 100%nat;
                 uc := {| uc_stack_sp := Some 100%nat; uc_stack_size := 32768;
                          uc_link := Some 0%nat;
                          uc_mcontext := mc_yield after_sleep |};
                 recursion_depth := 0; frame := None;
                 exc_type := None; exc_value := None; exc_traceback := None;
                 terminate := false |};
              new_ctx 0%nat 32768];
     dicts := {[ 0%nat := ∅ ]}; log := []; brk := 101%nat;
     palloc_script := []; getcontext_script := []; swapcontext_script := [] |}.


(** [boot] when the next [swapcontext] fails with ENOMEM. *)
Definition boot_swapcontext_fails : state :=
  {| ngx_python_ctx := None; ps := ps0;
     ctxs := [new_ctx 0%nat 32768; new_ctx 0%nat 32768];
     dicts := {[ 0%nat := ∅ ]}; log := []; brk := 100%nat;
     palloc_script := []; getcontext_script := [];
     swapcontext_script := [Some 12] |}.

(** A body that counts its runs in the global [n] and returns the count
    before this run. *)
Definition body_count : prog :=
  LoadGlobal "n" (fun v =>
    match v with
    | Some (PyLong z) => StoreGlobal "n" (PyLong (z + 1)) (Return (Some (PyLong z)))
    | _ => StoreGlobal "n" (PyLong 1) (Return (Some (PyLong 0)))
    end).

(** ** Shapes of bodies *)

(** What [PyErr_SetString(PyExc_RuntimeError, "blocking calls are not
    allowed")] does to the thread state. *)
Definition raise_not_allowed (s : PyThreadState) : PyThreadState :=
  {| ps_recursion_depth := ps_recursion_depth s; ps_frame := ps_frame s;
     curexc_type := Some PyExc_RuntimeError;
     curexc_value := Some (PyString "blocking calls are not allowed");
     curexc_traceback := None |}.

(** The body in which every blocking call of the body itself (not of the
    code it passes to nested evaluations) is replaced by a call that fails
    with that error. *)
Fixpoint fail_yields (b : prog) : prog :=
  match b with
  | Return r => Return r
  | PyOp f k => PyOp f (fail_yields k)
  | LoadGlobal name k => LoadGlobal name (fun v => fail_yields (k v))
  | StoreGlobal name v k => StoreGlobal name v (fail_yields k)
  | Yield k => PyOp raise_not_allowed (fail_yields (k NGX_ERROR))
  | Eval c code0 wake0 k => Eval c code0 wake0 (fun r => fail_yields (k r))
  end.

(** The body makes no nested call of [ngx_python_eval]. *)
Fixpoint no_eval (b : prog) : Prop :=
  match b with
  | Return _ => True
  | PyOp _ k => no_eval k
  | LoadGlobal _ k => ∀ v, no_eval (k v)
  | StoreGlobal _ _ k => no_eval k
  | Yield k => ∀ rc, no_eval (k rc)
  | Eval _ _ _ _ => False
  end.

(** The body neither blocks nor evaluates: it only computes. *)
Fixpoint straight (b : prog) : Prop :=
  match b with
  | Return _ => True
  | PyOp _ k => straight k
  | LoadGlobal _ k => ∀ v, straight (k v)
  | StoreGlobal _ _ k => straight k
  | Yield _ => False
  | Eval _ _ _ _ => False
  end.

(** The state [base] with the thread state and the namespaces of [py]. *)
Definition graft (base py : state) : state :=
  {| ngx_python_ctx := ngx_python_ctx base; ps := ps py; ctxs := ctxs base;
     dicts := dicts py; log := log base; brk := brk base;
     palloc_script := palloc_script base;
     getcontext_script := getcontext_script base;
     swapcontext_script := swapcontext_script base |}.

(** A body that reads the global [x] and fails when it is not bound. *)
Definition body_read_x : prog :=
  LoadGlobal "x" (fun v =>
    match v with
    | Some o => Return (Some o)
    | None => PyOp (fun s => {| ps_recursion_depth := ps_recursion_depth s;
                                ps_frame := ps_frame s;
                                curexc_type := Some PyExc_KeyError;
                                curexc_value := Some (PyString "x");
                                curexc_traceback := None |})
                (Return None)
    end).

(** On the way the body takes when every blocking call fails, it makes at
    most [n] more blocking calls of its own. *)
Fixpoint suspends_le (b : prog) (n : nat) : Prop :=
  match b with
  | Return _ => True
  | PyOp _ k => suspends_le k n
  | LoadGlobal _ k => ∀ v, suspends_le (k v) n
  | StoreGlobal _ _ k => suspends_le k n
  | Yield k =>
      match n with
      | O => False
      | S m => suspends_le (k NGX_ERROR) m
      end
  | Eval _ _ _ k => ∀ r, suspends_le (k r) n
  end.

(** The cleanup as the spec words it, "repeatedly calls step with a null wake
    handle", to be compared with [ngx_python_cleanup_ctx]. *)
Fixpoint cleanup_loop_null_wake (n fuel : nat) (st : state) (c : nat)
    (r : pyresult) : outcome (state * pyresult) :=
  match r with
  | NGX_PYTHON_AGAIN =>
      match n with
      | O => OutOfFuel
      | S n' =>
          '(st1, r1) ← ngx_python_eval fuel st c None None;
          cleanup_loop_null_wake n' fuel st1 c r1
      end
  | _ => Ok (st, r)
  end.

Definition cleanup_ctx_null_wake (n fuel : nat) (st : state) (c : nat)
    : outcome state :=
  let st1 := with_ctx c (set_terminate true) st in
  '(st2, _) ← cleanup_loop_null_wake n fuel st1 c (result (ctx_at st1 c));
  Ok st2.

(** A body that blocks twice, whatever the first call returns. *)
Definition body_sleep_twice : prog := Yield (fun _ => body_sleep).

(** Task [c] is suspended in a blocking call with its [terminate] flag set,
    [w] is its wake handle, its body makes at most [n] more blocking calls
    once this one has failed, and no [swapcontext] is going to fail. *)
Definition doomed (st : state) (c w n : nat) : Prop :=
  ∃ x k,
    ctxs st !! c = Some x
    ∧ result x = NGX_PYTHON_AGAIN ∧ wake x = Some w ∧ terminate x = true
    ∧ uc_mcontext (uc x) = mc_yield k
    ∧ suspends_le (k NGX_ERROR) n
    ∧ swapcontext_script st = [].

(** The record of task [c] has been given back: nothing is pending and the
    fields of the last run are cleared. *)
Definition released (st : state) (c : nat) : Prop :=
  ∃ x,
    ctxs st !! c = Some x
    ∧ result x = NULL ∧ code x = None ∧ wake x = None ∧ terminate x = true.
From Stdlib Require Import Ascii.
From stdpp Require Import pretty.

Local Open Scope Z_scope.
Local Open Scope string_scope.

(** ** Waking a task up *)

(** Modelled from nginx: [ngx_post_event(ev, q)] of ngx_event_posted.h, which
    is not among the sources at hand, puts the event at the tail of the queue
    unless its [posted] flag says it is there already; the flag is the
    membership in [q].  The macro reads [ev->posted], so a null event is a
    fault. *)
Definition ngx_post_event (ev : option nat) (q : list nat) : outcome (list nat) :=
  match ev with
  | None => Fault
  | Some e => Ok (if decide (e ∈ q) then q else (q ++ [e])%list)
  end.

(** Lines 191-197, with [ngx_posted_events] passed in and out. *)
Definition ngx_python_wakeup (st : state) (c : nat) (q : list nat)
    : outcome (list nat) :=
  match ctxs st !! c with
  | None => Fault
  | Some x => if terminate x then Ok q else ngx_post_event (wake x) q
  end.

(** ** Stepping a task to its end *)

(** The body in which every blocking call of the body itself returns
    [NGX_OK] at once. *)
Fixpoint skip_yields (b : prog) : prog :=
  match b with
  | Return r => Return r
  | PyOp f k => PyOp f (skip_yields k)
  | LoadGlobal name k => LoadGlobal name (fun v => skip_yields (k v))
  | StoreGlobal name v k => StoreGlobal name v (skip_yields k)
  | Yield k => PyOp (fun s => s) (skip_yields (k NGX_OK))
  | Eval c code0 wake0 k => Eval c code0 wake0 (fun r => skip_yields (k r))
  end.

(** On the way the body takes when every blocking call succeeds, it makes at
    most [n] blocking calls of its own. *)
Fixpoint blocks_le (b : prog) (n : nat) : Prop :=
  match b with
  | Return _ => True
  | PyOp _ k => blocks_le k n
  | LoadGlobal _ k => ∀ v, blocks_le (k v) n
  | StoreGlobal _ _ k => blocks_le k n
  | Yield k =>
      match n with
      | O => False
      | S m => blocks_le (k NGX_OK) m
      end
  | Eval _ _ _ k => ∀ r, blocks_le (k r) n
  end.

(** The calls of [ngx_python_eval] the handler of the wake event makes on
    task [c]: one, and while the result is pending up to [n] more. *)
Fixpoint steps (n fuel : nat) (st : state) (c : nat) (code0 : option prog)
    (w : nat) : outcome (state * pyresult) :=
  '(st1, r) ← ngx_python_eval fuel st c code0 (Some w);
  match r, n with
  | NGX_PYTHON_AGAIN, S n' => steps n' fuel st1 c code0 w
  | _, _ => Ok (st1, r)
  end.

(** Lines 326-347 of [ngx_python_eval], with what the task handler does
    first when the body has finished: control is back from task [c], which
    the caller in state [stc] had switched to. *)
Definition leave_task (stc : state) (c : nat) (s4 : state) (e : body_end)
    : state * pyresult :=
  ngx_python_eval_finish
    (set_ngx_python_ctx (ngx_python_ctx stc)
       (set_ps (ps stc) (save_snapshot (task_handler_store s4 c e) c)))
    c.

(** What [ngx_log_error] writes when [PyEval_EvalCode] returned [r] in thread
    state [s], and the thread state once [ngx_python_get_error] has cleared
    the error. *)
Definition error_entries (s : PyThreadState) (r : option PyObject)
    : list log_entry :=
  match r with
  | None => [log_python_error (curexc_type s) (curexc_value s)
               (curexc_traceback s)]
  | Some _ => []
  end.

Definition after_report (s : PyThreadState) (r : option PyObject)
    : PyThreadState :=
  match r with
  | None => {| ps_recursion_depth := ps_recursion_depth s;
               ps_frame := ps_frame s; curexc_type := None;
               curexc_value := None; curexc_traceback := None |}
  | Some _ => s
  end.

(** A body that stores [1] in [a], blocks, reads [a] back, blocks again and
    returns what it read. *)
Definition body_store_sleep_load : prog :=
  StoreGlobal "a" (PyLong 1)
    (Yield (fun _ => LoadGlobal "a" (fun v => Yield (fun _ => Return v)))).

(** ** Configuration time

    [ngx_python_init_namespace], the directive handlers, [ngx_python_compile]
    and [ngx_python_create_ctx] work on the module configuration
    [ngx_python_conf_t], on two static variables, on [sys.modules] and on the
    cleanup list of a pool.  Of the reference counts only those of the
    namespaces are kept, as far as this file moves them; [ngx_log_debug1] is
    left out as before. *)

Definition NGX_DECLINED : ngx_int_t := -5.

(** [(size_t) -1] and [sizeof("-9223372036854775808") - 1], for 64 bits. *)
Definition NGX_CONF_UNSET_SIZE : Z := 2 ^ 64 - 1.
Definition NGX_INT_T_LEN : nat := 20.

(** [ngx_python_conf_t]; the fields are [ns] and [stack_size]. *)
Record ngx_python_conf_t : Type := {
  pcf_ns : option nat;
  pcf_stack_size : Z
}.

(** The return value of a directive handler. *)
Inductive conf_rc : Type :=
| NGX_CONF_OK
| NGX_CONF_ERROR.

(** An entry of the cleanup list of a pool: the handler with its data. *)
Inductive cleanup_handler : Type :=
| handler_unset                     (* as [ngx_pool_cleanup_add] leaves it *)
| cleanup_ctx_of (c : nat)
| decref_of (obj : prog)
| cleanup_namespace_of (nc_ns : nat) (nc_name : string).

Inductive conf_log_entry : Type :=
| conf_python_error (e : log_entry)          (* "python error: %s" *)
| conf_add_module_failed (name : string)     (* "could not add \"%s\" Python module" *)
| conf_get_dict_failed (name : string)       (* "could not get \"%s\" Python module dictionary" *)
| conf_open_glob_failed (pattern : string)   (* ngx_open_glob_n " \"%s\" failed" *)
| conf_fopen_failed (file : string).         (* "fopen() \"%s\" failed" *)

(** The process while a configuration is read.  [machine] is the interpreter
    and the tasks; [pcf] the module configuration of the cycle; [initialized]
    and [counter] the statics of [ngx_python_init_namespace]; [sys_modules]
    maps a module name to the dictionary of the module; [new_module_dict]
    gives the dictionary the interpreter makes for a new module of a name
    (its [__name__], its [__doc__] and what else the version of Python puts
    there); [refcnt] counts, for a dictionary, the references this file has
    taken on it with [Py_INCREF] and not given back with [Py_DECREF];
    [cleanup] is the cleanup list of [cf->pool], newest first;
    [python_script] says which of the next Python calls that can fail do,
    and with which exception; [open_globs] counts the globs opened and not
    closed. *)
Record conf_state : Type := {
  machine : state;
  pcf : ngx_python_conf_t;
  initialized : bool;
  counter : N;
  sys_modules : gmap string nat;
  new_module_dict : string -> gmap string PyObject;
  refcnt : gmap nat Z;
  cleanup : list cleanup_handler;
  conf_log : list conf_log_entry;
  python_script : list (option (PyObject * PyObject));
  open_globs : nat
}.

Definition set_machine (v : state) (s : conf_state) : conf_state :=
  {| machine := v; pcf := pcf s; initialized := initialized s;
     counter := counter s; sys_modules := sys_modules s;
     new_module_dict := new_module_dict s; refcnt := refcnt s;
     cleanup := cleanup s; conf_log := conf_log s;
     python_script := python_script s; open_globs := open_globs s |}.

Definition set_pcf (v : ngx_python_conf_t) (s : conf_state) : conf_state :=
  {| machine := machine s; pcf := v; initialized := initialized s;
     counter := counter s; sys_modules := sys_modules s;
     new_module_dict := new_module_dict s; refcnt := refcnt s;
     cleanup := cleanup s; conf_log := conf_log s;
     python_script := python_script s; open_globs := open_globs s |}.

Definition set_initialized (v : bool) (s : conf_state) : conf_state :=
  {| machine := machine s; pcf := pcf s; initialized := v;
     counter := counter s; sys_modules := sys_modules s;
     new_module_dict := new_module_dict s; refcnt := refcnt s;
     cleanup := cleanup s; conf_log := conf_log s;
     python_script := python_script s; open_globs := open_globs s |}.

Definition set_counter (v : N) (s : conf_state) : conf_state :=
  {| machine := machine s; pcf := pcf s; initialized := initialized s;
     counter := v; sys_modules := sys_modules s;
     new_module_dict := new_module_dict s; refcnt := refcnt s;
     cleanup := cleanup s; conf_log := conf_log s;
     python_script := python_script s; open_globs := open_globs s |}.

Definition set_sys_modules (v : gmap string nat) (s : conf_state) : conf_state :=
  {| machine := machine s; pcf := pcf s; initialized := initialized s;
     counter := counter s; sys_modules := v;
     new_module_dict := new_module_dict s; refcnt := refcnt s;
     cleanup := cleanup s; conf_log := conf_log s;
     python_script := python_script s; open_globs := open_globs s |}.

Definition set_cleanup (v : list cleanup_handler) (s : conf_state) : conf_state :=
  {| machine := machine s; pcf := pcf s; initialized := initialized s;
     counter := counter s; sys_modules := sys_modules s;
     new_module_dict := new_module_dict s; refcnt := refcnt s;
     cleanup := v; conf_log := conf_log s;
     python_script := python_script s; open_globs := open_globs s |}.

Definition ngx_conf_log_error (e : conf_log_entry) (s : conf_state) : conf_state :=
  {| machine := machine s; pcf := pcf s; initialized := initialized s;
     counter := counter s; sys_modules := sys_modules s;
     new_module_dict := new_module_dict s; refcnt := refcnt s;
     cleanup := cleanup s; conf_log := (conf_log s ++ [e])%list;
     python_script := python_script s; open_globs := open_globs s |}.

Definition set_refcnt (v : gmap nat Z) (s : conf_state) : conf_state :=
  {| machine := machine s; pcf := pcf s; initialized := initialized s;
     counter := counter s; sys_modules := sys_modules s;
     new_module_dict := new_module_dict s; refcnt := v;
     cleanup := cleanup s; conf_log := conf_log s;
     python_script := python_script s; open_globs := open_globs s |}.

Definition set_python_script (v : list (option (PyObject * PyObject)))
    (s : conf_state) : conf_state :=
  {| machine := machine s; pcf := pcf s; initialized := initialized s;
     counter := counter s; sys_modules := sys_modules s;
     new_module_dict := new_module_dict s; refcnt := refcnt s;
     cleanup := cleanup s; conf_log := conf_log s;
     python_script := v; open_globs := open_globs s |}.

Definition set_open_globs (v : nat) (s : conf_state) : conf_state :=
  {| machine := machine s; pcf := pcf s; initialized := initialized s;
     counter := counter s; sys_modules := sys_modules s;
     new_module_dict := new_module_dict s; refcnt := refcnt s;
     cleanup := cleanup s; conf_log := conf_log s;
     python_script := python_script s; open_globs := v |}.

(** Whether the next Python call that can fail does; a call that fails
    leaves its exception in the error indicator.  Whether a call fails
    because an earlier exception is still pending is for the script to say
    as well. *)
Definition python_call_fails (s : conf_state) : bool * conf_state :=
  let '(exc, rest) := next_outcome None (python_script s) in
  match exc with
  | None => (false, set_python_script rest s)
  | Some (t, v) =>
      (true,
       set_python_script rest
         (set_machine
            (set_ps {| ps_recursion_depth := ps_recursion_depth (ps (machine s));
                       ps_frame := ps_frame (ps (machine s));
                       curexc_type := Some t;
                       curexc_value := Some v;
                       curexc_traceback := None |} (machine s)) s))
  end.

(** [Py_INCREF(o)] and [Py_DECREF(o)] on a dictionary. *)
Definition Py_INCREF (d : nat) (s : conf_state) : conf_state :=
  set_refcnt (<[d := default 0 (refcnt s !! d) + 1]> (refcnt s)) s.

Definition Py_DECREF (d : nat) (s : conf_state) : conf_state :=
  set_refcnt (<[d := default 0 (refcnt s !! d) - 1]> (refcnt s)) s.

(** An allocation from [cf->pool]. *)
Definition conf_palloc (s : conf_state) : option nat * conf_state :=
  let '(p, m) := ngx_palloc (machine s) in (p, set_machine m s).

(** Modelled from nginx: [ngx_pool_cleanup_add(pool, 0)] of ngx_palloc.c
    allocates an entry, leaves its handler null and puts it at the head of
    the list.  The entry returned is named by its position counted from the
    tail of the list, which later additions do not change. *)
Definition ngx_pool_cleanup_add (pool : list cleanup_handler) (m : state)
    : option nat * list cleanup_handler * state :=
  let '(p, m1) := ngx_palloc m in
  match p with
  | None => (None, pool, m1)
  | Some _ => (Some (length pool), handler_unset :: pool, m1)
  end.

(** [cln->handler = h; cln->data = ...]. *)
Definition set_cleanup_handler (cln : nat) (h : cleanup_handler)
    (pool : list cleanup_handler) : list cleanup_handler :=
  alter (fun _ => h) (length pool - S cln)%nat pool.

(** The module [name] of [sys.modules], created when it is not there. *)
Definition add_module (name : string) (s : conf_state) : nat * conf_state :=
  match sys_modules s !! name with
  | Some m => (m, s)
  | None =>
      let m := fresh (dom (dicts (machine s))) in
      (m,
       set_sys_modules (<[name := m]> (sys_modules s))
         (set_machine
            (set_dicts (<[m := new_module_dict s name]> (dicts (machine s)))
               (machine s)) s))
  end.

(** [PyImport_ImportModule(name)], for a module that needs no source file,
    and [PyImport_AddModule(name)]: [None] is [NULL]. *)
Definition PyImport_ImportModule (name : string) (s : conf_state)
    : option nat * conf_state :=
  let '(fails, s1) := python_call_fails s in
  if fails : bool then (None, s1)
  else let '(m, s2) := add_module name s1 in (Some m, s2).

Definition PyImport_AddModule (name : string) (s : conf_state)
    : option nat * conf_state :=
  let '(fails, s1) := python_call_fails s in
  if fails : bool then (None, s1)
  else let '(m, s2) := add_module name s1 in (Some m, s2).

(** [PyModule_GetDict(m)]; a module is named by its dictionary. *)
Definition PyModule_GetDict (m : nat) (s : conf_state)
    : option nat * conf_state :=
  let '(fails, s1) := python_call_fails s in
  if fails : bool then (None, s1) else (Some m, s1).

(** [PyModule_AddIntConstant(m, name, v)]; the code ignores what it
    returns. *)
Definition PyModule_AddIntConstant (m : nat) (name : string) (v : Z)
    (s : conf_state) : conf_state :=
  set_machine (snd (PyDict_SetItemString (machine s) m name (PyLong v))) s.

(** [PyEval_GetBuiltins()]. *)
Definition PyEval_GetBuiltins : PyObject := PyOpaque 0.

(** The constants of lines 657-675, with the values nginx gives them. *)
Definition ngx_constants : list (string * Z) :=
  [("OK", 0); ("ERROR", -1); ("AGAIN", -2); ("BUSY", -3); ("DONE", -4);
   ("DECLINED", -5); ("ABORT", -6);
   ("LOG_EMERG", 1); ("LOG_ALERT", 2); ("LOG_CRIT", 3); ("LOG_ERR", 4);
   ("LOG_WARN", 5); ("LOG_NOTICE", 6); ("LOG_INFO", 7); ("LOG_DEBUG", 8);
   ("SEND_LAST", 1); ("SEND_FLUSH", 2)].

(** Lines 647-676 of [ngx_python_init_namespace]; [false] is the return of
    [NULL] at line 654.  [Py_Initialize()] is not represented: [sys_modules]
    and the dictionaries of the state are those of an interpreter that has
    been initialised. *)
Definition init_interpreter (s : conf_state) : bool * conf_state :=
  if initialized s then (true, s)
  else
    let '(m, s1) := PyImport_ImportModule "ngx" (set_initialized true s) in
    match m with
    | None => (false, s1)
    | Some m =>
        (true,
         foldl (fun s2 '(name, v) => PyModule_AddIntConstant m name v s2)
           s1 ngx_constants)
    end.

(** [ngx_sprintf(name, "ngx%ui%Z", counter)] without the final null, and the
    length of the buffer allocated for it at line 688. *)
Definition namespace_name (n : N) : string := "ngx" +:+ pretty n.

Definition namespace_name_len : nat := (4 + NGX_INT_T_LEN)%nat.

(** Lines 678-726 of [ngx_python_init_namespace]. *)
Definition add_namespace (s : conf_state) : option nat * conf_state :=
  let '(nc, s1) := conf_palloc s in
  match nc with
  | None => (None, s1)
  | Some _ =>
      let '(cln, pool, m2) := ngx_pool_cleanup_add (cleanup s1) (machine s1) in
      let s2 := set_cleanup pool (set_machine m2 s1) in
      match cln with
      | None => (None, s2)
      | Some cln =>
          let '(buf, s3) := conf_palloc s2 in
          match buf with
          | None => (None, s3)
          | Some _ =>
              let name := namespace_name (counter s3) in
              let s4 := set_counter ((counter s3 + 1) mod 2 ^ 64)%N s3 in
              let '(m, s5) := PyImport_AddModule name s4 in
              match m with
              | None =>
                  (None, ngx_conf_log_error (conf_add_module_failed name) s5)
              | Some m =>
                  let '(d, s6) := PyModule_GetDict m s5 in
                  match d with
                  | None =>
                      (None,
                       ngx_conf_log_error (conf_get_dict_failed name) s6)
                  | Some d =>
                      let s7 :=
                        set_cleanup
                          (set_cleanup_handler cln
                             (cleanup_namespace_of d name) (cleanup s6))
                          (Py_INCREF d s6) in
                      let '(fails, s8) := python_call_fails s7 in
                      if fails : bool then (None, s8)
                      else
                        let m9 := snd (PyDict_SetItemString (machine s8) d
                                         "__builtins__" PyEval_GetBuiltins) in
                        (Some d,
                         set_pcf {| pcf_ns := Some d;
                                    pcf_stack_size := pcf_stack_size (pcf s8) |}
                           (set_machine m9 s8))
                  end
              end
          end
      end
  end.

(** Lines 630-727. *)
Definition ngx_python_init_namespace (s : conf_state)
    : option nat * conf_state :=
  match pcf_ns (pcf s) with
  | Some d => (Some d, s)
  | None =>
      let '(ok, s1) := init_interpreter s in
      if ok : bool then add_namespace s1 else (None, s1)
  end.

(** Lines 730-748; what [PyDict_DelItemString] returns is ignored. *)
Definition ngx_python_cleanup_namespace (nc_ns : nat) (nc_name : string)
    (s : conf_state) : conf_state :=
  let s1 := Py_DECREF nc_ns s in
  match sys_modules s1 !! nc_name with
  | None => s1
  | Some _ => set_sys_modules (delete nc_name (sys_modules s1)) s1
  end.

(** Lines 436-445. *)
Definition ngx_python_active (s : conf_state) : ngx_int_t :=
  match pcf_ns (pcf s) with
  | Some _ => NGX_OK
  | None => NGX_DECLINED
  end.

(** Lines 848-868 and 871-879; [ngx_conf_init_size_value] sets the default
    when the value is unset. *)
Definition ngx_python_create_conf (s : conf_state)
    : option ngx_python_conf_t * conf_state :=
  let '(p, s1) := conf_palloc s in
  match p with
  | None => (None, s1)
  | Some _ =>
      (Some {| pcf_ns := None; pcf_stack_size := NGX_CONF_UNSET_SIZE |}, s1)
  end.

Definition ngx_python_init_conf (conf : ngx_python_conf_t) : ngx_python_conf_t :=
  {| pcf_ns := pcf_ns conf;
     pcf_stack_size := if (pcf_stack_size conf =? NGX_CONF_UNSET_SIZE)%Z
                       then 32768 else pcf_stack_size conf |}.

(** Lines 202-240: the record is zeroed memory of [pool] with [ns] and
    [stack_size] filled in at the end; it is there, out of reach, when the
    cleanup entry cannot be allocated. *)
Definition ngx_python_create_ctx (s : conf_state) (pool : list cleanup_handler)
    : option nat * conf_state * list cleanup_handler :=
  match pcf_ns (pcf s) with
  | None => (None, s, pool)
  | Some d =>
      let '(p, m1) := ngx_palloc (machine s) in
      match p with
      | None => (None, set_machine m1 s, pool)
      | Some _ =>
          let c := length (ctxs m1) in
          let m2 := set_ctxs (ctxs m1 ++ [new_ctx 0%nat 0])%list m1 in
          let '(cln, pool1, m3) := ngx_pool_cleanup_add pool m2 in
          match cln with
          | None => (None, set_machine m3 s, pool1)
          | Some cln =>
              (Some c,
               set_machine
                 (with_ctx c (fun _ => new_ctx d (pcf_stack_size (pcf s))) m3) s,
               set_cleanup_handler cln (cleanup_ctx_of c) pool1)
          end
      end
  end.

(** Lines 448-472.  [value] is what the interpreter does with the text of the
    directive; there is no task to switch to while a configuration is
    read. *)
Definition ngx_python_set_slot (fuel : nat) (s : conf_state) (value : prog)
    : outcome (conf_rc * conf_state) :=
  let '(d, s1) := ngx_python_init_namespace s in
  match d with
  | None => Ok (NGX_CONF_ERROR, s1)
  | Some d =>
      '(m, e) ← run fuel (machine s1) d value;
      match e with
      | Switched => Fault
      | Finished None =>
          let '(err, m1) := ngx_python_get_error m in
          Ok (NGX_CONF_ERROR,
              ngx_conf_log_error (conf_python_error err) (set_machine m1 s1))
      | Finished (Some _) => Ok (NGX_CONF_OK, set_machine m s1)
      end
  end.

(** What [Py_CompileString] makes of a text: a code object, or [NULL] with
    an exception raised. *)
Inductive compile_result : Type :=
| compiled (b : prog)
| not_compiled (exc_t exc_v : PyObject).

(** [ngx_sprintf(p, "%V:%ui%Z", &name, line)] without the final null, and the
    length of the buffer allocated for it. *)
Definition compile_filename (name : string) (line : N) : string :=
  name +:+ ":" +:+ pretty line.

Definition compile_filename_len (name : string) : nat :=
  (String.length name + 1 + NGX_INT_T_LEN + 1)%nat.

(** Lines 579-618. *)
Definition ngx_python_compile (s : conf_state) (script : compile_result)
    : option prog * conf_state :=
  let '(d, s1) := ngx_python_init_namespace s in
  match d with
  | None => (None, s1)
  | Some _ =>
      let '(p, s2) := conf_palloc s1 in
      match p with
      | None => (None, s2)
      | Some _ =>
          match script with
          | not_compiled t v =>
              let m := set_ps {| ps_recursion_depth := ps_recursion_depth (ps (machine s2));
                                 ps_frame := ps_frame (ps (machine s2));
                                 curexc_type := Some t;
                                 curexc_value := Some v;
                                 curexc_traceback := None |} (machine s2) in
              let '(err, m1) := ngx_python_get_error m in
              (None,
               ngx_conf_log_error (conf_python_error err) (set_machine m1 s2))
          | compiled b =>
              let '(cln, pool, m3) :=
                ngx_pool_cleanup_add (cleanup s2) (machine s2) in
              let s3 := set_cleanup pool (set_machine m3 s2) in
              match cln with
              | None => (None, s3)
              | Some cln =>
                  (Some b,
                   set_cleanup
                     (set_cleanup_handler cln (decref_of b) (cleanup s3)) s3)
              end
          end
      end
  end.

(** [ngx_sprintf(p, "%s [%s:%l]%Z", text, file, line)] of
    [ngx_python_get_error] without the final null, and the length of the
    buffer allocated for it. *)
Definition error_message (text file : string) (line : Z) : string :=
  text +:+ " [" +:+ file +:+ ":" +:+ pretty line +:+ "]".

Definition error_message_len (text file : string) : nat :=
  (String.length text + 2 + String.length file + 1 + NGX_INT_T_LEN + 2)%nat.

(** [Py_None], and the dictionary of a new module as Python 2.7 makes it. *)
Definition Py_None : PyObject := PyOpaque 1.

Definition module_dict_27 (name : string) : gmap string PyObject :=
  {[ "__name__" := PyString name; "__doc__" := Py_None;
     "__package__" := Py_None ]}.

(** A process in which nothing has been configured yet. *)
Definition cold : conf_state :=
  {| machine := {| ngx_python_ctx := None; ps := ps0; ctxs := [];
                   dicts := ∅; log := []; brk := 100%nat;
                   palloc_script := []; getcontext_script := [];
                   swapcontext_script := [] |};
     pcf := ngx_python_init_conf
              {| pcf_ns := None; pcf_stack_size := NGX_CONF_UNSET_SIZE |};
     initialized := false; counter := 0%N; sys_modules := ∅;
     new_module_dict := module_dict_27; refcnt := ∅;
     cleanup := []; conf_log := []; python_script := []; open_globs := 0%nat |}.

(** No module of [sys.modules] has a name that [ngx_python_init_namespace]
    is still to generate. *)
Definition names_below (s : conf_state) : Prop :=
  ∀ n : N, is_Some (sys_modules s !! namespace_name n) -> (n < counter s)%N.

(** The code of [python "x = 5"], which returns [None], and the states of a
    process that reads this directive, compiles the expression [x] and
    creates a task, with nothing failing. *)
Definition body_set_x : prog :=
  StoreGlobal "x" (PyLong 5) (Return (Some Py_None)).

Definition cold_x : conf_state :=
  match ngx_python_set_slot 3 cold body_set_x with
  | Ok (_, s) => s
  | _ => cold
  end.

Definition cold_x_compiled : conf_state :=
  snd (ngx_python_compile cold_x (compiled body_read_x)).

Definition cold_x_task : conf_state :=
  snd (fst (ngx_python_create_ctx cold_x_compiled [])).

(** ** The directive [python_include] *)

(** [strpbrk(file, "*?[") != NULL]. *)
Fixpoint has_glob_char (file : string) : bool :=
  match file with
  | EmptyString => false
  | String a rest =>
      if decide (a = "*"%char ∨ a = "?"%char ∨ a = "["%char) then true
      else has_glob_char rest
  end.

(** How the loop of lines 521-542 is left: by [break], or by the [return] of
    line 531. *)
Inductive loop_end : Type :=
| loop_break (rv : conf_rc)
| loop_return (rv : conf_rc).

Section Include.

(** The file system and nginx: the full name [ngx_conf_full_name] makes of a
    name ([None] when it fails), the names [ngx_read_glob] gives one by one
    for a pattern ([None] when [ngx_open_glob] fails), and what the
    interpreter does with the content of a file ([None] when [fopen]
    fails). *)
Variable ngx_conf_full_name : string -> option string.
Variable ngx_glob : string -> option (list string).
Variable fopen : string -> option prog.

(** Lines 550-576. *)
Definition ngx_python_include_file (fuel : nat) (s : conf_state) (d : nat)
    (file : string) : outcome (conf_rc * conf_state) :=
  match fopen file with
  | None =>
      Ok (NGX_CONF_ERROR, ngx_conf_log_error (conf_fopen_failed file) s)
  | Some b =>
      '(m, e) ← run fuel (machine s) d b;
      match e with
      | Switched => Fault
      | Finished None =>
          let '(err, m1) := ngx_python_get_error m in
          Ok (NGX_CONF_ERROR,
              ngx_conf_log_error (conf_python_error err) (set_machine m1 s))
      | Finished (Some _) => Ok (NGX_CONF_OK, set_machine m s)
      end
  end.

(** The loop of lines 521-542 over the names the glob still has to give;
    [ngx_pstrdup] allocates from [cf->pool]. *)
Fixpoint include_glob (fuel : nat) (s : conf_state) (d : nat)
    (names : list string) : outcome (loop_end * conf_state) :=
  match names with
  | [] => Ok (loop_break NGX_CONF_OK, s)
  | name :: rest =>
      let '(p, s1) := conf_palloc s in
      match p with
      | None => Ok (loop_return NGX_CONF_ERROR, s1)
      | Some _ =>
          '(rv, s2) ← ngx_python_include_file fuel s1 d name;
          match rv with
          | NGX_CONF_OK => include_glob fuel s2 d rest
          | NGX_CONF_ERROR => Ok (loop_break rv, s2)
          end
      end
  end.

(** Lines 475-547. *)
Definition ngx_python_include_set_slot (fuel : nat) (s : conf_state)
    (value : string) : outcome (conf_rc * conf_state) :=
  let '(d, s1) := ngx_python_init_namespace s in
  match d with
  | None => Ok (NGX_CONF_ERROR, s1)
  | Some d =>
      match ngx_conf_full_name value with
      | None => Ok (NGX_CONF_ERROR, s1)
      | Some file =>
          if has_glob_char file then
            match ngx_glob file with
            | None =>
                Ok (NGX_CONF_ERROR,
                    ngx_conf_log_error (conf_open_glob_failed file) s1)
            | Some names =>
                let s2 := set_open_globs (S (open_globs s1)) s1 in
                '(e, s3) ← include_glob fuel s2 d names;
                match e with
                | loop_return rv => Ok (rv, s3)
                | loop_break rv =>
                    Ok (rv, set_open_globs (pred (open_globs s3)) s3)
                end
            end
          else ngx_python_include_file fuel s1 d file
      end
  end.

End Include.

(** A directory with two files, the second of which raises an error, and a
    third that is not there. *)
Definition two_files (file : string) : option prog :=
  if decide (file = "/etc/a.py") then Some body_set_x
  else if decide (file = "/etc/b.py") then Some (Return None)
  else None.

Definition etc_glob (pattern : string) : option (list string) :=
  if decide (pattern = "/etc/*.py")
  then Some ["/etc/a.py"; "/etc/b.py"; "/etc/c.py"]
  else Some [].

(** The process after [python "x = 5"] when the next allocation fails. *)
Definition cold_x_no_memory : conf_state :=
  set_machine
    {| ngx_python_ctx := ngx_python_ctx (machine cold_x);
       ps := ps (machine cold_x); ctxs := ctxs (machine cold_x);
       dicts := dicts (machine cold_x); log := log (machine cold_x);
       brk := brk (machine cold_x); palloc_script := [true];
       getcontext_script := []; swapcontext_script := [] |}
    cold_x.

(** ** What a body can reach *)

(** Of the task records, only the one of the task [a], if any, may differ
    between [st] and [st']. *)
Definition confined (a : option nat) (st st' : state) : Prop :=
  ∀ c, a ≠ Some c -> ctxs st' !! c = ctxs st !! c.

(** A process in which nothing has been configured yet and the first Python
    call is going to fail, raising the exception [PyOpaque 2] (an
    [ImportError]) with a message. *)
Definition cold_no_ngx : conf_state :=
  set_python_script [Some (PyOpaque 2, PyString "No module named ngx")] cold.
(** * Properties *)

(** ** The namespace interface *)

Section Namespace.

Variables (st : state) (c : nat) (name : string) (value : PyObject).

Lemma dict_of_set_dicts (p q : nat) (m : gmap string PyObject) :
  dict_of (set_dicts (<[p := m]> (dicts st)) st) q =
    if decide (p = q) then m else dict_of st q.
Proof.
  unfold dict_of. simpl. case_decide as Hq.
  - subst q. apply lookup_total_insert_eq.
  - by apply lookup_total_insert_ne.
Qed.

Lemma set_value_unfold :
  ngx_python_set_value st c name value =
    match dict_of st (ns (ctx_at st c)) !! name with
    | None =>
        (None,
         set_dicts (<[ns (ctx_at st c) :=
                        <[name := value]> (dict_of st (ns (ctx_at st c)))]>
                      (dicts st)) st)
    | Some v0 => (Some v0, st)
    end.
Proof.
  unfold ngx_python_set_value, PyDict_GetItemString, PyDict_SetItemString.
  destruct (dict_of st (ns (ctx_at st c)) !! name); reflexivity.
Qed.

End Namespace.

(** C9. Setting a binding with [ngx_python_set_value] and handing what it
    returned to [ngx_python_reset_value] leaves every namespace as it was: a
    name bound before keeps its value, a name absent before is absent again;
    the thread state, the tasks and the log are untouched as well. *)
Theorem set_value_reset_value_roundtrip (st : state) (c : nat) (name : string)
    (value : PyObject) :
  let '(old, st1) := ngx_python_set_value st c name value in
  let st2 := ngx_python_reset_value st1 c name old in
  old = PyDict_GetItemString st (ns (ctx_at st c)) name
  ∧ (∀ (q : nat) (n : string),
        PyDict_GetItemString st2 q n = PyDict_GetItemString st q n)
  ∧ ps st2 = ps st ∧ ctxs st2 = ctxs st ∧ log st2 = log st
  ∧ ngx_python_ctx st2 = ngx_python_ctx st.
Proof.
  rewrite set_value_unfold. unfold PyDict_GetItemString.
  set (p := ns (ctx_at st c)).
  destruct (dict_of st p !! name) as [v0|] eqn:Hold; simpl.
  - repeat split; auto.
  - unfold ngx_python_reset_value, PyDict_DelItemString, ctx_at. simpl.
    fold (ctx_at st c). fold p.
    rewrite dict_of_set_dicts, decide_True by reflexivity.
    rewrite lookup_insert_eq. simpl.
    rewrite delete_insert_id by exact Hold.
    repeat split; auto.
    intros q n. unfold dict_of at 1. simpl.
    destruct (decide (p = q)) as [->|Hq].
    + rewrite lookup_total_insert_eq. reflexivity.
    + rewrite lookup_total_insert_ne by done.
      rewrite lookup_total_insert_ne by done. reflexivity.
Qed.

(** C10. [ngx_python_set_value] installs the supplied value only when the
    name is absent.  When the name is bound it returns the bound value and
    changes nothing, and [ngx_python_reset_value] given that value changes
    nothing either, so the binding the namespace held is still there. *)
Theorem set_value_keeps_existing_binding (st : state) (c : nat) (name : string)
    (value : PyObject) :
  match PyDict_GetItemString st (ns (ctx_at st c)) name with
  | Some v0 =>
      ngx_python_set_value st c name value = (Some v0, st)
      ∧ ngx_python_reset_value st c name (Some v0) = st
  | None =>
      fst (ngx_python_set_value st c name value) = None
      ∧ PyDict_GetItemString (snd (ngx_python_set_value st c name value))
          (ns (ctx_at st c)) name = Some value
      ∧ PyDict_GetItemString
          (ngx_python_reset_value (snd (ngx_python_set_value st c name value))
             c name None)
          (ns (ctx_at st c)) name = None
  end.
Proof.
  rewrite set_value_unfold. unfold PyDict_GetItemString.
  set (p := ns (ctx_at st c)).
  destruct (dict_of st p !! name) as [v0|] eqn:Hold; simpl.
  - split; reflexivity.
  - split; [reflexivity|]. rewrite dict_of_set_dicts, decide_True by reflexivity.
    split; [apply lookup_insert_eq|].
    unfold ngx_python_reset_value, PyDict_DelItemString, ctx_at. simpl.
    fold (ctx_at st c). fold p.
    rewrite dict_of_set_dicts, decide_True by reflexivity.
    rewrite lookup_insert_eq. simpl.
    unfold dict_of. simpl. rewrite lookup_total_insert_eq.
    apply lookup_delete_eq.
Qed.
(** ** Bookkeeping *)

Lemma ctx_at_lookup (st : state) (c : nat) (x : ngx_python_ctx_t) :
  ctxs st !! c = Some x -> ctx_at st c = x.
Proof. intros H. unfold ctx_at. by apply list_lookup_total_correct. Qed.

Lemma with_ctx_lookup (st : state) (c c' : nat)
    (f : ngx_python_ctx_t -> ngx_python_ctx_t) :
  ctxs (with_ctx c f st) !! c' =
    if decide (c = c') then f <$> ctxs st !! c else ctxs st !! c'.
Proof. unfold with_ctx. simpl. apply list_lookup_alter. Qed.

Lemma with_ctx_lookup_eq (st : state) (c : nat) (x : ngx_python_ctx_t)
    (f : ngx_python_ctx_t -> ngx_python_ctx_t) :
  ctxs st !! c = Some x -> ctxs (with_ctx c f st) !! c = Some (f x).
Proof. intros H. rewrite with_ctx_lookup, decide_True, H; done. Qed.

Lemma with_ctx_lookup_ne (st : state) (c c' : nat)
    (f : ngx_python_ctx_t -> ngx_python_ctx_t) :
  c ≠ c' -> ctxs (with_ctx c f st) !! c' = ctxs st !! c'.
Proof. intros H. rewrite with_ctx_lookup, decide_False; done. Qed.

Lemma set_snapshot_snapshot (x : ngx_python_ctx_t) :
  set_snapshot (snapshot x) x = x.
Proof. destruct x; reflexivity. Qed.

Lemma snapshot_set_snapshot (v : PyThreadState) (x : ngx_python_ctx_t) :
  snapshot (set_snapshot v x) = v.
Proof. destruct v; reflexivity. Qed.

(** ** The caller's view of a step *)

Section Caller.

Variable run_code : state -> nat -> prog -> outcome (state * body_end).

Lemma first_step_caller (st : state) (c : nat) (code0 : option prog) (w : nat) :
  match ngx_python_eval_first_step st c code0 w with
  | proceed st1 | return_NULL st1 =>
      ps st1 = ps st ∧ ngx_python_ctx st1 = ngx_python_ctx st
      ∧ dicts st1 = dicts st ∧ log st1 = log st
  end.
Proof.
  unfold ngx_python_eval_first_step.
  destruct (result (ctx_at st c)); try done.
  destruct (stack (ctx_at st c)) as [sp|].
  - unfold getcontext.
    destruct (next_outcome None (getcontext_script st)) as [[e|] rest]; done.
  - unfold ngx_palloc.
    destruct (next_outcome false (palloc_script st)) as [[|] rest]; try done.
    unfold getcontext. simpl.
    destruct (next_outcome None (getcontext_script st)) as [[e|] rest']; done.
Qed.

Lemma eval_finish_caller (st : state) (c : nat) :
  ps (fst (ngx_python_eval_finish st c)) = ps st
  ∧ ngx_python_ctx (fst (ngx_python_eval_finish st c)) = ngx_python_ctx st.
Proof.
  unfold ngx_python_eval_finish. destruct (result (ctx_at st c)); done.
Qed.

Lemma eval_with_wake_caller (st st' : state) (c : nat) (code0 : option prog)
    (w : nat) (r : pyresult) :
  ngx_python_eval_with run_code st c code0 (Some w) = Ok (st', r) ->
  ps st' = ps st ∧ ngx_python_ctx st' = ngx_python_ctx st.
Proof.
  unfold ngx_python_eval_with.
  destruct (ctxs st !! c) as [x|]; [|done].
  pose proof (first_step_caller st c code0 w) as Hfs.
  destruct (ngx_python_eval_first_step st c code0 w) as [st1|st1].
  - destruct Hfs as (Hps & Hctx & _).
    simpl. destruct (switch_to_task run_code _ c) as [st4| |]; try done.
    simpl. intros [= Hfin].
    destruct (eval_finish_caller
      (set_ngx_python_ctx (ngx_python_ctx st1)
         (set_ps (ps st1) (save_snapshot st4 c))) c) as [H1 H2].
    rewrite Hfin in H1, H2. simpl in *. rewrite H1, H2. done.
  - intros [= <- <-]. tauto.
Qed.

End Caller.
(** ** What a step leaves alone *)

Lemma same_task_refl (x : ngx_python_ctx_t) : same_task x x.
Proof. done. Qed.

Lemma same_task_trans (x y z : ngx_python_ctx_t) :
  same_task x y -> same_task y z -> same_task x z.
Proof. unfold same_task. intros (-> & -> & ->) (-> & -> & ->). done. Qed.

Lemma tasks_rel_refl (R : nat -> ngx_python_ctx_t -> ngx_python_ctx_t -> Prop)
    (st st' : state) :
  (∀ c x, R c x x) -> ctxs st' = ctxs st -> tasks_rel R st st'.
Proof. intros HR Heq c. rewrite Heq. destruct (ctxs st !! c); auto. Qed.

Lemma tasks_rel_trans (R1 R2 R3 : nat -> ngx_python_ctx_t -> ngx_python_ctx_t -> Prop)
    (st1 st2 st3 : state) :
  (∀ c x y z, R1 c x y -> R2 c y z -> R3 c x z) ->
  tasks_rel R1 st1 st2 -> tasks_rel R2 st2 st3 -> tasks_rel R3 st1 st3.
Proof.
  intros HR H12 H23 c. specialize (H12 c). specialize (H23 c).
  destruct (ctxs st1 !! c), (ctxs st2 !! c), (ctxs st3 !! c); eauto; done.
Qed.

Lemma tasks_rel_mono (R1 R2 : nat -> ngx_python_ctx_t -> ngx_python_ctx_t -> Prop)
    (st st' : state) :
  (∀ c x y, R1 c x y -> R2 c x y) -> tasks_rel R1 st st' -> tasks_rel R2 st st'.
Proof.
  intros HR H c. specialize (H c).
  destruct (ctxs st !! c), (ctxs st' !! c); eauto.
Qed.

Lemma touches_refl (c : nat) (st st' : state) :
  ctxs st' = ctxs st -> touches c st st'.
Proof. apply tasks_rel_refl. intros; split; [apply same_task_refl|done]. Qed.

Lemma touches_trans (c : nat) (st1 st2 st3 : state) :
  touches c st1 st2 -> touches c st2 st3 -> touches c st1 st3.
Proof.
  apply tasks_rel_trans. intros c' x y z [Hs1 He1] [Hs2 He2]. split.
  - eapply same_task_trans; eauto.
  - intros Hne. rewrite (He2 Hne). auto.
Qed.

Lemma touches_with_ctx (c : nat) (f : ngx_python_ctx_t -> ngx_python_ctx_t)
    (st : state) :
  (∀ x, same_task x (f x)) -> touches c st (with_ctx c f st).
Proof.
  intros Hf c'. rewrite with_ctx_lookup. case_decide as Hc.
  - subst c'. destruct (ctxs st !! c); simpl; [|done]. split; [apply Hf|done].
  - destruct (ctxs st !! c'); [|done]. split; [apply same_task_refl|done].
Qed.

Lemma touches_first_step (st : state) (c : nat) (code0 : option prog) (w : nat) :
  match ngx_python_eval_first_step st c code0 w with
  | proceed st1 | return_NULL st1 => touches c st st1
  end.
Proof.
  unfold ngx_python_eval_first_step.
  destruct (result (ctx_at st c)); try by apply touches_refl.
  destruct (stack (ctx_at st c)) as [sp|].
  - unfold getcontext.
    destruct (next_outcome None (getcontext_script st)) as [[e|] rest].
    + by apply touches_refl.
    + eapply touches_trans; [|by apply touches_with_ctx].
      eapply touches_trans; [|by apply touches_with_ctx].
      by apply touches_refl.
  - unfold ngx_palloc.
    destruct (next_outcome false (palloc_script st)) as [[|] rest].
    + eapply touches_trans; [|by apply touches_with_ctx]. by apply touches_refl.
    + unfold getcontext. simpl.
      destruct (next_outcome None (getcontext_script st)) as [[e|] rest'].
      * eapply touches_trans; [|by apply touches_with_ctx]. by apply touches_refl.
      * eapply touches_trans; [|by apply touches_with_ctx].
        eapply touches_trans; [|by apply touches_with_ctx].
        eapply touches_trans; [|by apply touches_with_ctx].
        by apply touches_refl.
Qed.

Lemma touches_task_handler_store (st : state) (c : nat) (e : body_end) :
  touches c st (task_handler_store st c e).
Proof.
  destruct e as [[o|]|]; simpl.
  - by apply touches_with_ctx.
  - eapply touches_trans; [by apply (touches_with_ctx c (set_result NULL))|].
    by apply touches_refl.
  - by apply touches_refl.
Qed.

Lemma touches_eval_finish (st : state) (c : nat) :
  touches c st (fst (ngx_python_eval_finish st c)).
Proof.
  unfold ngx_python_eval_finish.
  destruct (result (ctx_at st c)); simpl;
    (by apply touches_refl) || (by apply touches_with_ctx).
Qed.
Lemma running_dec (x : ngx_python_ctx_t) : running x ∨ ¬ running x.
Proof.
  unfold running. destruct (result x); try (right; intros [? _]; congruence).
  destruct (uc_mcontext (uc x)); try (right; intros [_ ?]; congruence).
  by left.
Qed.

Section EvalFrame.

Variable run_code : state -> nat -> prog -> outcome (state * body_end).

Hypothesis run_code_frame :
  ∀ st p b st' e, run_code st p b = Ok (st', e) -> run_frame st st' e.

(** The body of task [c] ran between [st2] and [st3]; before and after, only
    the record of [c] was written. *)
Lemma frame_around_body (c : nat) (st st2 st3 st' : state) (e : body_end) :
  touches c st st2 -> ngx_python_ctx st2 = Some c ->
  run_frame st2 st3 e -> touches c st3 st' ->
  tasks_rel (fun c' x x' => same_task x x' ∧ (c' ≠ c -> running x -> x' = x))
    st st'.
Proof.
  intros H1 Hact [_ H2] H3 c'.
  specialize (H1 c'). specialize (H3 c').
  assert (Hmid : match ctxs st2 !! c', ctxs st3 !! c' with
                 | Some x, Some x' =>
                     same_task x x' ∧ (c' ≠ c -> running x -> x' = x)
                 | None, None => True
                 | _, _ => False
                 end).
  { destruct e as [r|].
    - specialize (H2 c').
      destruct (ctxs st2 !! c'), (ctxs st3 !! c'); try done.
      destruct H2 as [Hs Hr]. split; auto.
    - destruct H2 as (a & Ha & H2). rewrite Hact in Ha. injection Ha as <-.
      specialize (H2 c').
      destruct (ctxs st2 !! c'), (ctxs st3 !! c'); try done.
      destruct H2 as [Hs Hr]. split; [done|]. intros Hne Hrun.
      specialize (Hr Hrun). by rewrite decide_False in Hr. }
  destruct (ctxs st !! c') as [x|], (ctxs st2 !! c') as [x2|],
    (ctxs st3 !! c') as [x3|], (ctxs st' !! c') as [x'|]; try done.
  destruct H1 as [Hs1 He1], Hmid as [Hs2 He2], H3 as [Hs3 He3]. split.
  - eauto using same_task_trans.
  - intros Hne Hrun. rewrite (He3 Hne). rewrite <- (He1 Hne).
    apply He2; [done|]. by rewrite (He1 Hne).
Qed.

Lemma switch_to_task_frame (st st' : state) (c : nat) :
  ngx_python_ctx st = Some c ->
  switch_to_task run_code st c = Ok st' ->
  ngx_python_ctx st' = Some c
  ∧ tasks_rel (fun c' x x' => same_task x x' ∧ (c' ≠ c -> running x -> x' = x))
      st st'
  ∧ (∀ x, ctxs st !! c = Some x -> running x ->
       ps st' = ps st ∧ ctxs st' = ctxs st).
Proof.
  intros Hact. unfold switch_to_task, swapcontext.
  destruct (next_outcome None (swapcontext_script st)) as [[errno|] rest].
  { intros [= <-]. simpl. split; [done|]. split; [|done].
    apply tasks_rel_refl; [|done]. intros; split; [apply same_task_refl|done]. }
  set (st1 := {| ngx_python_ctx := ngx_python_ctx st; ps := ps st;
                 ctxs := ctxs st; dicts := dicts st; log := log st;
                 brk := brk st; palloc_script := palloc_script st;
                 getcontext_script := getcontext_script st;
                 swapcontext_script := rest |}).
  assert (Hst1 : touches c st st1) by (by apply touches_refl).
  destruct (uc_mcontext (uc (ctx_at st1 c))) as [| |k|] eqn:Hmc; try done.
  - (* the task starts *)
    unfold ngx_python_task_handler, ngx_python_get_ctx. simpl.
    rewrite Hact.
    set (st2 := with_ctx c (set_mcontext mc_stale) st1).
    destruct (code (ctx_at st2 c)) as [p|]; [|done].
    destruct (run_code st2 (ns (ctx_at st2 c)) p) as [[st3 e]| |] eqn:Hrun;
      try done.
    simpl. intros [= <-].
    pose proof (run_code_frame _ _ _ _ _ Hrun) as Hfr.
    split; [|split].
    + destruct e as [[o|]|]; simpl; destruct Hfr as [-> _]; done.
    + apply (frame_around_body c st st2 st3 _ e); try done.
      * eapply touches_trans; [exact Hst1|]. by apply touches_with_ctx.
      * apply touches_task_handler_store.
    + intros x Hx [_ Hstale]. exfalso.
      rewrite (ctx_at_lookup st1 c x Hx) in Hmc. congruence.
  - (* the task resumes inside ngx_python_yield *)
    set (st2 := with_ctx c (set_mcontext mc_stale) st1).
    assert (Hst2 : touches c st st2).
    { eapply touches_trans; [exact Hst1|]. by apply touches_with_ctx. }
    unfold ngx_python_yield_regain.
    destruct (terminate (ctx_at st2 c)).
    + set (st3 := PyErr_SetString _ _ st2).
      destruct (run_code st3 (ns (ctx_at st3 c)) (k NGX_ERROR))
        as [[st4 e]| |] eqn:Hrun; try done.
      simpl. intros [= <-].
      pose proof (run_code_frame _ _ _ _ _ Hrun) as Hfr.
      split; [|split].
      * destruct e as [[o|]|]; simpl; destruct Hfr as [-> _]; done.
      * apply (frame_around_body c st st3 st4 _ e); try done.
        apply touches_task_handler_store.
      * intros x Hx [_ Hstale]. exfalso.
        rewrite (ctx_at_lookup st1 c x Hx) in Hmc. congruence.
    + destruct (run_code st2 (ns (ctx_at st2 c)) (k NGX_OK))
        as [[st4 e]| |] eqn:Hrun; try done.
      simpl. intros [= <-].
      pose proof (run_code_frame _ _ _ _ _ Hrun) as Hfr.
      split; [|split].
      * destruct e as [[o|]|]; simpl; destruct Hfr as [-> _]; done.
      * apply (frame_around_body c st st2 st4 _ e); try done.
        apply touches_task_handler_store.
      * intros x Hx [_ Hstale]. exfalso.
        rewrite (ctx_at_lookup st1 c x Hx) in Hmc. congruence.
Qed.

Lemma first_step_not_first (st : state) (c : nat) (code0 : option prog)
    (w : nat) :
  result (ctx_at st c) ≠ NULL ->
  ngx_python_eval_first_step st c code0 w = proceed st.
Proof.
  intros H. unfold ngx_python_eval_first_step.
  destruct (result (ctx_at st c)); done.
Qed.

Lemma eval_with_frame (st st' : state) (c : nat) (code0 : option prog)
    (wake0 : option nat) (r : pyresult) :
  ngx_python_eval_with run_code st c code0 wake0 = Ok (st', r) ->
  eval_frame st st'.
Proof.
  intros Heval. destruct wake0 as [w|].
  - (* a step of a task *)
    split; [by eapply eval_with_wake_caller|].
    revert Heval. unfold ngx_python_eval_with.
    destruct (ctxs st !! c) as [x|] eqn:Hx; [|done].
    pose proof (touches_first_step st c code0 w) as Hfs.
    pose proof (first_step_caller st c code0 w) as Hcl.
    destruct (running_dec x) as [Hrun|Hrun].
    + (* the task is running: only a failed swapcontext lets the call return *)
      rewrite first_step_not_first
        by (rewrite (ctx_at_lookup st c x Hx); destruct Hrun; congruence).
      simpl.
      set (st3 := load_snapshot (set_ngx_python_ctx (Some c) st) c).
      destruct (switch_to_task run_code st3 c) as [st4| |] eqn:Hsw; try done.
      apply switch_to_task_frame in Hsw as (_ & _ & Hsame); [|done].
      destruct (Hsame x Hx Hrun) as [Hps Hctxs].
      simpl. unfold ngx_python_eval_finish.
      set (st7 := set_ngx_python_ctx _ (set_ps _ (save_snapshot st4 c))).
      assert (Hst7 : ctxs st7 = ctxs st).
      { unfold st7, save_snapshot, with_ctx. simpl. rewrite Hps, Hctxs.
        unfold st3, load_snapshot. simpl.
        rewrite (ctx_at_lookup (set_ngx_python_ctx (Some c) st) c x Hx).
        apply list_eq. intros i. rewrite list_lookup_alter.
        case_decide; [subst i|done].
        by rewrite Hx; simpl; rewrite set_snapshot_snapshot. }
      assert (Hres : result (ctx_at st7 c) = NGX_PYTHON_AGAIN).
      { unfold ctx_at. rewrite Hst7. fold (ctx_at st c).
        rewrite (ctx_at_lookup st c x Hx). by destruct Hrun. }
      rewrite Hres. intros [= <- <-].
      apply tasks_rel_refl; [|done]. intros; split; [apply same_task_refl|done].
    + destruct (ngx_python_eval_first_step st c code0 w) as [st1|st1].
      * simpl.
        set (st3 := load_snapshot (set_ngx_python_ctx (Some c) st1) c).
        destruct (switch_to_task run_code st3 c) as [st4| |] eqn:Hsw; try done.
        apply switch_to_task_frame in Hsw as (_ & Hrel & _); [|done].
        simpl. intros [= Hfin].
        set (st7 := set_ngx_python_ctx _ (set_ps _ (save_snapshot st4 c))) in Hfin.
        pose proof (touches_eval_finish st7 c) as Hfinish.
        rewrite Hfin in Hfinish. simpl in Hfinish.
        assert (Hsave : touches c st4 st7).
        { eapply touches_trans;
            [apply (touches_with_ctx c (set_snapshot (ps st4))); done|].
          by apply touches_refl. }
        intros c'. specialize (Hfs c'). specialize (Hrel c').
        specialize (Hsave c'). specialize (Hfinish c').
        change (ctxs st3) with (ctxs st1) in Hrel.
        destruct (ctxs st !! c') as [y|] eqn:Hy, (ctxs st1 !! c') as [y1|],
          (ctxs st4 !! c') as [y4|], (ctxs st7 !! c') as [y7|],
          (ctxs st' !! c') as [y'|]; try done.
        destruct Hfs as [Hs1 He1], Hrel as [Hs2 He2], Hsave as [Hs3 He3],
          Hfinish as [Hs4 He4].
        split; [eauto using same_task_trans|].
        intros Hrun'. destruct (decide (c' = c)) as [->|Hne].
        { rewrite Hx in Hy. by injection Hy as ->. }
        rewrite (He4 Hne), (He3 Hne), <- (He1 Hne).
        apply He2; [done|]. by rewrite (He1 Hne).
      * intros [= <- <-]. intros c'. specialize (Hfs c').
        destruct (ctxs st !! c') as [y|] eqn:Hy, (ctxs st1 !! c') as [y1|];
          try done.
        destruct Hfs as [Hs1 He1]. split; [done|].
        intros Hrun'. destruct (decide (c' = c)) as [->|Hne]; [|auto].
        rewrite Hx in Hy. by injection Hy as ->.
  - (* a synchronous evaluation *)
    revert Heval. unfold ngx_python_eval_with.
    destruct (ctxs st !! c) as [x|] eqn:Hx; [|done].
    simpl. destruct code0 as [p|]; [|done].
    set (st1 := set_ngx_python_ctx None st).
    destruct (run_code st1 (ns (ctx_at st1 c)) p) as [[st2 e]| |] eqn:Hrun;
      try done.
    simpl. destruct e as [o|]; [|done].
    apply run_code_frame in Hrun as [_ Hrel].
    intros [= <- <-]. split; [by destruct o|].
    destruct o; exact Hrel.
Qed.

End EvalFrame.

(** Running a body leaves the active task pointer, the length of the task
    table, the static fields of every task and the records of the tasks that
    are running as they were. *)
Lemma run_keeps_frame (fuel : nat) :
  ∀ st p b st' e, run fuel st p b = Ok (st', e) -> run_frame st st' e.
Proof.
  induction fuel as [|fuel IH]; intros st p b st' e; [done|].
  destruct b as [r|f k|name k|name v k|k|c code0 wake0 k]; simpl.
  - intros [= <- <-]. split; [done|].
    apply tasks_rel_refl; [|done]. intros; split; [apply same_task_refl|done].
  - intros H. apply IH in H. exact H.
  - intros H. apply IH in H. exact H.
  - intros H. apply IH in H. exact H.
  - unfold ngx_python_yield_enter, ngx_python_get_ctx.
    destruct (ngx_python_ctx st) as [a|] eqn:Hact.
    + unfold swapcontext.
      destruct (next_outcome None (swapcontext_script st)) as [[errno|] rest].
      * intros H. apply IH in H. exact H.
      * intros [= <- <-]. split; [done|]. exists a. split; [done|].
        intros c'. rewrite with_ctx_lookup. simpl. case_decide as Hc.
        -- subst c'. destruct (ctxs st !! a) as [x|]; simpl; [|done].
           split; [done|]. intros _. rewrite decide_True by done. by exists k.
        -- destruct (ctxs st !! c') as [x|]; [|done]. split; [done|].
           intros _. by rewrite decide_False.
    + intros H. apply IH in H. exact H.
  - destruct (ngx_python_eval_with (run fuel) st c code0 wake0)
      as [[st1 r]| |] eqn:Heval; try done.
    simpl. intros H. apply IH in H.
    apply (eval_with_frame (run fuel) IH) in Heval as [Hact Hrel].
    destruct H as [Hact' H]. split; [congruence|].
    destruct e as [o|].
    + revert Hrel H. apply tasks_rel_trans.
      intros c' x y z [Hs1 He1] [Hs2 He2]. split; [eauto using same_task_trans|].
      intros Hrun. rewrite <- (He1 Hrun). apply He2. by rewrite (He1 Hrun).
    + destruct H as (a & Ha & H). exists a. split; [congruence|].
      revert Hrel H. apply tasks_rel_trans.
      intros c' x y z [Hs1 He1] [Hs2 He2]. split; [eauto using same_task_trans|].
      intros Hrun. pose proof (He1 Hrun) as ->. exact (He2 Hrun).
Qed.

Lemma eval_keeps_frame (fuel : nat) (st st' : state) (c : nat)
    (code0 : option prog) (wake0 : option nat) (r : pyresult) :
  ngx_python_eval fuel st c code0 wake0 = Ok (st', r) -> eval_frame st st'.
Proof. apply eval_with_frame, run_keeps_frame. Qed.
(** ** Suspend *)

(** C4. With no task active, [ngx_python_yield] sets the RuntimeError
    "blocking calls are not allowed" and returns [NGX_ERROR]; it does not
    reach [swapcontext] and leaves every task record, hence every stack,
    alone; called again it fails in the same way and leaves the same state.
    To the body the call is a failed call and nothing else. *)
Theorem yield_without_task (st : state) :
  ngx_python_get_ctx st = None ->
  ngx_python_yield_enter st =
    (yield_return NGX_ERROR,
     PyErr_SetString PyExc_RuntimeError "blocking calls are not allowed" st)
  ∧ ngx_python_yield_enter (snd (ngx_python_yield_enter st)) =
      ngx_python_yield_enter st
  ∧ ctxs (snd (ngx_python_yield_enter st)) = ctxs st
  ∧ swapcontext_script (snd (ngx_python_yield_enter st)) = swapcontext_script st
  ∧ ngx_python_get_ctx (snd (ngx_python_yield_enter st)) = None
  ∧ (∀ (fuel p : nat) (k : ngx_int_t -> prog),
       run (S fuel) st p (Yield k) =
         run fuel
           (PyErr_SetString PyExc_RuntimeError "blocking calls are not allowed" st)
           p (k NGX_ERROR)).
Proof.
  intros Hnone.
  assert (Henter : ∀ st0, ngx_python_get_ctx st0 = None ->
            ngx_python_yield_enter st0 =
              (yield_return NGX_ERROR,
               PyErr_SetString PyExc_RuntimeError
                 "blocking calls are not allowed" st0)).
  { intros st0 H0. unfold ngx_python_yield_enter. by rewrite H0. }
  rewrite (Henter st Hnone). split; [done|].
  split; [exact (Henter (PyErr_SetString _ _ st) Hnone)|].
  repeat (split; [done|]).
  intros fuel p k. simpl. by rewrite (Henter st Hnone).
Qed.

Lemma yield_without_task_at_boot :
  ngx_python_yield_enter boot =
    (yield_return NGX_ERROR,
     PyErr_SetString PyExc_RuntimeError "blocking calls are not allowed" boot)
  ∧ run 2 boot 0 body_sleep =
      Ok (PyErr_SetString PyExc_RuntimeError
            "blocking calls are not allowed" boot, Finished None).
Proof.
  destruct (yield_without_task boot eq_refl) as (H1 & _ & _ & _ & _ & H6).
  split; [exact H1|]. unfold body_sleep. rewrite H6. reflexivity.
Defined.
Lemma frame_keeps_terminate (st st' : state) (c : nat) (x : ngx_python_ctx_t)
    (R : nat -> ngx_python_ctx_t -> ngx_python_ctx_t -> Prop) :
  (∀ c y y', R c y y' -> same_task y y') ->
  tasks_rel R st st' ->
  ctxs st !! c = Some x ->
  ∃ x', ctxs st' !! c = Some x' ∧ terminate x' = terminate x.
Proof.
  intros HR Hrel Hx. specialize (Hrel c). rewrite Hx in Hrel.
  destruct (ctxs st' !! c) as [x'|]; [|done].
  exists x'. split; [done|]. apply HR in Hrel. by destruct Hrel.
Qed.

(** C5. A task whose [terminate] flag is set finds its blocking call failing
    with RuntimeError "terminated" when it is switched to again: the rest of
    the body runs with [NGX_ERROR] as the result of [ngx_python_yield].
    [ngx_python_yield] returns [NGX_OK] only when the flag is unset at that
    moment; a call that returns without switching returns [NGX_ERROR]; and
    neither running a body nor a step of any task unsets the flag. *)
Theorem yield_fails_once_terminated (st : state) (c : nat)
    (x : ngx_python_ctx_t) :
  ctxs st !! c = Some x ->
  terminate x = true ->
  ngx_python_yield_regain st c =
    (NGX_ERROR, PyErr_SetString PyExc_RuntimeError "terminated" st)
  ∧ (∀ run_code k,
       uc_mcontext (uc x) = mc_yield k ->
       fst (swapcontext st) = None ->
       switch_to_task run_code st c =
         '(st4, e) ← run_code
              (PyErr_SetString PyExc_RuntimeError "terminated"
                 (with_ctx c (set_mcontext mc_stale) (snd (swapcontext st))))
              (ns x) (k NGX_ERROR);
         Ok (task_handler_store st4 c e))
  ∧ (∀ st0 c0,
       fst (ngx_python_yield_regain st0 c0) = NGX_OK
       ↔ terminate (ctx_at st0 c0) = false)
  ∧ (∀ st0 rc st1,
       ngx_python_yield_enter st0 = (yield_return rc, st1) -> rc = NGX_ERROR)
  ∧ (∀ fuel p b st' e,
       run fuel st p b = Ok (st', e) ->
       ∃ x', ctxs st' !! c = Some x' ∧ terminate x' = true)
  ∧ (∀ fuel c1 code0 wake0 st' r,
       ngx_python_eval fuel st c1 code0 wake0 = Ok (st', r) ->
       ∃ x', ctxs st' !! c = Some x' ∧ terminate x' = true).
Proof.
  intros Hx Hterm.
  assert (Hregain : ∀ st0, ctxs st0 !! c = Some x ->
            ngx_python_yield_regain st0 c =
              (NGX_ERROR, PyErr_SetString PyExc_RuntimeError "terminated" st0)).
  { intros st0 H0. unfold ngx_python_yield_regain.
    by rewrite (ctx_at_lookup st0 c x H0), Hterm. }
  split; [by apply Hregain|]. split; [|split; [|split; [|split]]].
  - intros run_code k Hmc Hswap. unfold switch_to_task.
    destruct (swapcontext st) as [err st1] eqn:Hsw. simpl in Hswap. subst err.
    assert (Hx1 : ctxs st1 !! c = Some x).
    { revert Hsw. unfold swapcontext.
      destruct (next_outcome None (swapcontext_script st)).
      by intros [= _ <-]. }
    rewrite (ctx_at_lookup st1 c x Hx1), Hmc. simpl.
    unfold ngx_python_yield_regain.
    rewrite (ctx_at_lookup _ c _ (with_ctx_lookup_eq st1 c x _ Hx1)).
    simpl. rewrite Hterm.
    rewrite (ctx_at_lookup (PyErr_SetString _ _ _) c _
               (with_ctx_lookup_eq st1 c x _ Hx1)).
    reflexivity.
  - intros st0 c0. unfold ngx_python_yield_regain.
    destruct (terminate (ctx_at st0 c0)); simpl; split; done.
  - intros st0 rc st1. unfold ngx_python_yield_enter.
    destruct (ngx_python_get_ctx st0); [|by intros [= <- _]].
    destruct (swapcontext st0) as [[errno|] st2]; [by intros [= <- _]|done].
  - intros fuel p b st' e Hrun. apply run_keeps_frame in Hrun as [_ Hrel].
    rewrite <- Hterm. destruct e as [o|].
    + eapply frame_keeps_terminate; [|exact Hrel|exact Hx]. by intros ??? [? _].
    + destruct Hrel as (a & _ & Hrel).
      eapply frame_keeps_terminate; [|exact Hrel|exact Hx]. by intros ??? [? _].
  - intros fuel c1 code0 wake0 st' r Hev.
    apply eval_keeps_frame in Hev as [_ Hrel]. rewrite <- Hterm.
    eapply frame_keeps_terminate; [|exact Hrel|exact Hx]. by intros ??? [? _].
Qed.

Lemma boot_to_sleeping_0 :
  ngx_python_eval 1 boot 0 (Some body_sleep) (Some 5%nat) =
    Ok (sleeping_0, NGX_PYTHON_AGAIN).
Proof. reflexivity. Qed.

Lemma terminated_sleeper_fails :
  ngx_python_yield_regain (with_ctx 0 (set_terminate true) sleeping_0) 0 =
    (NGX_ERROR,
     PyErr_SetString PyExc_RuntimeError "terminated"
       (with_ctx 0 (set_terminate true) sleeping_0))
  ∧ ∃ st', ngx_python_eval 1 (with_ctx 0 (set_terminate true) sleeping_0) 0
             None (Some 5%nat) = Ok (st', NULL)
           ∧ log st' = [log_python_error (Some PyExc_RuntimeError)
                          (Some (PyString "terminated")) None].
Proof.
  split.
  - eapply (yield_fails_once_terminated
              (with_ctx 0 (set_terminate true) sleeping_0) 0); reflexivity.
  - eexists. split; [vm_compute; reflexivity|reflexivity].
Defined.
(** ** Reentrant steps *)

(** C2. When the body of a task steps another task [B], the step returns
    with the live thread state (recursion depth, frame, exception type, value
    and traceback) and the active task pointer it was entered with; if the
    caller is a running task [A], the record of [A] is untouched as well; and
    the body of the caller goes on from there. *)
Theorem nested_step_restores_caller (fuel : nat) (st st1 : state) (p B w : nat)
    (code0 : option prog) (k : pyresult -> prog) (r : pyresult) :
  ngx_python_eval fuel st B code0 (Some w) = Ok (st1, r) ->
  ps st1 = ps st
  ∧ ngx_python_get_ctx st1 = ngx_python_get_ctx st
  ∧ (∀ A x, ngx_python_get_ctx st = Some A -> ctxs st !! A = Some x ->
       running x -> ctxs st1 !! A = Some x)
  ∧ run (S fuel) st p (Eval B code0 (Some w) k) = run fuel st1 p (k r).
Proof.
  intros Hev.
  destruct (eval_with_wake_caller _ _ _ _ _ _ _ Hev) as [Hps Hact].
  split; [done|]. split; [done|]. split.
  - intros A x _ Hx Hrun. apply eval_keeps_frame in Hev as [_ Hrel].
    specialize (Hrel A). rewrite Hx in Hrel.
    destruct (ctxs st1 !! A) as [x1|]; [|done].
    destruct Hrel as [_ Heq]. by rewrite (Heq Hrun).
  - simpl. unfold ngx_python_eval in Hev. by rewrite Hev.
Qed.

Lemma nested_step_in_task_0 :
  ∃ st1,
    ngx_python_eval 2 in_task_0 1 (Some body_call_sleep) (Some 6%nat) =
      Ok (st1, NGX_PYTHON_AGAIN)
    ∧ snapshot (ctx_at st1 1) =
        {| ps_recursion_depth := 1; ps_frame := Some 42%nat;
           curexc_type := None; curexc_value := None;
           curexc_traceback := None |}
    ∧ ps st1 = ps_busy
    ∧ ngx_python_get_ctx st1 = Some 0%nat
    ∧ ctxs st1 !! 0%nat = ctxs in_task_0 !! 0%nat.
Proof.
  eexists. split; [vm_compute; reflexivity|].
  match goal with
  | |- snapshot (ctx_at ?s _) = _ ∧ _ =>
      assert (Hev : ngx_python_eval 2 in_task_0 1 (Some body_call_sleep)
                      (Some 6%nat) = Ok (s, NGX_PYTHON_AGAIN))
        by (vm_compute; reflexivity)
  end.
  split; [vm_compute; reflexivity|].
  destruct (nested_step_restores_caller 2 in_task_0 _ 0 1 6
              (Some body_call_sleep) (fun _ => Return None) NGX_PYTHON_AGAIN
              Hev)
    as (Hps & Hact & Hrec & _).
  split; [exact Hps|]. split; [exact Hact|].
  apply (Hrec 0%nat); [reflexivity|reflexivity|split; reflexivity].
Defined.
(** ** One step of a task *)

Lemma ctx_at_with_ctx (st : state) (c : nat) (x : ngx_python_ctx_t)
    (f : ngx_python_ctx_t -> ngx_python_ctx_t) :
  ctxs st !! c = Some x -> ctx_at (with_ctx c f st) c = f x.
Proof. intros H. apply ctx_at_lookup. by apply with_ctx_lookup_eq. Qed.

Lemma ctx_at_cleared (st : state) (c : nat) :
  let y := ctx_at (with_ctx c
             (fun x => set_result NULL (set_wake None (set_code None x))) st) c in
  result y = NULL ∧ code y = None ∧ wake y = None.
Proof.
  unfold ctx_at, with_ctx. simpl. rewrite list_lookup_total_alter.
  case_decide as Hc; [done|].
  rewrite list_lookup_total_alt.
  destruct (ctxs st !! c) as [x|] eqn:Hx; [|done].
  exfalso. apply Hc. split; [done|]. by eapply lookup_lt_Some.
Qed.

Lemma eval_finish_spec (st : state) (c : nat) :
  let r := result (ctx_at st c) in
  snd (ngx_python_eval_finish st c) = r
  ∧ (r = NGX_PYTHON_AGAIN -> fst (ngx_python_eval_finish st c) = st)
  ∧ (r ≠ NGX_PYTHON_AGAIN ->
       fst (ngx_python_eval_finish st c) =
         with_ctx c (fun x => set_result NULL (set_wake None (set_code None x))) st).
Proof.
  unfold ngx_python_eval_finish. destruct (result (ctx_at st c)); simpl; done.
Qed.

Section OneStep.

Variable run_code : state -> nat -> prog -> outcome (state * body_end).
Variables (st : state) (c : nat) (x : ngx_python_ctx_t).
Variables (code0 : option prog) (w : nat).
Hypothesis Hx : ctxs st !! c = Some x.

Lemma first_step_spec :
  result x = NULL ->
  match ngx_python_eval_first_step st c code0 w with
  | proceed st1 =>
      ∃ sp : nat,
        stack (ctx_at st1 c) = Some sp
        ∧ match stack x with
          | Some sp0 => sp0 = sp
          | None => fst (ngx_palloc st) = Some sp
          end
        ∧ uc (ctx_at st1 c) =
            {| uc_stack_sp := Some sp; uc_stack_size := stack_size x;
               uc_link := Some c; uc_mcontext := mc_entry |}
        ∧ result (ctx_at st1 c) = NGX_PYTHON_AGAIN
        ∧ code (ctx_at st1 c) = code0
        ∧ wake (ctx_at st1 c) = Some w
  | return_NULL st1 =>
      ((stack x = None ∧ fst (ngx_palloc st) = None)
       ∨ is_Some (fst (getcontext st)))
      ∧ result (ctx_at st1 c) = NULL
      ∧ ngx_python_eval_with run_code st c code0 (Some w) = Ok (st1, NULL)
  end.
Proof.
  pose proof (ctx_at_lookup st c x Hx) as Hat.
  intros Hres. unfold ngx_python_eval_with. rewrite Hx.
  unfold ngx_python_eval_first_step. rewrite Hat, Hres.
  destruct (stack x) as [sp0|] eqn:Hstack.
  + unfold getcontext.
    destruct (next_outcome None (getcontext_script st)) as [[e|] rest] eqn:Hn.
    * simpl. split; [right; eauto|]. split; [|done].
      unfold ctx_at. simpl. fold (ctx_at st c). by rewrite Hat.
    * simpl. exists sp0.
      set (st2 := {| ngx_python_ctx := ngx_python_ctx st; ps := ps st;
                     ctxs := ctxs st; dicts := dicts st; log := log st;
                     brk := brk st; palloc_script := palloc_script st;
                     getcontext_script := rest;
                     swapcontext_script := swapcontext_script st |}).
      assert (Hx2 : ctxs st2 !! c = Some x) by done.
      rewrite (ctx_at_with_ctx _ c _ _ (with_ctx_lookup_eq st2 c x _ Hx2)).
      simpl. rewrite Hstack. done.
  + unfold ngx_palloc.
    destruct (next_outcome false (palloc_script st)) as [[|] rest] eqn:Hn.
    * simpl. split; [by left|]. split; [|done].
      set (st1 := {| ngx_python_ctx := ngx_python_ctx st; ps := ps st;
                     ctxs := ctxs st; dicts := dicts st; log := log st;
                     brk := brk st; palloc_script := rest;
                     getcontext_script := getcontext_script st;
                     swapcontext_script := swapcontext_script st |}).
      assert (Hx1 : ctxs st1 !! c = Some x) by done.
      by rewrite (ctx_at_with_ctx st1 c x _ Hx1).
    * unfold getcontext. simpl.
      set (st1 := {| ngx_python_ctx := ngx_python_ctx st; ps := ps st;
                     ctxs := ctxs st; dicts := dicts st; log := log st;
                     brk := S (brk st); palloc_script := rest;
                     getcontext_script := getcontext_script st;
                     swapcontext_script := swapcontext_script st |}).
      assert (Hx1 : ctxs st1 !! c = Some x) by done.
      destruct (next_outcome None (getcontext_script st)) as [[e|] rest'] eqn:Hn'.
      -- simpl. split; [right; eauto|]. split; [|done].
         match goal with
         | |- result (ctx_at ?s c) = _ =>
             change (ctx_at s c) with (ctx_at (with_ctx c (set_stack (Some (brk st))) st1) c)
         end.
         by rewrite (ctx_at_with_ctx st1 c x _ Hx1).
      -- simpl. exists (brk st).
         match goal with
         | |- context [with_ctx c ?f (with_ctx c ?g ?s)] =>
             pose proof (with_ctx_lookup_eq s c _ g
               (with_ctx_lookup_eq st1 c x (set_stack (Some (brk st))) Hx1)) as Hx3;
             rewrite (ctx_at_with_ctx _ c _ f Hx3)
         end.
         simpl. done.
Qed.

Lemma first_step_proceeds :
  (stack x = None -> is_Some (fst (ngx_palloc st))) ->
  fst (getcontext st) = None ->
  ∃ st1, ngx_python_eval_first_step st c code0 w = proceed st1.
Proof.
  pose proof (ctx_at_lookup st c x Hx) as Hat.
  intros Hpalloc Hget. unfold ngx_python_eval_first_step. rewrite Hat.
  destruct (result x); eauto.
  destruct (stack x) as [sp0|] eqn:Hstack.
  + destruct (getcontext st) as [[e|] st2]; [done|eauto].
  + specialize (Hpalloc eq_refl). revert Hpalloc Hget.
    unfold ngx_palloc, getcontext.
    destruct (next_outcome false (palloc_script st)) as [[|] rest].
    * simpl. by intros [? [=]].
    * simpl. destruct (next_outcome None (getcontext_script st)) as [[e|] rest'];
        simpl; [done|eauto].
Qed.

Lemma eval_with_wake_result (st' : state) (r : pyresult) :
  ngx_python_eval_with run_code st c code0 (Some w) = Ok (st', r) ->
  (∃ st1, ngx_python_eval_first_step st c code0 w = return_NULL st1
          ∧ st' = st1 ∧ r = NULL)
  ∨ (∃ st2,
       r = result (ctx_at st2 c)
       ∧ (r = NGX_PYTHON_AGAIN -> st' = st2)
       ∧ (r ≠ NGX_PYTHON_AGAIN ->
            st' = with_ctx c
                    (fun y => set_result NULL (set_wake None (set_code None y)))
                    st2
            ∧ result (ctx_at st' c) = NULL
            ∧ code (ctx_at st' c) = None
            ∧ wake (ctx_at st' c) = None)).
Proof.
  unfold ngx_python_eval_with. rewrite Hx.
  destruct (ngx_python_eval_first_step st c code0 w) as [st1|st1].
  + simpl. destruct (switch_to_task run_code _ c) as [st4| |]; try done.
    simpl. intros [= Hfin]. right.
    set (st7 := set_ngx_python_ctx _ (set_ps _ (save_snapshot st4 c))) in Hfin.
    exists st7. destruct (eval_finish_spec st7 c) as (H1 & H2 & H3).
    rewrite Hfin in H1, H2, H3. simpl in H1, H2, H3. subst r.
    split; [done|]. split; [done|]. intros Hne.
    rewrite (H3 Hne). split; [done|]. apply ctx_at_cleared.
  + intros [= <- <-]. left. eauto.
Qed.

(** What a call that got past the first step returns, in terms of the state
    [st4] in which control came back from the task. *)
Lemma eval_with_wake_return (st' : state) (r : pyresult) :
  ngx_python_eval_with run_code st c code0 (Some w) = Ok (st', r) ->
  (∃ st1, ngx_python_eval_first_step st c code0 w = return_NULL st1
          ∧ st' = st1 ∧ r = NULL)
  ∨ (∃ st1 st4,
       ngx_python_eval_first_step st c code0 w = proceed st1
       ∧ switch_to_task run_code
           (load_snapshot (set_ngx_python_ctx (Some c) st1) c) c = Ok st4
       ∧ let st7 := set_ngx_python_ctx (ngx_python_ctx st)
                      (set_ps (ps st) (save_snapshot st4 c)) in
         r = result (ctx_at st7 c)
         ∧ (r = NGX_PYTHON_AGAIN -> st' = st7)
         ∧ (r ≠ NGX_PYTHON_AGAIN ->
              st' = with_ctx c
                      (fun y => set_result NULL (set_wake None (set_code None y)))
                      st7
              ∧ result (ctx_at st' c) = NULL
              ∧ code (ctx_at st' c) = None
              ∧ wake (ctx_at st' c) = None)).
Proof.
  unfold ngx_python_eval_with. rewrite Hx.
  pose proof (first_step_caller st c code0 w) as Hcl.
  destruct (ngx_python_eval_first_step st c code0 w) as [st1|st1].
  + destruct Hcl as (Hps & Hact & _). simpl.
    destruct (switch_to_task run_code _ c) as [st4| |] eqn:Hsw; try done.
    simpl. rewrite Hps, Hact. intros [= Hfin]. right.
    exists st1, st4. split; [done|]. split; [done|].
    set (st7 := set_ngx_python_ctx _ (set_ps _ (save_snapshot st4 c))) in *.
    destruct (eval_finish_spec st7 c) as (H1 & H2 & H3).
    rewrite Hfin in H1, H2, H3. simpl in H1, H2, H3. subst r.
    split; [done|]. split; [done|]. intros Hne.
    rewrite (H3 Hne). split; [done|]. apply ctx_at_cleared.
  + intros [= <- <-]. left. eauto.
Qed.


End OneStep.




(** ** Failing platform calls *)

(** C8 on the code.  A failure of [getcontext] makes the step return [NULL]
    and a failure of [swapcontext] in [ngx_python_yield] makes the blocking
    call return [NGX_ERROR] with OSError set; but when [swapcontext] fails in
    [ngx_python_eval] the failure is only logged: the body does not run and
    the step returns what the result slot holds, the pending sentinel. *)
Theorem failed_swapcontext_in_eval
    (run_code : state -> nat -> prog -> outcome (state * body_end))
    (st st1 : state) (c : nat) (x : ngx_python_ctx_t) (code0 : option prog)
    (w : nat) (errno : Z) :
  ctxs st !! c = Some x ->
  ngx_python_eval_first_step st c code0 w = proceed st1 ->
  result (ctx_at st1 c) = NGX_PYTHON_AGAIN ->
  fst (swapcontext st1) = Some errno ->
  (∃ st',
     ngx_python_eval_with run_code st c code0 (Some w)
       = Ok (st', NGX_PYTHON_AGAIN)
     ∧ log st' = (log st ++ [log_swapcontext_failed errno])%list
     ∧ result (ctx_at st' c) = NGX_PYTHON_AGAIN
     ∧ uc (ctx_at st' c) = uc (ctx_at st1 c))
  ∧ (∀ st0 c0 e0,
       ngx_python_get_ctx st0 = Some c0 -> fst (swapcontext st0) = Some e0 ->
       ngx_python_yield_enter st0 =
         (yield_return NGX_ERROR,
          PyErr_SetFromErrno PyExc_OSError e0 (snd (swapcontext st0))))
  ∧ (∀ st0 c0 code1 w0,
       result (ctx_at st0 c0) = NULL -> is_Some (stack (ctx_at st0 c0)) ->
       is_Some (fst (getcontext st0)) ->
       ngx_python_eval_first_step st0 c0 code1 w0
         = return_NULL (snd (getcontext st0))).
Proof.
  intros Hx Hfs Hres Hswap. split; [|split].
  - unfold ngx_python_eval_with. rewrite Hx, Hfs. simpl.
    pose proof (first_step_caller st c code0 w) as Hcl. rewrite Hfs in Hcl.
    destruct Hcl as (_ & _ & _ & Hlog).
    pose proof (touches_first_step st c code0 w) as Hto. rewrite Hfs in Hto.
    specialize (Hto c). rewrite Hx in Hto.
    destruct (ctxs st1 !! c) as [x1|] eqn:Hx1; [|done].
    rewrite (ctx_at_lookup st1 c x1 Hx1) in Hres.
    unfold switch_to_task.
    set (st3 := load_snapshot (set_ngx_python_ctx (Some c) st1) c).
    assert (Hsw3 : swapcontext st3 =
              (Some errno,
               {| ngx_python_ctx := Some c; ps := snapshot x1; ctxs := ctxs st1;
                  dicts := dicts st1; log := log st1; brk := brk st1;
                  palloc_script := palloc_script st1;
                  getcontext_script := getcontext_script st1;
                  swapcontext_script :=
                    snd (next_outcome None (swapcontext_script st1)) |})).
    { revert Hswap. unfold swapcontext, st3, load_snapshot. simpl.
      rewrite (ctx_at_lookup (set_ngx_python_ctx (Some c) st1) c x1 Hx1).
      destruct (next_outcome None (swapcontext_script st1)) as [e rest].
      simpl. by intros ->. }
    rewrite Hsw3. simpl.
    set (st7 := set_ngx_python_ctx _ _).
    assert (Hx7 : ctxs st7 !! c = Some x1).
    { unfold st7, save_snapshot, with_ctx. simpl.
      rewrite list_lookup_alter_eq, Hx1. simpl.
      by rewrite set_snapshot_snapshot. }
    unfold ngx_python_eval_finish.
    rewrite (ctx_at_lookup st7 c x1 Hx7), Hres.
    exists st7. split; [done|]. split; [by rewrite <- Hlog|].
    rewrite (ctx_at_lookup st7 c x1 Hx7), (ctx_at_lookup st1 c x1 Hx1). done.
  - intros st0 c0 e0 Hact Hsw0. unfold ngx_python_yield_enter. rewrite Hact.
    destruct (swapcontext st0) as [err st2]. simpl in Hsw0. by subst err.
  - intros st0 c0 code1 w0 Hres0 [sp Hsp] [e Hget].
    unfold ngx_python_eval_first_step. rewrite Hres0, Hsp.
    destruct (getcontext st0) as [err st2]. simpl in Hget. by subst err.
Qed.

Lemma swapcontext_failure_reported_as_pending :
  ∃ st1,
    ngx_python_eval 1 boot_swapcontext_fails 0 (Some body_seven) (Some 5%nat)
      = Ok (st1, NGX_PYTHON_AGAIN)
    ∧ log st1 = [log_swapcontext_failed 12]
    ∧ result (ctx_at st1 0) = NGX_PYTHON_AGAIN
    ∧ uc_mcontext (uc (ctx_at st1 0)) = mc_entry.
Proof.
  destruct (failed_swapcontext_in_eval (run 1) boot_swapcontext_fails _ 0
              (new_ctx 0 32768) (Some body_seven) 5 12 eq_refl eq_refl
              eq_refl eq_refl) as [(st' & Hev & Hlog & Hres & Huc) _].
  exists st'. split; [exact Hev|]. split; [exact Hlog|]. split; [exact Hres|].
  rewrite Huc. reflexivity.
Defined.
(** ** The result slot *)

Lemma eval_keeps_task (fuel : nat) (st st' : state) (c c1 : nat)
    (x : ngx_python_ctx_t) (code0 : option prog) (wake0 : option nat)
    (r : pyresult) :
  ngx_python_eval fuel st c1 code0 wake0 = Ok (st', r) ->
  ctxs st !! c = Some x ->
  ∃ x', ctxs st' !! c = Some x' ∧ same_task x x'.
Proof.
  intros Hev Hx. apply eval_keeps_frame in Hev as [_ Hrel].
  specialize (Hrel c). rewrite Hx in Hrel.
  destruct (ctxs st' !! c) as [x'|]; [|done]. exists x'. by destruct Hrel.
Qed.
(** ** Synchronous evaluation *)

Lemma eval_with_keeps_active
    (run_code : state -> nat -> prog -> outcome (state * body_end))
    (st st' : state) (c : nat) (code0 : option prog) (wake0 : option nat)
    (r : pyresult) :
  ngx_python_eval_with run_code st c code0 wake0 = Ok (st', r) ->
  ngx_python_ctx st' = ngx_python_ctx st.
Proof.
  destruct wake0 as [w|].
  - intros H. by destruct (eval_with_wake_caller _ _ _ _ _ _ _ H).
  - unfold ngx_python_eval_with. destruct (ctxs st !! c); [|done]. simpl.
    destruct code0 as [p|]; [|done].
    destruct (run_code _ _ p) as [[st2 [o|]]| |]; simpl; try done.
    intros [= <- _]. by destruct o.
Qed.

(** With no task active every blocking call of the body fails at once. *)
Lemma run_fail_yields (fuel : nat) :
  ∀ st p b, ngx_python_ctx st = None ->
    run fuel st p (fail_yields b) = run fuel st p b.
Proof.
  induction fuel as [|fuel IH]; intros st p b Hact; [done|].
  destruct b as [r|f k|name k|name v k|k|c code0 wake0 k]; simpl.
  - done.
  - by apply IH.
  - by apply IH.
  - by apply IH.
  - unfold ngx_python_yield_enter, ngx_python_get_ctx. rewrite Hact.
    by apply (IH (set_ps (raise_not_allowed (ps st)) st)).
  - destruct (ngx_python_eval_with (run fuel) st c code0 wake0)
      as [[st1 r]| |] eqn:Hev; try done.
    simpl. apply IH. apply eval_with_keeps_active in Hev. congruence.
Qed.

(** With no task active a body that makes no nested evaluation runs to its
    end on the caller's stack: no task record and no platform script is
    touched. *)
Lemma run_no_eval_outside_task (fuel : nat) :
  ∀ st p b st' e,
    no_eval b -> ngx_python_ctx st = None ->
    run fuel st p b = Ok (st', e) ->
    ngx_python_ctx st' = None ∧ ctxs st' = ctxs st ∧ brk st' = brk st
    ∧ palloc_script st' = palloc_script st
    ∧ getcontext_script st' = getcontext_script st
    ∧ swapcontext_script st' = swapcontext_script st
    ∧ ∃ r, e = Finished r.
Proof.
  induction fuel as [|fuel IH]; intros st p b st' e Hb Hact; [done|].
  destruct b as [r|f k|name k|name v k|k|c code0 wake0 k]; simpl in *.
  - intros [= <- <-]. eauto 10.
  - intros H. by apply IH in H.
  - intros H. by apply IH in H.
  - intros H. by apply IH in H.
  - unfold ngx_python_yield_enter, ngx_python_get_ctx. rewrite Hact.
    intros H. by apply IH in H.
  - done.
Qed.

Lemma graft_same (base py : state) :
  ps py = ps base -> dicts py = dicts base -> graft base py = base.
Proof. intros H1 H2. unfold graft. rewrite H1, H2. by destruct base. Qed.

(** A body that only computes reads and writes nothing but the thread state
    and the namespaces. *)
Lemma run_straight_graft (fuel : nat) :
  ∀ st p b base,
    straight b ->
    run fuel (graft base st) p b =
      match run fuel st p b with
      | Ok (st', e) => Ok (graft base st', e)
      | Fault => Fault
      | OutOfFuel => OutOfFuel
      end.
Proof.
  induction fuel as [|fuel IH]; intros st p b base Hb; [done|].
  destruct b as [r|f k|name k|name v k|k|c code0 wake0 k]; simpl in *; try done.
  - exact (IH (set_ps (f (ps st)) st) p k base Hb).
  - exact (IH st p _ base (Hb _)).
  - exact (IH (snd (PyDict_SetItemString st p name v)) p k base Hb).
Qed.

Lemma run_straight_finishes (fuel : nat) :
  ∀ st p b st' e,
    straight b -> run fuel st p b = Ok (st', e) ->
    (∃ r, e = Finished r) ∧ graft st st' = st'.
Proof.
  induction fuel as [|fuel IH]; intros st p b st' e Hb; [done|].
  destruct b as [r|f k|name k|name v k|k|c code0 wake0 k]; simpl in *; try done.
  - intros [= <- <-]. split; [eauto|]. by apply graft_same.
  - intros H. by apply IH in H.
  - intros H. by apply IH in H.
  - intros H. by apply IH in H.
Qed.


Lemma first_step_keeps (st st1 : state) (c : nat) (x : ngx_python_ctx_t)
    (code0 : option prog) (w : nat) :
  ctxs st !! c = Some x ->
  ngx_python_eval_first_step st c code0 w = proceed st1 ->
  swapcontext_script st1 = swapcontext_script st
  ∧ ∃ x1, ctxs st1 !! c = Some x1 ∧ snapshot x1 = snapshot x.
Proof.
  intros Hx. unfold ngx_python_eval_first_step.
  rewrite (ctx_at_lookup st c x Hx).
  destruct (result x); try (intros [= <-]; eauto).
  destruct (stack x) as [sp|].
  - unfold getcontext.
    destruct (next_outcome None (getcontext_script st)) as [[e|] rest]; [done|].
    intros [= <-]. split; [done|].
    unfold with_ctx. simpl. rewrite !list_lookup_alter_eq, Hx. simpl.
    eexists. split; [reflexivity|]. reflexivity.
  - unfold ngx_palloc.
    destruct (next_outcome false (palloc_script st)) as [[|] rest]; [done|].
    unfold getcontext. simpl.
    destruct (next_outcome None (getcontext_script st)) as [[e|] rest']; [done|].
    intros [= <-]. split; [done|].
    unfold with_ctx. simpl. rewrite !list_lookup_alter_eq, Hx. simpl.
    eexists. split; [reflexivity|]. reflexivity.
Qed.

(** The first step of a task when no platform call fails: the body starts in
    a state [sb] whose thread state is the task's saved one. *)
Lemma first_run_unfold
    (run_code : state -> nat -> prog -> outcome (state * body_end))
    (st : state) (c : nat) (x : ngx_python_ctx_t) (b : prog) (w : nat) :
  ctxs st !! c = Some x ->
  result x = NULL ->
  (stack x = None -> is_Some (fst (ngx_palloc st))) ->
  fst (getcontext st) = None ->
  fst (swapcontext st) = None ->
  ∃ sb xb,
    ps sb = snapshot x ∧ dicts sb = dicts st ∧ log sb = log st
    ∧ ngx_python_ctx sb = Some c
    ∧ ctxs sb !! c = Some xb ∧ ns xb = ns x ∧ running xb
    ∧ ngx_python_eval_with run_code st c (Some b) (Some w) =
        '(st4, e) ← run_code sb (ns x) b;
        Ok (ngx_python_eval_finish
              (set_ngx_python_ctx (ngx_python_ctx st)
                 (set_ps (ps st) (save_snapshot (task_handler_store st4 c e) c)))
              c).
Proof.
  intros Hx Hres Hpalloc Hget Hswap.
  destruct (first_step_proceeds st c x (Some b) w Hx Hpalloc Hget) as [st1 Hfs].
  pose proof (first_step_spec run_code st c x (Some b) w Hx Hres) as Hsp.
  rewrite Hfs in Hsp. destruct Hsp as (sp & _ & _ & Huc & Hr & Hcode & _).
  destruct (first_step_keeps st st1 c x (Some b) w Hx Hfs)
    as (Hscript & x1 & Hx1 & Hsnap).
  pose proof (first_step_caller st c (Some b) w) as Hcl. rewrite Hfs in Hcl.
  destruct Hcl as (Hps & Hact & Hdicts & Hlog).
  pose proof (touches_first_step st c (Some b) w) as Hto. rewrite Hfs in Hto.
  specialize (Hto c). rewrite Hx, Hx1 in Hto. destruct Hto as [(_ & Hns & _) _].
  rewrite (ctx_at_lookup st1 c x1 Hx1) in Huc, Hr, Hcode.
  unfold ngx_python_eval_with. rewrite Hx, Hfs. simpl.
  unfold switch_to_task.
  set (st3 := load_snapshot (set_ngx_python_ctx (Some c) st1) c).
  assert (Hsw3 : ∃ rest, swapcontext st3 =
            (None,
             {| ngx_python_ctx := Some c; ps := snapshot x1; ctxs := ctxs st1;
                dicts := dicts st1; log := log st1; brk := brk st1;
                palloc_script := palloc_script st1;
                getcontext_script := getcontext_script st1;
                swapcontext_script := rest |})).
  { revert Hswap. unfold swapcontext, st3, load_snapshot. simpl.
    rewrite (ctx_at_lookup (set_ngx_python_ctx (Some c) st1) c x1 Hx1).
    rewrite Hscript.
    destruct (next_outcome None (swapcontext_script st)) as [e rest].
    simpl. intros ->. by exists rest. }
  destruct Hsw3 as [rest ->].
  set (st3' := {| ngx_python_ctx := Some c; ctxs := ctxs st1 |}).
  assert (Hx3 : ctxs st3' !! c = Some x1) by done.
  rewrite (ctx_at_lookup st3' c x1 Hx3), Huc. simpl.
  unfold ngx_python_task_handler, ngx_python_get_ctx. simpl.
  set (sb := with_ctx c (set_mcontext mc_stale) st3').
  assert (Hxb : ctxs sb !! c = Some (set_mcontext mc_stale x1))
    by (by apply with_ctx_lookup_eq).
  rewrite (ctx_at_lookup sb c _ Hxb). simpl. rewrite Hcode, Hns.
  exists sb, (set_mcontext mc_stale x1).
  split; [by rewrite <- Hsnap|]. split; [done|]. split; [done|].
  split; [done|]. split; [done|]. split; [done|]. split; [by split|].
  rewrite Hact, Hps. destruct (run_code sb (ns x) b) as [[st4 e]| |]; reflexivity.
Qed.


(** ** Termination of a suspended task *)

Section NoFailures.

Variable run_code : state -> nat -> prog -> outcome (state * body_end).

Hypothesis run_code_script :
  ∀ st p b st' e,
    run_code st p b = Ok (st', e) ->
    swapcontext_script st = [] -> swapcontext_script st' = [].

Lemma first_step_script (st : state) (c : nat) (code0 : option prog) (w : nat) :
  match ngx_python_eval_first_step st c code0 w with
  | proceed st1 | return_NULL st1 =>
      swapcontext_script st1 = swapcontext_script st
  end.
Proof.
  unfold ngx_python_eval_first_step.
  destruct (result (ctx_at st c)); try done.
  destruct (stack (ctx_at st c)) as [sp|].
  - unfold getcontext.
    destruct (next_outcome None (getcontext_script st)) as [[e|] rest]; done.
  - unfold ngx_palloc.
    destruct (next_outcome false (palloc_script st)) as [[|] rest]; try done.
    unfold getcontext. simpl.
    destruct (next_outcome None (getcontext_script st)) as [[e|] rest']; done.
Qed.

Lemma task_handler_store_script (st : state) (c : nat) (e : body_end) :
  swapcontext_script (task_handler_store st c e) = swapcontext_script st.
Proof. by destruct e as [[o|]|]. Qed.

Lemma eval_finish_script (st : state) (c : nat) :
  swapcontext_script (fst (ngx_python_eval_finish st c)) = swapcontext_script st.
Proof. unfold ngx_python_eval_finish. by destruct (result (ctx_at st c)). Qed.

Lemma switch_to_task_script (st st' : state) (c : nat) :
  switch_to_task run_code st c = Ok st' ->
  swapcontext_script st = [] -> swapcontext_script st' = [].
Proof.
  intros H Hs. revert H. unfold switch_to_task, swapcontext. rewrite Hs. simpl.
  destruct (uc_mcontext (uc (ctx_at _ c))) as [| |k|]; try done.
  - unfold ngx_python_task_handler, ngx_python_get_ctx. simpl.
    destruct (ngx_python_ctx st) as [a|]; [|done].
    destruct (code (ctx_at _ a)) as [p|]; [|done].
    destruct (run_code _ _ p) as [[st1 e]| |] eqn:Hrun; try done.
    simpl. intros [= <-]. rewrite task_handler_store_script.
    by apply run_code_script in Hrun.
  - destruct (ngx_python_yield_regain _ c) as [rc st3] eqn:Hre.
    destruct (run_code st3 _ (k rc)) as [[st4 e]| |] eqn:Hrun; try done.
    simpl. intros [= <-]. rewrite task_handler_store_script.
    apply run_code_script in Hrun; [done|].
    revert Hre. unfold ngx_python_yield_regain.
    destruct (terminate (ctx_at _ c)); by intros [= _ <-].
Qed.

Lemma eval_with_script (st st' : state) (c : nat) (code0 : option prog)
    (wake0 : option nat) (r : pyresult) :
  ngx_python_eval_with run_code st c code0 wake0 = Ok (st', r) ->
  swapcontext_script st = [] -> swapcontext_script st' = [].
Proof.
  intros H Hs. revert H. unfold ngx_python_eval_with.
  destruct (ctxs st !! c); [|done]. destruct wake0 as [w|].
  - pose proof (first_step_script st c code0 w) as Hfs.
    destruct (ngx_python_eval_first_step st c code0 w) as [st1|st1].
    + simpl. destruct (switch_to_task run_code _ c) as [st4| |] eqn:Hsw;
        try done.
      apply switch_to_task_script in Hsw; [|simpl; congruence].
      simpl. intros [= Hfin].
      pose proof (eval_finish_script
        (set_ngx_python_ctx (ngx_python_ctx st1)
           (set_ps (ps st1) (save_snapshot st4 c))) c) as Hf.
      rewrite Hfin in Hf. simpl in Hf. congruence.
    + intros [= <- _]. congruence.
  - simpl. destruct code0 as [p|]; [|done].
    destruct (run_code _ _ p) as [[st2 [o|]]| |] eqn:Hrun; simpl; try done.
    apply run_code_script in Hrun; [|done].
    intros [= <- _]. by destruct o.
Qed.

End NoFailures.

Lemma run_keeps_no_failures (fuel : nat) :
  ∀ st p b st' e,
    run fuel st p b = Ok (st', e) ->
    swapcontext_script st = [] -> swapcontext_script st' = [].
Proof.
  induction fuel as [|fuel IH]; intros st p b st' e; [done|].
  destruct b as [r|f k|name k|name v k|k|c code0 wake0 k]; simpl.
  - by intros [= <- _].
  - intros H Hs. by apply IH in H.
  - intros H Hs. by apply IH in H.
  - intros H Hs. by apply IH in H.
  - intros H Hs. revert H. unfold ngx_python_yield_enter, swapcontext.
    rewrite Hs. simpl. destruct (ngx_python_get_ctx st) as [a|].
    + by intros [= <- _].
    + intros H. by apply IH in H.
  - destruct (ngx_python_eval_with (run fuel) st c code0 wake0)
      as [[st1 r]| |] eqn:Hev; try done.
    simpl. intros H Hs. apply IH in H; [done|].
    by apply (eval_with_script (run fuel) IH) in Hev.
Qed.

(** One stretch of the body of the running task [c], from the point where it
    is switched to until it finishes or blocks again, when [swapcontext] does
    not fail. *)
Lemma run_segment (fuel : nat) (c : nat) (x : ngx_python_ctx_t) :
  ∀ st p b st' e n,
    ngx_python_ctx st = Some c -> ctxs st !! c = Some x -> running x ->
    swapcontext_script st = [] -> suspends_le b n ->
    run fuel st p b = Ok (st', e) ->
    match e with
    | Finished _ => ctxs st' !! c = Some x
    | Switched =>
        ∃ k1 m,
          m < n ∧ ctxs st' !! c = Some (set_mcontext (mc_yield k1) x)
          ∧ suspends_le (k1 NGX_ERROR) m
          ∧ (no_eval b -> ∀ rc, no_eval (k1 rc))
    end%nat.
Proof.
  induction fuel as [|fuel IH]; intros st p b st' e n Hact Hx Hrun Hs Hb; [done|].
  destruct b as [r|f k|name k|name v k|k|c1 code0 wake0 k]; simpl in *.
  - by intros [= <- <-].
  - intros H. eapply IH in H; eauto.
  - intros H. eapply IH in H; eauto.
    destruct e; [done|]. destruct H as (k1 & m & ? & ? & ? & Hne).
    exists k1, m. repeat (split; [done|]). intros Hk. by apply Hne.
  - intros H. eapply IH in H; eauto.
  - unfold ngx_python_yield_enter, ngx_python_get_ctx, swapcontext.
    rewrite Hact, Hs. simpl. intros [= <- <-].
    destruct n as [|m]; [done|]. exists k, m.
    split; [lia|]. split; [by apply with_ctx_lookup_eq|]. split; [done|]. auto.
  - destruct (ngx_python_eval_with (run fuel) st c1 code0 wake0)
      as [[st1 r]| |] eqn:Hev; try done.
    simpl. intros H.
    pose proof (eval_with_script (run fuel) (run_keeps_no_failures fuel)
                  _ _ _ _ _ _ Hev Hs) as Hs1.
    apply (eval_with_frame (run fuel) (run_keeps_frame fuel)) in Hev
      as [Hact1 Hrel].
    specialize (Hrel c). rewrite Hx in Hrel.
    destruct (ctxs st1 !! c) as [x1|] eqn:Hx1; [|done].
    destruct Hrel as [_ Heq]. rewrite (Heq Hrun) in Hx1.
    eapply IH in H; eauto; [|congruence].
    destruct e; [done|]. destruct H as (k1 & m & ? & ? & ? & Hne).
    exists k1, m. repeat (split; [done|]). done.
Qed.

(** A step of a doomed task resumes the body with the failed blocking call. *)
Lemma eval_doomed_unfold (st : state) (c w n : nat) :
  doomed st c w n ->
  ∃ sb xs k,
    ngx_python_ctx sb = Some c ∧ ctxs sb !! c = Some xs ∧ running xs
    ∧ wake xs = Some w ∧ terminate xs = true
    ∧ swapcontext_script sb = []
    ∧ suspends_le (k NGX_ERROR) n
    ∧ (∃ x, ctxs st !! c = Some x ∧ uc_mcontext (uc x) = mc_yield k)
    ∧ curexc_value (ps sb) = Some (PyString "terminated")
    ∧ ∀ run_code,
        ngx_python_eval_with run_code st c None (Some w) =
          '(st4, e) ← run_code sb (ns xs) (k NGX_ERROR);
          Ok (ngx_python_eval_finish
                (set_ngx_python_ctx (ngx_python_ctx st)
                   (set_ps (ps st)
                      (save_snapshot (task_handler_store st4 c e) c)))
                c).
Proof.
  intros (x & k & Hx & Hres & Hwake & Hterm & Hmc & Hk & Hs).
  set (st3 := {| ngx_python_ctx := Some c; ps := snapshot x; ctxs := ctxs st;
                 dicts := dicts st; log := log st; brk := brk st;
                 palloc_script := palloc_script st;
                 getcontext_script := getcontext_script st;
                 swapcontext_script := [] |}).
  set (xs := set_mcontext mc_stale x).
  set (st2 := with_ctx c (set_mcontext mc_stale) st3).
  set (sb := PyErr_SetString PyExc_RuntimeError "terminated" st2).
  assert (Hx3 : ctxs st3 !! c = Some x) by done.
  assert (Hx2 : ctxs st2 !! c = Some xs) by (by apply with_ctx_lookup_eq).
  exists sb, xs, k.
  repeat (split; [done|]). split; [by exists x|]. split; [done|].
  intros run_code.
  unfold ngx_python_eval_with. rewrite Hx.
  rewrite first_step_not_first
    by (rewrite (ctx_at_lookup st c x Hx), Hres; done).
  simpl. unfold switch_to_task, swapcontext. simpl. rewrite Hs. simpl.
  unfold load_snapshot. simpl.
  rewrite (ctx_at_lookup (set_ngx_python_ctx (Some c) st) c x Hx).
  fold st3. rewrite (ctx_at_lookup st3 c x Hx3), Hmc.
  fold st2. unfold ngx_python_yield_regain.
  rewrite (ctx_at_lookup st2 c xs Hx2). simpl. rewrite Hterm.
  fold sb. rewrite (ctx_at_lookup sb c xs Hx2).
  change (ns xs) with (ns x).
  destruct (run_code sb (ns x) (k NGX_ERROR)) as [[st4 e]| |]; reflexivity.
Qed.

(** A step of a doomed task: its blocking call fails, and the task finishes
    or blocks again, one blocking call closer to its end. *)
Lemma eval_doomed (fuel : nat) (st st1 : state) (c w n : nat) (r : pyresult) :
  doomed st c w n ->
  ngx_python_eval fuel st c None (Some w) = Ok (st1, r) ->
  (r = NGX_PYTHON_AGAIN
   ∧ ∃ m, (m < n)%nat ∧ doomed st1 c w m
          ∧ ((∀ x k, ctxs st !! c = Some x -> uc_mcontext (uc x) = mc_yield k ->
                     no_eval (k NGX_ERROR)) ->
             ∀ x k, ctxs st1 !! c = Some x -> uc_mcontext (uc x) = mc_yield k ->
                    no_eval (k NGX_ERROR)))
  ∨ (r ≠ NGX_PYTHON_AGAIN ∧ released st1 c).
Proof.
  intros Hd.
  destruct (eval_doomed_unfold st c w n Hd)
    as (sb & xs & k & Hact & Hxs & Hrun & Hwake & Hterm & Hs & Hk
        & (x & Hx & Hmc) & _ & Hev).
  unfold ngx_python_eval. rewrite (Hev (run fuel)). clear Hev.
  destruct (run fuel sb (ns xs) (k NGX_ERROR)) as [[st4 e]| |] eqn:Hbody;
    try done.
  pose proof (run_keeps_no_failures _ _ _ _ _ _ Hbody Hs) as Hs4.
  pose proof (run_segment fuel c xs sb _ _ st4 e n Hact Hxs Hrun Hs Hk Hbody)
    as Hseg.
  simpl. destruct e as [r0|].
  - (* the body finished *)
    intros [= Hfin]. right.
    set (s7 := set_ngx_python_ctx _ _) in Hfin.
    assert (Hx7 : ctxs s7 !! c =
              Some (set_snapshot (ps (task_handler_store st4 c (Finished r0)))
                      (set_result (of_option r0) xs))).
    { unfold s7, save_snapshot, with_ctx. simpl.
      destruct r0 as [o|]; simpl; unfold with_ctx; simpl;
        rewrite !list_lookup_alter_eq, Hseg; done. }
    destruct (eval_finish_spec s7 c) as (H1 & _ & H3).
    rewrite Hfin, (ctx_at_lookup s7 c _ Hx7) in H1, H3. simpl in H1, H3.
    subst r. split; [by destruct r0|].
    rewrite H3 by (by destruct r0).
    eexists. split; [by apply with_ctx_lookup_eq|]. done.
  - (* the body blocked again *)
    destruct Hseg as (k1 & m & Hm & Hx4 & Hk1 & Hne).
    intros [= Hfin]. left.
    set (s7 := set_ngx_python_ctx _ _) in Hfin.
    assert (Hx7 : ctxs s7 !! c =
              Some (set_snapshot (ps st4) (set_mcontext (mc_yield k1) xs))).
    { unfold s7, save_snapshot, with_ctx. simpl.
      rewrite !list_lookup_alter_eq, Hx4. done. }
    destruct (eval_finish_spec s7 c) as (H1 & H2 & _).
    rewrite Hfin, (ctx_at_lookup s7 c _ Hx7) in H1, H2. simpl in H1, H2.
    destruct Hrun as [Hres _].
    subst r. split; [done|]. rewrite (H2 Hres).
    exists m. split; [done|]. split.
    + eexists _, k1. split; [exact Hx7|]. done.
    + intros Hplain y ky Hy Hmy. rewrite Hx7 in Hy. injection Hy as <-.
      simpl in Hmy. injection Hmy as <-.
      apply Hne. by apply (Hplain x k).
Qed.

(** The loop of the cleanup on a doomed task needs no more than [n + 1]
    rounds, and what it leaves is a released record. *)
Lemma cleanup_loop_doomed (fuel : nat) (c w : nat) :
  ∀ n st,
    doomed st c w n ->
    (∀ m, cleanup_loop (S n + m) fuel st c NGX_PYTHON_AGAIN =
            cleanup_loop (S n) fuel st c NGX_PYTHON_AGAIN)
    ∧ (∀ st' r, cleanup_loop (S n) fuel st c NGX_PYTHON_AGAIN = Ok (st', r) ->
         r ≠ NGX_PYTHON_AGAIN ∧ released st' c).
Proof.
  induction n as [n IH] using lt_wf_ind. intros st Hd.
  assert (Hw : wake (ctx_at st c) = Some w).
  { destruct Hd as (x & k & Hx & _ & Hwake & _).
    by rewrite (ctx_at_lookup st c x Hx). }
  split.
  - intros m. simpl. rewrite Hw.
    destruct (ngx_python_eval fuel st c None (Some w)) as [[st1 r]| |] eqn:Hev;
      try done.
    simpl. destruct (eval_doomed _ _ _ _ _ _ _ Hd Hev)
      as [[-> (m' & Hm' & Hd' & _)]|[Hne _]].
    + destruct (IH m' Hm' st1 Hd') as [Hmore _].
      replace (n + m)%nat with (S m' + (n - S m' + m))%nat by lia.
      replace n with (S m' + (n - S m'))%nat at 2 by lia.
      by rewrite !Hmore.
    + destruct r; try done; by destruct n, m.
  - intros st' r'. simpl. rewrite Hw.
    destruct (ngx_python_eval fuel st c None (Some w)) as [[st1 r]| |] eqn:Hev;
      try done.
    simpl. destruct (eval_doomed _ _ _ _ _ _ _ Hd Hev)
      as [[-> (m' & Hm' & Hd' & _)]|[Hne Hrel]].
    + destruct (IH m' Hm' st1 Hd') as [Hmore Hend].
      replace n with (S m' + (n - S m'))%nat by lia.
      rewrite Hmore. apply Hend.
    + destruct r; try done; destruct n; by intros [= <- <-].
Qed.

(** A body that makes no nested evaluation comes to its end or to its next
    blocking call. *)
Lemma run_no_eval_total (b : prog) :
  no_eval b ->
  ∀ st p, ∃ fuel0 st' e, ∀ fuel, (fuel0 ≤ fuel)%nat -> run fuel st p b = Ok (st', e).
Proof.
  induction b as [r|f k IH|name k IH|name v k IH|k IH|c code0 wake0 k IH];
    simpl; intros Hb st p.
  - exists 1%nat, st, (Finished r). intros [|fuel] Hf; [lia|done].
  - destruct (IH Hb (set_ps (f (ps st)) st) p) as (f0 & st' & e & H).
    exists (S f0), st', e. intros [|fuel] Hf; [lia|]. simpl. apply H. lia.
  - destruct (IH (PyDict_GetItemString st p name)
                (Hb (PyDict_GetItemString st p name)) st p)
      as (f0 & st' & e & H).
    exists (S f0), st', e. intros [|fuel] Hf; [lia|]. simpl. apply H. lia.
  - destruct (IH Hb (snd (PyDict_SetItemString st p name v)) p)
      as (f0 & st' & e & H).
    exists (S f0), st', e. intros [|fuel] Hf; [lia|]. simpl. apply H. lia.
  - destruct (ngx_python_yield_enter st) as [[rc|a] st1] eqn:Hy.
    + destruct (IH rc (Hb rc) st1 p) as (f0 & st' & e & H).
      exists (S f0), st', e. intros [|fuel] Hf; [lia|]. simpl. rewrite Hy.
      apply H. lia.
    + exists 1%nat, (with_ctx a (set_mcontext (mc_yield k)) st1), Switched.
      intros [|fuel] Hf; [lia|]. simpl. by rewrite Hy.
  - done.
Qed.

(** When the body makes no nested evaluation the loop of the cleanup comes
    to its end, given fuel enough. *)
Lemma cleanup_loop_total (c w : nat) :
  ∀ n st,
    doomed st c w n ->
    (∀ x k, ctxs st !! c = Some x -> uc_mcontext (uc x) = mc_yield k ->
            no_eval (k NGX_ERROR)) ->
    ∃ fuel0 st' r,
      ∀ fuel, (fuel0 ≤ fuel)%nat ->
        cleanup_loop (S n) fuel st c NGX_PYTHON_AGAIN = Ok (st', r).
Proof.
  induction n as [n IH] using lt_wf_ind. intros st Hd Hplain.
  assert (Hw : wake (ctx_at st c) = Some w).
  { destruct Hd as (x & k & Hx & _ & Hwake & _).
    by rewrite (ctx_at_lookup st c x Hx). }
  destruct (eval_doomed_unfold st c w n Hd)
    as (sb & xs & k & _ & _ & _ & _ & _ & _ & _ & (x & Hx & Hmc) & _ & Hev).
  destruct (run_no_eval_total (k NGX_ERROR) (Hplain x k Hx Hmc) sb (ns xs))
    as (f0 & st4 & e & Hbody).
  set (out := ngx_python_eval_finish
                (set_ngx_python_ctx (ngx_python_ctx st)
                   (set_ps (ps st) (save_snapshot (task_handler_store st4 c e) c)))
                c).
  assert (Hstep : ∀ fuel, (f0 ≤ fuel)%nat ->
            ngx_python_eval fuel st c None (Some w) = Ok (fst out, snd out)).
  { intros fuel Hf. unfold ngx_python_eval.
    rewrite (Hev (run fuel)), (Hbody fuel Hf). simpl. fold out.
    f_equal. apply surjective_pairing. }
  destruct (eval_doomed f0 st (fst out) c w n (snd out) Hd (Hstep f0 (le_n _)))
    as [[Hr (m & Hm & Hd' & Hplain')]|[Hne _]].
  - destruct (IH m Hm (fst out) Hd' (Hplain' Hplain)) as (f1 & st' & r & Hrest).
    exists (Nat.max f0 f1), st', r. intros fuel Hf.
    assert (Hf0 : (f0 ≤ fuel)%nat) by lia.
    simpl. rewrite Hw, (Hstep fuel Hf0). simpl. rewrite Hr.
    destruct (cleanup_loop_doomed fuel c w m (fst out) Hd') as [Hmore _].
    replace n with (S m + (n - S m))%nat by lia.
    rewrite Hmore. apply Hrest. lia.
  - exists f0, (fst out), (snd out). intros fuel Hf.
    simpl. rewrite Hw, (Hstep fuel Hf). simpl.
    destruct (snd out); try done; by destruct n.
Qed.

(** C6, as the code has it.  The cleanup of a task suspended in a blocking
    call sets [terminate] and steps the task with a null code and the wake
    handle stored in the record, again and again while the step returns the
    pending sentinel.  Every blocking call the body makes from then on
    fails, so when [swapcontext] does not fail and the body makes at most [n]
    more blocking calls, [n + 1] rounds are enough: more rounds change
    nothing.  What the loop leaves is a record with an empty result slot; the
    value or error of the body is dropped.  When the body makes no nested
    evaluation the cleanup does come to that end. *)
Theorem cleanup_of_suspended_task (n fuel : nat) (st : state) (c w : nat)
    (x : ngx_python_ctx_t) (k : ngx_int_t -> prog) :
  ctxs st !! c = Some x ->
  result x = NGX_PYTHON_AGAIN ->
  wake x = Some w ->
  uc_mcontext (uc x) = mc_yield k ->
  suspends_le (k NGX_ERROR) n ->
  swapcontext_script st = [] ->
  ngx_python_cleanup_ctx (S n) fuel st c =
    ('(st2, r) ← ngx_python_eval fuel (with_ctx c (set_terminate true) st) c
                   None (Some w);
     '(st3, _) ← cleanup_loop n fuel st2 c r;
     Ok st3)
  ∧ (∀ m, ngx_python_cleanup_ctx (S n + m) fuel st c =
            ngx_python_cleanup_ctx (S n) fuel st c)
  ∧ (∀ st', ngx_python_cleanup_ctx (S n) fuel st c = Ok st' -> released st' c)
  ∧ (no_eval (k NGX_ERROR) ->
     ∃ fuel0 st', ∀ fuel', (fuel0 ≤ fuel')%nat ->
       ngx_python_cleanup_ctx (S n) fuel' st c = Ok st').
Proof.
  intros Hx Hres Hwake Hmc Hk Hs.
  set (st1 := with_ctx c (set_terminate true) st).
  assert (Hx1 : ctxs st1 !! c = Some (set_terminate true x))
    by (by apply with_ctx_lookup_eq).
  assert (Hd : doomed st1 c w n) by (by exists (set_terminate true x), k).
  assert (Hr1 : result (ctx_at st1 c) = NGX_PYTHON_AGAIN)
    by (by rewrite (ctx_at_lookup st1 c _ Hx1)).
  assert (Hw1 : wake (ctx_at st1 c) = Some w)
    by (by rewrite (ctx_at_lookup st1 c _ Hx1)).
  destruct (cleanup_loop_doomed fuel c w n st1 Hd) as [Hmore Hend].
  split; [|split; [|split]].
  - unfold ngx_python_cleanup_ctx. fold st1. rewrite Hr1. simpl. rewrite Hw1.
    destruct (ngx_python_eval fuel st1 c None (Some w)) as [[st2 r]| |]; done.
  - intros m. unfold ngx_python_cleanup_ctx. fold st1. rewrite Hr1.
    by rewrite Hmore.
  - intros st'. unfold ngx_python_cleanup_ctx. fold st1. rewrite Hr1.
    destruct (cleanup_loop (S n) fuel st1 c NGX_PYTHON_AGAIN)
      as [[st2 r]| |] eqn:Hloop; try done.
    simpl. intros [= <-]. by destruct (Hend st2 r eq_refl).
  - intros Hplain.
    destruct (cleanup_loop_total c w n st1 Hd) as (f0 & st' & r & Htot).
    { intros y ky Hy Hmy. rewrite Hx1 in Hy. injection Hy as <-.
      simpl in Hmy. rewrite Hmc in Hmy. by injection Hmy as <-. }
    exists f0, st'. intros fuel' Hf. unfold ngx_python_cleanup_ctx. fold st1.
    rewrite Hr1, (Htot fuel' Hf). done.
Qed.

Lemma cleanup_of_sleeping_0 :
  ∃ st',
    ngx_python_cleanup_ctx 1 1 sleeping_0 0 = Ok st'
    ∧ released st' 0
    ∧ log st' = [log_python_error (Some PyExc_RuntimeError)
                   (Some (PyString "terminated")) None].
Proof.
  eexists. split; [vm_compute; reflexivity|].
  match goal with
  | |- released ?s _ ∧ _ =>
      assert (Hc : ngx_python_cleanup_ctx 1 1 sleeping_0 0 = Ok s)
        by (vm_compute; reflexivity)
  end.
  split; [|vm_compute; reflexivity].
  destruct (cleanup_of_suspended_task 0 1 sleeping_0 0 5 _ after_sleep
              eq_refl eq_refl eq_refl eq_refl I eq_refl) as (_ & _ & Hrel & _).
  exact (Hrel _ Hc).
Defined.

(** C6 as the spec words it fails: the cleanup steps the task with the wake
    handle of the record, which is not null; stepping a suspended task with a
    null wake handle would evaluate the null code. *)
Lemma cleanup_passes_the_wake_handle :
  wake (ctx_at (with_ctx 0 (set_terminate true) sleeping_0) 0) = Some 5%nat
  ∧ (∃ st', ngx_python_cleanup_ctx 1 1 sleeping_0 0 = Ok st'
            ∧ result (ctx_at st' 0) = NULL)
  ∧ cleanup_ctx_null_wake 1 1 sleeping_0 0 = Fault.
Proof.
  split; [vm_compute; reflexivity|]. split.
  - eexists. split; vm_compute; reflexivity.
  - vm_compute; reflexivity.
Qed.
(** ** What a step returns *)

(** The record of task [c] when the first step is over: pending, with the
    namespace it had; prepared to start the code passed to the step when the
    slot was empty, and as it was otherwise. *)
Lemma record_after_first_step
    (run_code : state -> nat -> prog -> outcome (state * body_end))
    (st st1 : state) (c : nat) (x : ngx_python_ctx_t) (code0 : option prog)
    (w : nat) :
  ctxs st !! c = Some x ->
  (∀ o, result x ≠ Ptr o) ->
  ngx_python_eval_first_step st c code0 w = proceed st1 ->
  ∃ x1,
    ctxs st1 !! c = Some x1 ∧ ns x1 = ns x ∧ terminate x1 = terminate x
    ∧ snapshot x1 = snapshot x
    ∧ result x1 = NGX_PYTHON_AGAIN
    ∧ (result x = NULL ∧ code x1 = code0 ∧ uc_mcontext (uc x1) = mc_entry
       ∨ result x = NGX_PYTHON_AGAIN ∧ x1 = x).
Proof.
  intros Hx Hptr Hfs.
  destruct (first_step_keeps st st1 c x code0 w Hx Hfs)
    as (_ & x0 & Hx0 & Hsnap).
  destruct (result x) as [| |o] eqn:Hres; [| |by destruct (Hptr o)].
  - pose proof (first_step_spec run_code st c x code0 w Hx Hres) as Hsp.
    rewrite Hfs in Hsp. destruct Hsp as (sp & _ & _ & Huc & Hr & Hc0 & _).
    pose proof (touches_first_step st c code0 w) as Hto. rewrite Hfs in Hto.
    specialize (Hto c). rewrite Hx in Hto.
    destruct (ctxs st1 !! c) as [x1|] eqn:Hx1; [|done].
    destruct Hto as [(Hterm & Hns & _) _].
    rewrite (ctx_at_lookup st1 c x1 Hx1) in Huc, Hr, Hc0.
    injection Hx0 as <-.
    exists x1. split; [done|]. split; [done|]. split; [done|].
    split; [done|]. split; [done|]. left. by rewrite Huc.
  - rewrite first_step_not_first in Hfs
      by (by rewrite (ctx_at_lookup st c x Hx), Hres).
    injection Hfs as <-. exists x. split; [done|]. split; [done|].
    split; [done|]. split; [done|]. split; [done|]. by right.
Qed.

(** When the body a step runs comes to its end or blocks, the record of the
    task is there to take the result, still pending. *)
Lemma record_after_body (fuel : nat) (sb s5 : state) (c p : nat)
    (xb : ngx_python_ctx_t) (body : prog) (e : body_end) :
  ctxs sb !! c = Some xb -> running xb -> ngx_python_ctx sb = Some c ->
  run fuel sb p body = Ok (s5, e) ->
  ∃ x5, ctxs s5 !! c = Some x5 ∧ result x5 = NGX_PYTHON_AGAIN.
Proof.
  intros Hxb Hrun Hact Hbody.
  apply run_keeps_frame in Hbody as [_ Hframe].
  destruct e as [ro|].
  - specialize (Hframe c). rewrite Hxb in Hframe.
    destruct (ctxs s5 !! c) as [x5|]; [|done].
    destruct Hframe as [_ Heq]. rewrite (Heq Hrun).
    exists xb. split; [done|]. by destruct Hrun.
  - destruct Hframe as (a & Ha & Hframe). specialize (Hframe c).
    rewrite Hxb in Hframe.
    destruct (ctxs s5 !! c) as [x5|]; [|done].
    destruct Hframe as [_ Heq]. specialize (Heq Hrun).
    rewrite Hact in Ha. injection Ha as <-. rewrite decide_True in Heq by done.
    destruct Heq as [k ->]. exists (set_mcontext (mc_yield k) xb).
    split; [done|]. by destruct Hrun.
Qed.

(** What a step with a wake handle returns, by what happened in it. *)
Lemma step_returns_body_end (fuel : nat) (st st' : state) (c : nat)
    (x : ngx_python_ctx_t) (code0 : option prog) (w : nat) (r : pyresult) :
  ctxs st !! c = Some x ->
  (∀ o, result x ≠ Ptr o) ->
  ngx_python_eval fuel st c code0 (Some w) = Ok (st', r) ->
  (∃ st1, ngx_python_eval_first_step st c code0 w = return_NULL st1
          ∧ st' = st1 ∧ r = NULL)
  ∨ (∃ errno,
       r = NGX_PYTHON_AGAIN
       ∧ log st' = (log st ++ [log_swapcontext_failed errno])%list)
  ∨ (∃ sb body s5 e,
       run fuel sb (ns x) body = Ok (s5, e)
       ∧ ngx_python_ctx sb = Some c
       ∧ dicts sb = dicts st ∧ log sb = log st
       ∧ (result x = NULL ∧ code0 = Some body ∧ ps sb = snapshot x
          ∨ result x = NGX_PYTHON_AGAIN
            ∧ (uc_mcontext (uc x) = mc_entry ∧ code x = Some body
               ∧ ps sb = snapshot x
               ∨ ∃ k, uc_mcontext (uc x) = mc_yield k
                      ∧ body = k (if terminate x then NGX_ERROR else NGX_OK)
                      ∧ ps sb =
                          if terminate x
                          then ps (PyErr_SetString PyExc_RuntimeError
                                     "terminated" (set_ps (snapshot x) st))
                          else snapshot x))
       ∧ ngx_python_eval_finish
           (set_ngx_python_ctx (ngx_python_ctx st)
              (set_ps (ps st) (save_snapshot (task_handler_store s5 c e) c)))
           c = (st', r)
       ∧ r = match e with
             | Finished ro => of_option ro
             | Switched => NGX_PYTHON_AGAIN
             end).
Proof.
  intros Hx Hptr Hev.
  destruct (eval_with_wake_return (run fuel) st c x code0 w Hx st' r Hev)
    as [(st1 & Hfs & -> & ->)|(st1 & st4 & Hfs & Hsw & Hr & Hag & _)];
    [left; eauto|right].
  destruct (record_after_first_step (run fuel) st st1 c x code0 w Hx Hptr Hfs)
    as (x1 & Hx1 & Hns & Hterm & Hsnap & Hres1 & Hkind).
  pose proof (first_step_caller st c code0 w) as Hcl. rewrite Hfs in Hcl.
  destruct Hcl as (Hps & Hact & Hdicts & Hlog).
  assert (Hfinish : ngx_python_eval_finish
            (set_ngx_python_ctx (ngx_python_ctx st)
               (set_ps (ps st) (save_snapshot st4 c))) c = (st', r)).
  { revert Hev. unfold ngx_python_eval, ngx_python_eval_with.
    rewrite Hx, Hfs. simpl. rewrite Hsw. simpl. rewrite Hps, Hact.
    by intros [= ->]. }
  set (st3 := load_snapshot (set_ngx_python_ctx (Some c) st1) c) in Hsw.
  assert (Hx3 : ctxs st3 !! c = Some x1) by done.
  assert (Hps3 : ps st3 = snapshot x).
  { unfold st3, load_snapshot. simpl.
    by rewrite (ctx_at_lookup (set_ngx_python_ctx (Some c) st1) c x1 Hx1). }
  assert (Hkeep : ∀ x4, ctxs st4 !! c = Some x4 ->
            r = result x4).
  { intros x4 Hx4. rewrite Hr.
    erewrite ctx_at_lookup; [|unfold save_snapshot, with_ctx; simpl;
      by rewrite list_lookup_alter_eq, Hx4]. done. }
  revert Hsw. unfold switch_to_task, swapcontext.
  destruct (next_outcome None (swapcontext_script st3)) as [[errno|] rest].
  { intros [= <-]. left. exists errno.
    assert (Hr' : r = NGX_PYTHON_AGAIN) by (by rewrite (Hkeep x1 Hx3)).
    split; [done|]. rewrite (Hag Hr'). simpl. by rewrite Hlog. }
  set (st3' := {| ngx_python_ctx := ngx_python_ctx st3 |}).
  assert (Hx3' : ctxs st3' !! c = Some x1) by done.
  rewrite (ctx_at_lookup st3' c x1 Hx3').
  assert (Hrunning : running (set_mcontext mc_stale x1)) by (by split).
  assert (Hend : ∀ sb' body s5 e,
            ctxs sb' !! c = Some (set_mcontext mc_stale x1) ->
            ngx_python_ctx sb' = Some c ->
            run fuel sb' (ns x) body = Ok (s5, e) ->
            task_handler_store s5 c e = st4 ->
            r = match e with
                | Finished ro => of_option ro
                | Switched => NGX_PYTHON_AGAIN
                end).
  { intros sb' body s5 e Hxb' Hact' Hbody Hst4.
    destruct (record_after_body fuel sb' s5 c (ns x) _ body e Hxb' Hrunning
                Hact' Hbody) as (x5 & Hx5 & Hres5).
    destruct e as [ro|].
    - apply Hkeep with (x4 := set_result (of_option ro) x5).
      rewrite <- Hst4. destruct ro as [o|]; simpl.
      + by apply with_ctx_lookup_eq.
      + by apply (with_ctx_lookup_eq s5 c x5 (set_result NULL)).
    - rewrite (Hkeep x5); [done|]. by rewrite <- Hst4. }
  destruct (uc_mcontext (uc x1)) as [| |k|] eqn:Hmc; [done| | |done].
  - unfold ngx_python_task_handler, ngx_python_get_ctx. simpl.
    set (sb := with_ctx c (set_mcontext mc_stale) st3').
    assert (Hxb : ctxs sb !! c = Some (set_mcontext mc_stale x1))
      by (by apply with_ctx_lookup_eq).
    rewrite (ctx_at_lookup sb c _ Hxb). simpl.
    destruct (code x1) as [body|] eqn:Hbody; [|done]. rewrite Hns.
    destruct (run fuel sb (ns x) body) as [[s5 e]| |] eqn:Hrun; [|done..].
    simpl. intros [= Hst4]. right.
    exists sb, body, s5, e. split; [done|]. split; [done|].
    split; [done|]. split; [done|]. split; [|split].
    + destruct Hkind as [(Hres & Hc0 & _)|(Hres & ->)].
      * left. split; [done|]. split; [by rewrite <- Hc0|done].
      * right. split; [done|]. left. by split.
    + by rewrite Hst4.
    + by apply (Hend sb body s5 e).
  - set (sb := with_ctx c (set_mcontext mc_stale) st3').
    assert (Hxb : ctxs sb !! c = Some (set_mcontext mc_stale x1))
      by (by apply with_ctx_lookup_eq).
    unfold ngx_python_yield_regain.
    rewrite (ctx_at_lookup sb c _ Hxb). simpl.
    assert (Hxk : result x = NGX_PYTHON_AGAIN ∧ x1 = x).
    { destruct Hkind as [(_ & _ & Hentry)|H]; [congruence|done]. }
    destruct Hxk as [Hresx ->].
    destruct (terminate x) eqn:Ht; simpl.
    + set (sb' := PyErr_SetString _ _ sb).
      assert (Hxb' : ctxs sb' !! c = Some (set_mcontext mc_stale x)) by done.
      rewrite (ctx_at_lookup sb' c _ Hxb'). simpl.
      destruct (run fuel sb' (ns x) (k NGX_ERROR)) as [[s5 e]| |] eqn:Hrun;
        [|done..].
      simpl. intros [= Hst4]. right.
      exists sb', (k NGX_ERROR), s5, e. split; [done|]. split; [done|].
      split; [done|]. split; [done|]. split; [|split].
      * right. split; [done|]. right. exists k. split; [done|].
        split; [done|]. unfold sb', PyErr_SetString. simpl.
        by rewrite (ctx_at_lookup (set_ngx_python_ctx (Some c) st1) c x Hx1).
      * by rewrite Hst4.
      * by apply (Hend sb' (k NGX_ERROR) s5 e).
    + rewrite (ctx_at_lookup sb c _ Hxb). simpl.
      destruct (run fuel sb (ns x) (k NGX_OK)) as [[s5 e]| |] eqn:Hrun;
        [|done..].
      simpl. intros [= Hst4]. right.
      exists sb, (k NGX_OK), s5, e. split; [done|]. split; [done|].
      split; [done|]. split; [done|]. split; [|split].
      * right. split; [done|]. right. by exists k.
      * by rewrite Hst4.
      * by apply (Hend sb (k NGX_OK) s5 e).
Qed.

(** C3, as the code has it.  A step on a task whose result slot is not empty
    prepares nothing anew; when the body finishes, the task handler stores
    its result, which is never the pending sentinel, in the slot; and the
    call of [ngx_python_eval] that finds it there hands it out and empties
    the slot.  So after a step the slot is pending if the step returned the
    pending sentinel and empty otherwise, and once a result has been handed
    out a later step on the same record is a first step again: it prepares
    the context anew, and when no platform call fails it runs the code
    passed to that step, on the saved thread state of the task.  What a step
    returns is decided by what happened in it: [NULL] when the first step
    could not be prepared, the pending sentinel when [swapcontext] failed,
    and otherwise the result of the body it ran if the body came to its end
    and the pending sentinel if the body blocked; the body is the code passed
    to the step when the slot was empty, and else the code or the rest of
    the body the record holds; it starts with the namespaces and the log of
    the caller and the thread state saved in the record (with the error
    [RuntimeError "terminated"] set when the record is terminated), and the
    step returns what lines 340-347 make of the state the body left. *)
Theorem result_slot_after_step (fuel : nat) (st st' : state) (c : nat)
    (x : ngx_python_ctx_t) (code0 : option prog) (w : nat) (r : pyresult) :
  ctxs st !! c = Some x ->
  ngx_python_eval fuel st c code0 (Some w) = Ok (st', r) ->
  (result x ≠ NULL -> ngx_python_eval_first_step st c code0 w = proceed st)
  ∧ (∀ st0 y r0,
       ctxs st0 !! c = Some y ->
       result (ctx_at (task_handler_store st0 c (Finished r0)) c) = of_option r0
       ∧ of_option r0 ≠ NGX_PYTHON_AGAIN)
  ∧ result (ctx_at st' c) =
      match r with
      | NGX_PYTHON_AGAIN => NGX_PYTHON_AGAIN
      | _ => NULL
      end
  ∧ (r ≠ NGX_PYTHON_AGAIN ->
     ∀ code1 w1,
       (stack (ctx_at st' c) = None -> is_Some (fst (ngx_palloc st'))) ->
       fst (getcontext st') = None ->
       ∃ st1,
         ngx_python_eval_first_step st' c code1 w1 = proceed st1
         ∧ result (ctx_at st1 c) = NGX_PYTHON_AGAIN
         ∧ code (ctx_at st1 c) = code1
         ∧ wake (ctx_at st1 c) = Some w1
         ∧ uc_mcontext (uc (ctx_at st1 c)) = mc_entry)
  ∧ ((∀ o, result x ≠ Ptr o) ->
     (∃ st1, ngx_python_eval_first_step st c code0 w = return_NULL st1
             ∧ st' = st1 ∧ r = NULL)
     ∨ (∃ errno,
          r = NGX_PYTHON_AGAIN
          ∧ log st' = (log st ++ [log_swapcontext_failed errno])%list)
     ∨ (∃ sb body s5 e,
          run fuel sb (ns x) body = Ok (s5, e)
          ∧ ngx_python_ctx sb = Some c
          ∧ dicts sb = dicts st ∧ log sb = log st
          ∧ (result x = NULL ∧ code0 = Some body ∧ ps sb = snapshot x
             ∨ result x = NGX_PYTHON_AGAIN
               ∧ (uc_mcontext (uc x) = mc_entry ∧ code x = Some body
                  ∧ ps sb = snapshot x
                  ∨ ∃ k, uc_mcontext (uc x) = mc_yield k
                         ∧ body = k (if terminate x then NGX_ERROR
                                     else NGX_OK)
                         ∧ ps sb =
                             if terminate x
                             then ps (PyErr_SetString PyExc_RuntimeError
                                        "terminated"
                                        (set_ps (snapshot x) st))
                             else snapshot x))
          ∧ ngx_python_eval_finish
              (set_ngx_python_ctx (ngx_python_ctx st)
                 (set_ps (ps st)
                    (save_snapshot (task_handler_store s5 c e) c)))
              c = (st', r)
          ∧ r = match e with
                | Finished ro => of_option ro
                | Switched => NGX_PYTHON_AGAIN
                end))
  ∧ (r ≠ NGX_PYTHON_AGAIN ->
     ∀ fuel1 b1 w1,
       (stack (ctx_at st' c) = None -> is_Some (fst (ngx_palloc st'))) ->
       fst (getcontext st') = None ->
       fst (swapcontext st') = None ->
       ∃ sb,
         ps sb = snapshot (ctx_at st' c) ∧ dicts sb = dicts st'
         ∧ ngx_python_ctx sb = Some c
         ∧ ngx_python_eval fuel1 st' c (Some b1) (Some w1) =
             '(st4, e) ← run fuel1 sb (ns x) b1;
             Ok (ngx_python_eval_finish
                   (set_ngx_python_ctx (ngx_python_ctx st')
                      (set_ps (ps st')
                         (save_snapshot (task_handler_store st4 c e) c)))
                   c)).
Proof.
  intros Hx Hev.
  assert (Hslot : result (ctx_at st' c) =
            match r with NGX_PYTHON_AGAIN => NGX_PYTHON_AGAIN | _ => NULL end).
  { destruct (eval_with_wake_result _ _ _ _ _ _ Hx _ _ Hev)
      as [(st1 & Hfs & -> & ->)|(st2 & Hr & Hag & Hfin)].
    - destruct (result x) eqn:Hres.
      + pose proof (first_step_spec (run fuel) st c x code0 w Hx Hres) as Hsp.
        rewrite Hfs in Hsp. by destruct Hsp as (_ & ? & _).
      + rewrite first_step_not_first in Hfs; [done|].
        by rewrite (ctx_at_lookup st c x Hx), Hres.
      + rewrite first_step_not_first in Hfs; [done|].
        by rewrite (ctx_at_lookup st c x Hx), Hres.
    - destruct (decide (r = NGX_PYTHON_AGAIN)) as [->|Hne].
      + by rewrite (Hag eq_refl).
      + destruct (Hfin Hne) as (_ & -> & _). by destruct r. }
  split; [|split; [|split; [|split; [|split]]]].
  - intros Hres. apply first_step_not_first.
    by rewrite (ctx_at_lookup st c x Hx).
  - intros st0 y r0 Hy. split; [|by destruct r0].
    destruct r0 as [o|]; simpl.
    + by rewrite (ctx_at_with_ctx st0 c y _ Hy).
    + unfold log_python_error_of. simpl.
      change (ctx_at _ c) with (ctx_at (with_ctx c (set_result NULL) st0) c).
      by rewrite (ctx_at_with_ctx st0 c y _ Hy).
  - exact Hslot.
  - intros Hne code1 w1 Hpalloc Hget.
    destruct (eval_keeps_task _ _ _ c _ _ _ _ _ Hev Hx) as (x' & Hx' & _).
    pose proof (ctx_at_lookup st' c x' Hx') as Hat'.
    rewrite Hat' in Hpalloc, Hslot.
    assert (Hres' : result x' = NULL) by (rewrite Hslot; by destruct r).
    destruct (first_step_proceeds st' c x' code1 w1 Hx' Hpalloc Hget)
      as [st1 Hst1].
    pose proof (first_step_spec (run fuel) st' c x' code1 w1 Hx' Hres') as Hsp.
    rewrite Hst1 in Hsp. destruct Hsp as (sp & _ & _ & Huc & Hr & Hc & Hw).
    exists st1. rewrite Huc. done.
  - intros Hptr. by apply (step_returns_body_end fuel st st' c x code0 w r).
  - intros Hne fuel1 b1 w1 Hpalloc Hget Hswap.
    destruct (eval_keeps_task _ _ _ c _ _ _ _ _ Hev Hx)
      as (x' & Hx' & _ & Hns & _).
    pose proof (ctx_at_lookup st' c x' Hx') as Hat'.
    rewrite Hat' in Hpalloc, Hslot |- *.
    assert (Hres' : result x' = NULL) by (rewrite Hslot; by destruct r).
    destruct (first_run_unfold (run fuel1) st' c x' b1 w1 Hx' Hres' Hpalloc
                Hget Hswap)
      as (sb & xb & Hps & Hd & _ & Hact & _ & _ & _ & Heq).
    exists sb. rewrite <- Hns. done.
Qed.

Lemma sleeper_returns_and_is_fresh :
  ∃ st1,
    ngx_python_eval 1 sleeping_0 0 None (Some 5%nat) = Ok (st1, Ptr (PyLong 7))
    ∧ result (ctx_at st1 0) = NULL
    ∧ ∃ st2,
        ngx_python_eval_first_step st1 0 (Some body_seven) 6 = proceed st2
        ∧ code (ctx_at st2 0) = Some body_seven.
Proof.
  eexists. split; [vm_compute; reflexivity|].
  match goal with
  | |- result (ctx_at ?s _) = _ ∧ _ =>
      assert (Hev : ngx_python_eval 1 sleeping_0 0 None (Some 5%nat)
                    = Ok (s, Ptr (PyLong 7))) by (vm_compute; reflexivity)
  end.
  destruct (result_slot_after_step 1 sleeping_0 _ 0 _ None 5 (Ptr (PyLong 7))
              eq_refl Hev) as (_ & _ & Hslot & Hnext & _).
  split; [exact Hslot|].
  destruct (Hnext ltac:(done) (Some body_seven) 6%nat) as (st2 & H2 & _ & Hc & _).
  - intros _. by eexists.
  - reflexivity.
  - exists st2. by split.
Defined.

(** C3 as the spec words it fails: the record of a task that has completed is
    stepped again, and the step prepares it anew and runs the body again. *)
Lemma completed_task_runs_again :
  ∃ st1 st2,
    ngx_python_eval 3 boot 0 (Some body_count) (Some 5%nat)
      = Ok (st1, Ptr (PyLong 0))
    ∧ result (ctx_at st1 0) = NULL
    ∧ ngx_python_eval 3 st1 0 (Some body_count) (Some 5%nat)
      = Ok (st2, Ptr (PyLong 1))
    ∧ PyDict_GetItemString st2 0 "n" = Some (PyLong 2).
Proof.
  do 2 eexists.
  split; [vm_compute; reflexivity|].
  split; [vm_compute; reflexivity|].
  split; vm_compute; reflexivity.
Qed.
(** * Further properties of the engine *)

(** ** Wake-ups *)

(** X1. [ngx_python_wakeup] posts the wake handle of a pending task at the
    tail of the posted events, once: posting again changes nothing and the
    events posted before keep their places.  For a task whose [terminate]
    flag is set it posts nothing; so after the cleanup of a task, whose
    record has no wake handle any more, a late wake-up is harmless. *)
Theorem wakeup_posts_once_unless_terminated (st : state) (c w : nat)
    (x : ngx_python_ctx_t) (q : list nat) :
  ctxs st !! c = Some x ->
  wake x = Some w ->
  (terminate x = true -> ngx_python_wakeup st c q = Ok q)
  ∧ (terminate x = false ->
     ∃ q', ngx_python_wakeup st c q = Ok q'
           ∧ w ∈ q' ∧ (∃ l, q' = (q ++ l)%list ∧ (w ∈ q -> l = []))
           ∧ ngx_python_wakeup st c q' = Ok q')
  ∧ (∀ st', released st' c -> ngx_python_wakeup st' c q = Ok q).
Proof.
  intros Hx Hw. split; [|split].
  - intros Ht. unfold ngx_python_wakeup. by rewrite Hx, Ht.
  - intros Ht. unfold ngx_python_wakeup. rewrite Hx, Ht, Hw. simpl.
    destruct (decide (w ∈ q)) as [Hin|Hnin].
    + exists q. split; [done|]. split; [done|]. split.
      * exists []. by rewrite app_nil_r.
      * by rewrite decide_True.
    + exists (q ++ [w])%list. split; [done|]. split; [set_solver|]. split.
      * exists [w]. done.
      * rewrite decide_True; [done|set_solver].
  - intros st' (y & Hy & _ & _ & _ & Hty). unfold ngx_python_wakeup.
    by rewrite Hy, Hty.
Qed.

Lemma wakeup_of_sleeping_0 :
  ngx_python_wakeup sleeping_0 0 [3%nat] = Ok [3%nat; 5%nat]
  ∧ ngx_python_wakeup sleeping_0 0 [3%nat; 5%nat] = Ok [3%nat; 5%nat]
  ∧ ngx_python_wakeup (with_ctx 0 (set_terminate true) sleeping_0) 0 [3%nat]
    = Ok [3%nat].
Proof.
  destruct (wakeup_posts_once_unless_terminated sleeping_0 0 5 _ [3%nat]
              eq_refl eq_refl) as (_ & Hpost & _).
  destruct (Hpost eq_refl) as (q' & Hq' & _).
  split; [vm_compute; reflexivity|]. split; vm_compute; reflexivity.
Defined.

(** ** Steps and the task table *)

Lemma tasks_rel_length (R : nat -> ngx_python_ctx_t -> ngx_python_ctx_t -> Prop)
    (st st' : state) :
  tasks_rel R st st' -> length (ctxs st') = length (ctxs st).
Proof.
  intros Hrel.
  assert (H : ∀ i, (i < length (ctxs st'))%nat ↔ (i < length (ctxs st))%nat).
  { intros i. rewrite <- !lookup_lt_is_Some. specialize (Hrel i).
    destruct (ctxs st !! i), (ctxs st' !! i); done. }
  destruct (Nat.lt_trichotomy (length (ctxs st')) (length (ctxs st)))
    as [Hlt|[Heq|Hgt]]; [|done|].
  - apply H in Hlt. lia.
  - apply H in Hgt. lia.
Qed.

Lemma slot_after_step
    (run_code : state -> nat -> prog -> outcome (state * body_end))
    (st st' : state) (c : nat) (x : ngx_python_ctx_t) (code0 : option prog)
    (w : nat) (r : pyresult) :
  ctxs st !! c = Some x ->
  ngx_python_eval_with run_code st c code0 (Some w) = Ok (st', r) ->
  result (ctx_at st' c) =
    match r with NGX_PYTHON_AGAIN => NGX_PYTHON_AGAIN | _ => NULL end.
Proof.
  intros Hx Hev.
  destruct (eval_with_wake_result _ _ _ _ _ _ Hx _ _ Hev)
    as [(st1 & Hfs & -> & ->)|(st2 & Hr & Hag & Hfin)].
  - destruct (result x) eqn:Hres.
    + pose proof (first_step_spec run_code st c x code0 w Hx Hres) as Hsp.
      rewrite Hfs in Hsp. by destruct Hsp as (_ & ? & _).
    + rewrite first_step_not_first in Hfs; [done|].
      by rewrite (ctx_at_lookup st c x Hx), Hres.
    + rewrite first_step_not_first in Hfs; [done|].
      by rewrite (ctx_at_lookup st c x Hx), Hres.
  - destruct (decide (r = NGX_PYTHON_AGAIN)) as [->|Hne].
    + by rewrite (Hag eq_refl).
    + destruct (Hfin Hne) as (_ & -> & _). by destruct r.
Qed.

(** X2. Every call of [ngx_python_eval], with or without wake handle, returns
    with the same number of task records and the same active task pointer,
    and no record has changed its namespace, its stack size or its
    [terminate] flag. *)
Theorem evaluation_keeps_task_table (fuel : nat) (st st' : state) (c : nat)
    (code0 : option prog) (wake0 : option nat) (r : pyresult) :
  ngx_python_eval fuel st c code0 wake0 = Ok (st', r) ->
  length (ctxs st') = length (ctxs st)
  ∧ ngx_python_get_ctx st' = ngx_python_get_ctx st
  ∧ ∀ c' x, ctxs st !! c' = Some x ->
      ∃ x', ctxs st' !! c' = Some x'
            ∧ ns x' = ns x ∧ stack_size x' = stack_size x
            ∧ terminate x' = terminate x.
Proof.
  intros Hev. pose proof (eval_keeps_frame _ _ _ _ _ _ _ Hev) as [Hact Hrel].
  split; [by eapply tasks_rel_length|]. split; [done|].
  intros c' x Hx. specialize (Hrel c'). rewrite Hx in Hrel.
  destruct (ctxs st' !! c') as [x'|]; [|done].
  exists x'. destruct Hrel as [(? & ? & ?) _]. done.
Qed.

Lemma evaluation_keeps_task_table_at_boot :
  ∃ st',
    ngx_python_eval 1 boot 0 (Some body_sleep) (Some 5%nat)
      = Ok (st', NGX_PYTHON_AGAIN)
    ∧ length (ctxs st') = 2%nat
    ∧ ngx_python_get_ctx st' = None.
Proof.
  eexists. split; [vm_compute; reflexivity|].
  match goal with
  | |- length (ctxs ?s) = _ ∧ _ =>
      assert (Hev : ngx_python_eval 1 boot 0 (Some body_sleep) (Some 5%nat)
                    = Ok (s, NGX_PYTHON_AGAIN)) by (vm_compute; reflexivity)
  end.
  destruct (evaluation_keeps_task_table _ _ _ _ _ _ _ Hev) as (Hlen & Hact & _).
  split; [exact Hlen|exact Hact].
Defined.

Lemma result_with_terminate (st : state) (c : nat) :
  result (ctx_at (with_ctx c (set_terminate true) st) c) = result (ctx_at st c).
Proof.
  unfold ctx_at, with_ctx. simpl. rewrite list_lookup_total_alter.
  by case_decide.
Qed.

(** X3. The cleanup of a task that is not pending -- never stepped, or
    stepped to completion -- sets the [terminate] flag and does nothing else:
    no step is made and no code runs.  In particular this is what the cleanup
    does after a step that returned a final result. *)
Theorem cleanup_of_idle_task (n fuel : nat) (st : state) (c : nat) :
  (result (ctx_at st c) ≠ NGX_PYTHON_AGAIN ->
   ngx_python_cleanup_ctx n fuel st c = Ok (with_ctx c (set_terminate true) st))
  ∧ (∀ fuel0 st0 x code0 w r,
       ctxs st0 !! c = Some x ->
       ngx_python_eval fuel0 st0 c code0 (Some w) = Ok (st, r) ->
       r ≠ NGX_PYTHON_AGAIN ->
       ngx_python_cleanup_ctx n fuel st c
         = Ok (with_ctx c (set_terminate true) st)).
Proof.
  assert (Hidle : result (ctx_at st c) ≠ NGX_PYTHON_AGAIN ->
            ngx_python_cleanup_ctx n fuel st c
              = Ok (with_ctx c (set_terminate true) st)).
  { intros Hres. unfold ngx_python_cleanup_ctx. rewrite result_with_terminate.
    destruct (result (ctx_at st c)) eqn:Hr; try done; by destruct n. }
  split; [exact Hidle|].
  intros fuel0 st0 x code0 w r Hx Hev Hne. apply Hidle.
  rewrite (slot_after_step _ _ _ _ _ _ _ _ Hx Hev). by destruct r.
Qed.

Lemma cleanup_after_final_result :
  ∃ st1,
    ngx_python_eval 1 sleeping_0 0 None (Some 5%nat) = Ok (st1, Ptr (PyLong 7))
    ∧ ngx_python_cleanup_ctx 0 0 st1 0 = Ok (with_ctx 0 (set_terminate true) st1).
Proof.
  eexists. split; [vm_compute; reflexivity|].
  match goal with
  | |- ngx_python_cleanup_ctx _ _ ?s _ = _ =>
      assert (Hev : ngx_python_eval 1 sleeping_0 0 None (Some 5%nat)
                    = Ok (s, Ptr (PyLong 7))) by (vm_compute; reflexivity);
      destruct (cleanup_of_idle_task 0 0 s 0) as [_ Hafter]
  end.
  eapply Hafter; [|exact Hev|discriminate]. reflexivity.
Defined.

(** ** Resuming a task *)

(** A step of a suspended task that is not terminated resumes the body with
    the blocking call returning [NGX_OK], in the thread state the task saved
    when it was switched away from. *)
Lemma eval_resume_unfold (st : state) (c : nat) (x : ngx_python_ctx_t)
    (k : ngx_int_t -> prog) :
  ctxs st !! c = Some x ->
  result x ≠ NULL ->
  uc_mcontext (uc x) = mc_yield k ->
  terminate x = false ->
  fst (swapcontext st) = None ->
  ∃ sb,
    ps sb = snapshot x ∧ dicts sb = dicts st ∧ log sb = log st
    ∧ ngx_python_ctx sb = Some c
    ∧ ctxs sb = alter (set_mcontext mc_stale) c (ctxs st)
    ∧ swapcontext_script sb = swapcontext_script (snd (swapcontext st))
    ∧ ∀ run_code code0 w,
        ngx_python_eval_with run_code st c code0 (Some w) =
          '(st4, e) ← run_code sb (ns x) (k NGX_OK);
          Ok (ngx_python_eval_finish
                (set_ngx_python_ctx (ngx_python_ctx st)
                   (set_ps (ps st)
                      (save_snapshot (task_handler_store st4 c e) c)))
                c).
Proof.
  intros Hx Hres Hmc Hterm. unfold swapcontext.
  destruct (next_outcome None (swapcontext_script st)) as [err rest] eqn:Hn.
  simpl. intros ->.
  set (st3 := {| ngx_python_ctx := Some c; ps := snapshot x; ctxs := ctxs st;
                 dicts := dicts st; log := log st; brk := brk st;
                 palloc_script := palloc_script st;
                 getcontext_script := getcontext_script st;
                 swapcontext_script := rest |}).
  set (xs := set_mcontext mc_stale x).
  set (sb := with_ctx c (set_mcontext mc_stale) st3).
  assert (Hx3 : ctxs st3 !! c = Some x) by done.
  assert (Hxb : ctxs sb !! c = Some xs) by (by apply with_ctx_lookup_eq).
  exists sb. repeat (split; [done|]).
  intros run_code code0 w.
  unfold ngx_python_eval_with. rewrite Hx.
  rewrite first_step_not_first by (by rewrite (ctx_at_lookup st c x Hx)).
  simpl. unfold switch_to_task, swapcontext, load_snapshot. simpl.
  rewrite Hn.
  rewrite (ctx_at_lookup (set_ngx_python_ctx (Some c) st) c x Hx).
  fold st3. rewrite (ctx_at_lookup st3 c x Hx3), Hmc.
  fold sb. unfold ngx_python_yield_regain.
  rewrite (ctx_at_lookup sb c xs Hxb). simpl. rewrite Hterm.
  rewrite (ctx_at_lookup sb c xs Hxb).
  change (ns xs) with (ns x).
  destruct (run_code sb (ns x) (k NGX_OK)) as [[st4 e]| |]; reflexivity.
Qed.

(** X4. A step of a task that has been started ignores the code and the wake
    handle it is given; and when the task is suspended in a blocking call,
    is not terminated and [swapcontext] works, the step resumes the body
    with the blocking call returning [NGX_OK], no error set, in the thread
    state the task had saved. *)
Theorem step_of_started_task
    (run_code : state -> nat -> prog -> outcome (state * body_end))
    (st : state) (c : nat) (x : ngx_python_ctx_t) :
  ctxs st !! c = Some x ->
  result x ≠ NULL ->
  (∀ code0 w code1 w1,
     ngx_python_eval_with run_code st c code0 (Some w) =
       ngx_python_eval_with run_code st c code1 (Some w1))
  ∧ (∀ k, uc_mcontext (uc x) = mc_yield k ->
          terminate x = false ->
          fst (swapcontext st) = None ->
          ∃ sb,
            ps sb = snapshot x ∧ dicts sb = dicts st
            ∧ ngx_python_ctx sb = Some c
            ∧ ∀ code0 w,
                ngx_python_eval_with run_code st c code0 (Some w) =
                  '(st4, e) ← run_code sb (ns x) (k NGX_OK);
                  Ok (ngx_python_eval_finish
                        (set_ngx_python_ctx (ngx_python_ctx st)
                           (set_ps (ps st)
                              (save_snapshot (task_handler_store st4 c e) c)))
                        c)).
Proof.
  intros Hx Hres. split.
  - intros code0 w code1 w1. unfold ngx_python_eval_with. rewrite Hx.
    by rewrite !first_step_not_first by (by rewrite (ctx_at_lookup st c x Hx)).
  - intros k Hmc Hterm Hswap.
    destruct (eval_resume_unfold st c x k Hx Hres Hmc Hterm Hswap)
      as (sb & Hps & Hd & _ & Hact & _ & _ & Hev).
    exists sb. repeat (split; [done|]). intros code0 w. apply Hev.
Qed.

Lemma step_of_sleeping_0 :
  ngx_python_eval 1 sleeping_0 0 (Some body_count) (Some 9%nat)
  = ngx_python_eval 1 sleeping_0 0 None (Some 5%nat).
Proof.
  destruct (step_of_started_task (run 1) sleeping_0 0 _ eq_refl) as [Hargs _].
  - discriminate.
  - apply Hargs.
Defined.

(** ** Invariants of the task records *)

Section RecordInvariant.

(** A relation between the old and the new value of a task record that every
    write of the engine respects. *)
Variable R : ngx_python_ctx_t -> ngx_python_ctx_t -> Prop.

Hypothesis R_refl : ∀ x, R x x.
Hypothesis R_trans : ∀ x y z, R x y -> R y z -> R x z.
Hypothesis R_uc : ∀ u x, R x (set_uc u x).
Hypothesis R_result : ∀ v x, R x (set_result v x).
Hypothesis R_wake : ∀ v x, R x (set_wake v x).
Hypothesis R_code : ∀ v x, R x (set_code v x).
Hypothesis R_snapshot : ∀ v x, R x (set_snapshot v x).
Hypothesis R_stack : ∀ v x, stack x = None -> R x (set_stack v x).

Lemma inv_refl (st st' : state) :
  ctxs st' = ctxs st -> tasks_rel (fun _ => R) st st'.
Proof. by apply tasks_rel_refl. Qed.

Lemma inv_trans (st1 st2 st3 : state) :
  tasks_rel (fun _ => R) st1 st2 -> tasks_rel (fun _ => R) st2 st3 ->
  tasks_rel (fun _ => R) st1 st3.
Proof. apply tasks_rel_trans. intros _. apply R_trans. Qed.

Lemma inv_with_ctx (c : nat) (f : ngx_python_ctx_t -> ngx_python_ctx_t)
    (st : state) :
  (∀ x, ctxs st !! c = Some x -> R x (f x)) ->
  tasks_rel (fun _ => R) st (with_ctx c f st).
Proof.
  intros Hf c'. rewrite with_ctx_lookup. case_decide as Hc.
  - subst c'. destruct (ctxs st !! c) as [x|] eqn:Hx; simpl; [|done]. by apply Hf.
  - destruct (ctxs st !! c'); [|done]. apply R_refl.
Qed.

Lemma inv_first_step (st : state) (c : nat) (code0 : option prog) (w : nat) :
  match ngx_python_eval_first_step st c code0 w with
  | proceed st1 | return_NULL st1 => tasks_rel (fun _ => R) st st1
  end.
Proof.
  unfold ngx_python_eval_first_step.
  destruct (result (ctx_at st c)); try by apply inv_refl.
  destruct (stack (ctx_at st c)) as [sp|] eqn:Hstack.
  - unfold getcontext.
    destruct (next_outcome None (getcontext_script st)) as [[e|] rest].
    + by apply inv_refl.
    + eapply inv_trans; [|apply inv_with_ctx; intros; eauto].
      eapply inv_trans; [|apply inv_with_ctx; intros; eauto].
      by apply inv_refl.
  - assert (Hfresh : ∀ st0 v, ctxs st0 = ctxs st ->
              tasks_rel (fun _ => R) st (with_ctx c (set_stack v) st0)).
    { intros st0 v H0. eapply inv_trans; [by apply (inv_refl st st0)|].
      apply inv_with_ctx. intros x Hx. apply R_stack.
      rewrite H0 in Hx. by rewrite <- (ctx_at_lookup st c x Hx). }
    unfold ngx_palloc.
    destruct (next_outcome false (palloc_script st)) as [[|] rest].
    + by apply Hfresh.
    + unfold getcontext. simpl.
      destruct (next_outcome None (getcontext_script st)) as [[e|] rest'].
      * by apply Hfresh.
      * eapply inv_trans; [|apply inv_with_ctx; intros; eauto].
        eapply inv_trans; [|apply inv_with_ctx; intros; eauto].
        by apply Hfresh.
Qed.

Lemma inv_task_handler_store (st : state) (c : nat) (e : body_end) :
  tasks_rel (fun _ => R) st (task_handler_store st c e).
Proof.
  destruct e as [[o|]|]; simpl.
  - apply inv_with_ctx; eauto.
  - eapply inv_trans; [apply (inv_with_ctx c (set_result NULL)); eauto|].
    by apply inv_refl.
  - by apply inv_refl.
Qed.

Lemma inv_eval_finish (st : state) (c : nat) :
  tasks_rel (fun _ => R) st (fst (ngx_python_eval_finish st c)).
Proof.
  unfold ngx_python_eval_finish.
  destruct (result (ctx_at st c)); simpl;
    (by apply inv_refl) || (apply inv_with_ctx; intros; eauto).
Qed.

Section WithRunner.

Variable run_code : state -> nat -> prog -> outcome (state * body_end).

Hypothesis run_code_inv :
  ∀ st p b st' e, run_code st p b = Ok (st', e) -> tasks_rel (fun _ => R) st st'.

Lemma inv_switch_to_task (st st' : state) (c : nat) :
  switch_to_task run_code st c = Ok st' -> tasks_rel (fun _ => R) st st'.
Proof.
  unfold switch_to_task, swapcontext.
  destruct (next_outcome None (swapcontext_script st)) as [[errno|] rest].
  { intros [= <-]. by apply inv_refl. }
  set (st1 := {| ngx_python_ctx := ngx_python_ctx st; ctxs := ctxs st |}).
  assert (H1 : tasks_rel (fun _ => R) st
                 (with_ctx c (set_mcontext mc_stale) st1)).
  { eapply inv_trans; [by apply (inv_refl st st1)|].
    apply inv_with_ctx. intros; apply R_uc. }
  destruct (uc_mcontext (uc (ctx_at st1 c))) as [| |k|]; try done.
  - unfold ngx_python_task_handler.
    destruct (ngx_python_get_ctx _) as [a|]; [|done].
    destruct (code (ctx_at _ a)) as [p|]; [|done].
    destruct (run_code _ _ p) as [[st3 e]| |] eqn:Hrun; try done.
    simpl. intros [= <-]. apply run_code_inv in Hrun.
    eapply inv_trans; [exact H1|]. eapply inv_trans; [exact Hrun|].
    apply inv_task_handler_store.
  - destruct (ngx_python_yield_regain _ c) as [rc st3] eqn:Hre.
    assert (H3 : ctxs st3 = ctxs (with_ctx c (set_mcontext mc_stale) st1)).
    { revert Hre. unfold ngx_python_yield_regain.
      destruct (terminate (ctx_at _ c)); by intros [= _ <-]. }
    destruct (run_code st3 _ (k rc)) as [[st4 e]| |] eqn:Hrun; try done.
    simpl. intros [= <-]. apply run_code_inv in Hrun.
    eapply inv_trans; [exact H1|].
    eapply inv_trans; [by apply (inv_refl _ st3)|].
    eapply inv_trans; [exact Hrun|]. apply inv_task_handler_store.
Qed.

Lemma inv_eval_with (st st' : state) (c : nat) (code0 : option prog)
    (wake0 : option nat) (r : pyresult) :
  ngx_python_eval_with run_code st c code0 wake0 = Ok (st', r) ->
  tasks_rel (fun _ => R) st st'.
Proof.
  unfold ngx_python_eval_with.
  destruct (ctxs st !! c); [|done]. destruct wake0 as [w|].
  - pose proof (inv_first_step st c code0 w) as Hfs.
    destruct (ngx_python_eval_first_step st c code0 w) as [st1|st1].
    + simpl. destruct (switch_to_task run_code _ c) as [st4| |] eqn:Hsw;
        try done.
      apply inv_switch_to_task in Hsw.
      simpl. intros [= Hfin].
      pose proof (inv_eval_finish
        (set_ngx_python_ctx (ngx_python_ctx st1)
           (set_ps (ps st1) (save_snapshot st4 c))) c) as Hf.
      rewrite Hfin in Hf. simpl in Hf.
      eapply inv_trans; [exact Hfs|].
      eapply inv_trans; [by apply (inv_refl st1 _)|].
      eapply inv_trans; [exact Hsw|].
      eapply inv_trans; [|exact Hf].
      eapply inv_trans; [apply (inv_with_ctx c (set_snapshot (ps st4))); eauto|].
      by apply inv_refl.
    + by intros [= <- _].
  - simpl. destruct code0 as [p|]; [|done].
    destruct (run_code _ _ p) as [[st2 [o|]]| |] eqn:Hrun; simpl; try done.
    apply run_code_inv in Hrun.
    intros [= <- _]. eapply inv_trans; [by apply (inv_refl st _)|].
    eapply inv_trans; [exact Hrun|]. destruct o; by apply inv_refl.
Qed.

End WithRunner.

Lemma inv_run (fuel : nat) :
  ∀ st p b st' e, run fuel st p b = Ok (st', e) -> tasks_rel (fun _ => R) st st'.
Proof.
  induction fuel as [|fuel IH]; intros st p b st' e; [done|].
  destruct b as [r|f k|name k|name v k|k|c code0 wake0 k]; simpl.
  - intros [= <- _]. by apply inv_refl.
  - intros H. apply IH in H. exact H.
  - intros H. apply IH in H. exact H.
  - intros H. apply IH in H. exact H.
  - unfold ngx_python_yield_enter.
    destruct (ngx_python_get_ctx st) as [a|].
    + unfold swapcontext.
      destruct (next_outcome None (swapcontext_script st)) as [[errno|] rest].
      * intros H. apply IH in H. exact H.
      * intros [= <- _]. eapply inv_trans; [|apply inv_with_ctx; intros; apply R_uc].
        by apply inv_refl.
    + intros H. apply IH in H. exact H.
  - destruct (ngx_python_eval_with (run fuel) st c code0 wake0)
      as [[st1 r]| |] eqn:Hev; try done.
    simpl. intros H. apply IH in H.
    eapply inv_trans; [|exact H]. by apply (inv_eval_with (run fuel) IH) in Hev.
Qed.

Lemma inv_eval (fuel : nat) (st st' : state) (c : nat) (code0 : option prog)
    (wake0 : option nat) (r : pyresult) :
  ngx_python_eval fuel st c code0 wake0 = Ok (st', r) ->
  tasks_rel (fun _ => R) st st'.
Proof. apply inv_eval_with, inv_run. Qed.

End RecordInvariant.

(** X5. A task record gets its stack once.  Whatever a call of
    [ngx_python_eval] runs, a record that had a stack before the call has the
    same stack after it; and the first step of a record that has a stack --
    one whose earlier run is over, or whose earlier first step failed in
    [getcontext] -- does not call [ngx_palloc]. *)
Theorem stack_is_allocated_once (fuel : nat) (st st' : state) (c : nat)
    (code0 : option prog) (wake0 : option nat) (r : pyresult) :
  ngx_python_eval fuel st c code0 wake0 = Ok (st', r) ->
  (∀ c' x sp, ctxs st !! c' = Some x -> stack x = Some sp ->
     ∃ x', ctxs st' !! c' = Some x' ∧ stack x' = Some sp)
  ∧ (∀ x sp code1 w, ctxs st !! c = Some x -> stack x = Some sp ->
       match ngx_python_eval_first_step st c code1 w with
       | proceed st1 | return_NULL st1 =>
           brk st1 = brk st ∧ palloc_script st1 = palloc_script st
           ∧ stack (ctx_at st1 c) = Some sp
       end).
Proof.
  intros Hev. split.
  - intros c' x sp Hx Hsp.
    assert (Hinv : tasks_rel
              (fun _ y y' => ∀ s, stack y = Some s -> stack y' = Some s) st st').
    { eapply (inv_eval (fun y y' => ∀ s, stack y = Some s -> stack y' = Some s));
        [..|exact Hev]; simpl; try done.
      - intros y1 y2 y3 H12 H23 s Hs. auto.
      - intros v y Hnone s Hs. congruence. }
    specialize (Hinv c'). rewrite Hx in Hinv. destruct (ctxs st' !! c') as [x'|]; [|done].
    exists x'. split; [done|]. by apply Hinv.
  - intros x sp code1 w Hx Hsp. unfold ngx_python_eval_first_step.
    rewrite (ctx_at_lookup st c x Hx), Hsp.
    destruct (result x).
    + unfold getcontext.
      destruct (next_outcome None (getcontext_script st)) as [[e|] rest].
      * simpl. unfold ctx_at. simpl. fold (ctx_at st c).
        by rewrite (ctx_at_lookup st c x Hx).
      * simpl. split; [done|]. split; [done|].
        match goal with
        | |- stack (ctx_at ?s c) = _ =>
            assert (H : ∃ y, ctxs s !! c = Some y ∧ stack y = Some sp)
        end.
        { unfold with_ctx. simpl. rewrite !list_lookup_alter_eq, Hx. simpl.
          eexists. split; [reflexivity|]. exact Hsp. }
        destruct H as (y & Hy & Hys). by rewrite (ctx_at_lookup _ _ _ Hy).
    + by rewrite (ctx_at_lookup st c x Hx).
    + by rewrite (ctx_at_lookup st c x Hx).
Qed.

Lemma stack_of_sleeping_0_is_kept :
  ∃ st1,
    ngx_python_eval 1 sleeping_0 0 None (Some 5%nat) = Ok (st1, Ptr (PyLong 7))
    ∧ stack (ctx_at st1 0) = Some 100%nat.
Proof.
  eexists. split; [vm_compute; reflexivity|].
  match goal with
  | |- stack (ctx_at ?s _) = _ =>
      assert (Hev : ngx_python_eval 1 sleeping_0 0 None (Some 5%nat)
                    = Ok (s, Ptr (PyLong 7))) by (vm_compute; reflexivity)
  end.
  destruct (stack_is_allocated_once _ _ _ _ _ _ _ Hev) as [Hkeep _].
  destruct (Hkeep 0%nat _ 100%nat eq_refl eq_refl) as (x' & Hx' & Hsp).
  by rewrite (ctx_at_lookup _ _ _ Hx').
Defined.

(** ** Blocking calls are transparent *)

Lemma straight_skip_yields (b : prog) : no_eval b -> straight (skip_yields b).
Proof.
  induction b as [r|f k IH|name k IH|name v k IH|k IH|c code0 wake0 k IH];
    simpl; auto.
Qed.

Lemma run_straight_mono (fuel : nat) :
  ∀ st p b res, straight b -> run fuel st p b = Ok res ->
    run (S fuel) st p b = Ok res.
Proof.
  induction fuel as [|fuel IH]; intros st p b res Hb; [done|].
  destruct b as [r|f k|name k|name v k|k|c code0 wake0 k]; try done.
  - intros H. exact (IH _ _ k _ Hb H).
  - intros H. exact (IH _ _ (k _) _ (Hb _) H).
  - intros H. exact (IH _ _ k _ Hb H).
Qed.

(** A stretch of a body without nested evaluation in task [c]: either the
    body comes to its end without blocking, or it blocks, and what is left
    to do is the rest of the body. *)
Lemma first_block (fuel : nat) (c : nat) :
  ∀ sb p b s1 r n,
    no_eval b -> blocks_le b n ->
    ngx_python_ctx sb = Some c -> swapcontext_script sb = [] ->
    run fuel sb p (skip_yields b) = Ok (s1, Finished r) ->
    run fuel sb p b = Ok (s1, Finished r)
    ∨ ∃ k1 s_mid n',
        n = S n'
        ∧ run fuel sb p b =
            Ok (with_ctx c (set_mcontext (mc_yield k1)) s_mid, Switched)
        ∧ (∀ rc, no_eval (k1 rc)) ∧ blocks_le (k1 NGX_OK) n'
        ∧ graft sb s_mid = s_mid
        ∧ run fuel s_mid p (skip_yields (k1 NGX_OK)) = Ok (s1, Finished r).
Proof.
  induction fuel as [|fuel IH]; intros sb p b s1 r n Hb Hn Hact Hs; [done|].
  destruct b as [r0|f k|name k|name v k|k|c1 code0 wake0 k]; simpl in *.
  - intros H. by left.
  - intros H.
    destruct (IH (set_ps (f (ps sb)) sb) p k s1 r n Hb Hn Hact Hs H)
      as [Hl|(k1 & s_mid & n' & -> & Hrun & Hk1 & Hn' & Hg & Hrest)];
      [by left|right].
    exists k1, s_mid, n'. repeat (split; [done|]).
    apply run_straight_mono; [by apply straight_skip_yields|done].
  - intros H.
    destruct (IH sb p _ s1 r n (Hb _) (Hn _) Hact Hs H)
      as [Hl|(k1 & s_mid & n' & -> & Hrun & Hk1 & Hn' & Hg & Hrest)];
      [by left|right].
    exists k1, s_mid, n'. repeat (split; [done|]).
    apply run_straight_mono; [by apply straight_skip_yields|done].
  - intros H.
    destruct (IH (snd (PyDict_SetItemString sb p name v)) p k s1 r n
                Hb Hn Hact Hs H)
      as [Hl|(k1 & s_mid & n' & -> & Hrun & Hk1 & Hn' & Hg & Hrest)];
      [by left|right].
    exists k1, s_mid, n'. repeat (split; [done|]).
    apply run_straight_mono; [by apply straight_skip_yields|done].
  - intros H. right. destruct n as [|n']; [done|].
    assert (Hsb : set_ps (ps sb) sb = sb) by (by destruct sb).
    rewrite Hsb in H.
    exists k, sb, n'. split; [done|]. split.
    { unfold ngx_python_yield_enter, ngx_python_get_ctx, swapcontext.
      rewrite Hact, Hs. simpl. do 2 f_equal.
      destruct sb; simpl in *; by subst. }
    split; [done|]. split; [done|]. split; [by apply graft_same|].
    apply run_straight_mono; [by apply straight_skip_yields|done].
  - done.
Qed.

Lemma steps_unfold (n fuel : nat) (st : state) (c : nat) (code0 : option prog)
    (w : nat) :
  steps n fuel st c code0 w =
    '(st1, r) ← ngx_python_eval fuel st c code0 (Some w);
    match r, n with
    | NGX_PYTHON_AGAIN, S n' => steps n' fuel st1 c code0 w
    | _, _ => Ok (st1, r)
    end.
Proof. destruct n; reflexivity. Qed.

(** Control comes back from a body that has finished: the step returns the
    body's result, the caller has its thread state back, and an error of the
    body is in the log. *)
Lemma leave_task_finished (stc : state) (c : nat) (s : state)
    (r : option PyObject) (y : ngx_python_ctx_t) :
  ctxs s !! c = Some y ->
  let out := leave_task stc c s (Finished r) in
  snd out = of_option r
  ∧ ps (fst out) = ps stc
  ∧ ngx_python_ctx (fst out) = ngx_python_ctx stc
  ∧ dicts (fst out) = dicts s
  ∧ log (fst out) = (log s ++ error_entries (ps s) r)%list
  ∧ snapshot (ctx_at (fst out) c) = after_report (ps s) r.
Proof.
  intros Hy. unfold leave_task.
  set (sg := task_handler_store s c (Finished r)).
  set (s7 := set_ngx_python_ctx _ _).
  assert (Hx7 : ctxs s7 !! c =
            Some (set_snapshot (ps sg) (set_result (of_option r) y))).
  { unfold s7, save_snapshot, with_ctx, sg. simpl.
    destruct r; simpl; unfold with_ctx; simpl;
      rewrite !list_lookup_alter_eq, Hy; done. }
  destruct (eval_finish_spec s7 c) as (H1 & _ & H3).
  rewrite (ctx_at_lookup s7 c _ Hx7) in H1, H3. simpl in H1, H3.
  simpl. split; [done|]. rewrite H3 by (by destruct r).
  rewrite (ctx_at_with_ctx s7 c _ _ Hx7).
  unfold s7, sg. destruct r; simpl; rewrite ?app_nil_r;
    repeat (split; [done|]); [by destruct (ps s)|done].
Qed.

(** Control comes back from a body that blocked. *)
Lemma leave_task_switched (stc : state) (c : nat) (s : state)
    (y : ngx_python_ctx_t) :
  ctxs s !! c = Some y -> result y = NGX_PYTHON_AGAIN ->
  leave_task stc c s Switched =
    (set_ngx_python_ctx (ngx_python_ctx stc)
       (set_ps (ps stc) (save_snapshot s c)), NGX_PYTHON_AGAIN).
Proof.
  intros Hy Hr. unfold leave_task. simpl.
  set (s7 := set_ngx_python_ctx _ _).
  assert (Hx7 : ctxs s7 !! c = Some (set_snapshot (ps s) y)).
  { unfold s7, save_snapshot, with_ctx. simpl.
    rewrite !list_lookup_alter_eq, Hy. done. }
  destruct (eval_finish_spec s7 c) as (H1 & H2 & _).
  rewrite (ctx_at_lookup s7 c _ Hx7) in H1, H2. simpl in H1, H2.
  rewrite Hr in H1, H2.
  rewrite (surjective_pairing (ngx_python_eval_finish s7 c)), H1, H2; done.
Qed.

(** The first step of a task when no platform call fails, for the steps that
    follow: the body starts in a state [sb] in which the task is running, on
    the task's saved thread state. *)
Lemma first_run_start
    (run_code : state -> nat -> prog -> outcome (state * body_end))
    (st : state) (c : nat) (x : ngx_python_ctx_t) (b : prog) (w : nat) :
  ctxs st !! c = Some x ->
  result x = NULL ->
  (stack x = None -> is_Some (fst (ngx_palloc st))) ->
  fst (getcontext st) = None ->
  swapcontext_script st = [] ->
  ∃ sb xb,
    ps sb = snapshot x ∧ dicts sb = dicts st ∧ log sb = log st
    ∧ ngx_python_ctx sb = Some c ∧ swapcontext_script sb = []
    ∧ ctxs sb !! c = Some xb ∧ ns xb = ns x ∧ terminate xb = terminate x
    ∧ result xb = NGX_PYTHON_AGAIN
    ∧ ngx_python_eval_with run_code st c (Some b) (Some w) =
        '(st4, e) ← run_code sb (ns x) b; Ok (leave_task st c st4 e).
Proof.
  intros Hx Hres Hpalloc Hget Hswap.
  destruct (first_step_proceeds st c x (Some b) w Hx Hpalloc Hget) as [st1 Hfs].
  pose proof (first_step_spec run_code st c x (Some b) w Hx Hres) as Hsp.
  rewrite Hfs in Hsp. destruct Hsp as (sp & _ & _ & Huc & Hr & Hcode & _).
  destruct (first_step_keeps st st1 c x (Some b) w Hx Hfs)
    as (Hscript & x1 & Hx1 & Hsnap).
  pose proof (first_step_caller st c (Some b) w) as Hcl. rewrite Hfs in Hcl.
  destruct Hcl as (Hps & Hact & Hdicts & Hlog).
  pose proof (touches_first_step st c (Some b) w) as Hto. rewrite Hfs in Hto.
  specialize (Hto c). rewrite Hx, Hx1 in Hto.
  destruct Hto as [(Hterm & Hns & _) _].
  rewrite (ctx_at_lookup st1 c x1 Hx1) in Huc, Hr, Hcode.
  unfold ngx_python_eval_with. rewrite Hx, Hfs. simpl.
  unfold switch_to_task.
  set (st3 := load_snapshot (set_ngx_python_ctx (Some c) st1) c).
  assert (Hsw3 : swapcontext st3 =
            (None,
             {| ngx_python_ctx := Some c; ps := snapshot x1; ctxs := ctxs st1;
                dicts := dicts st1; log := log st1; brk := brk st1;
                palloc_script := palloc_script st1;
                getcontext_script := getcontext_script st1;
                swapcontext_script := [] |})).
  { unfold swapcontext, st3, load_snapshot. simpl.
    rewrite (ctx_at_lookup (set_ngx_python_ctx (Some c) st1) c x1 Hx1).
    rewrite Hscript, Hswap. done. }
  rewrite Hsw3.
  set (st3' := {| ngx_python_ctx := Some c; ctxs := ctxs st1 |}).
  assert (Hx3 : ctxs st3' !! c = Some x1) by done.
  rewrite (ctx_at_lookup st3' c x1 Hx3), Huc. simpl.
  unfold ngx_python_task_handler, ngx_python_get_ctx. simpl.
  set (sb := with_ctx c (set_mcontext mc_stale) st3').
  assert (Hxb : ctxs sb !! c = Some (set_mcontext mc_stale x1))
    by (by apply with_ctx_lookup_eq).
  rewrite (ctx_at_lookup sb c _ Hxb). simpl. rewrite Hcode, Hns.
  exists sb, (set_mcontext mc_stale x1).
  split; [by rewrite <- Hsnap|]. repeat (split; [done|]).
  rewrite Hact, Hps. unfold leave_task.
  destruct (run_code sb (ns x) b) as [[st4 e]| |]; reflexivity.
Qed.

(** A task resumed from a blocking call, for the steps that follow. *)
Lemma resume_start (st : state) (c : nat) (x : ngx_python_ctx_t)
    (k : ngx_int_t -> prog) :
  ctxs st !! c = Some x ->
  result x = NGX_PYTHON_AGAIN ->
  uc_mcontext (uc x) = mc_yield k ->
  terminate x = false ->
  swapcontext_script st = [] ->
  ∃ sb xb,
    ps sb = snapshot x ∧ dicts sb = dicts st ∧ log sb = log st
    ∧ ngx_python_ctx sb = Some c ∧ swapcontext_script sb = []
    ∧ ctxs sb !! c = Some xb ∧ ns xb = ns x ∧ terminate xb = false
    ∧ result xb = NGX_PYTHON_AGAIN
    ∧ ∀ run_code code0 w,
        ngx_python_eval_with run_code st c code0 (Some w) =
          '(st4, e) ← run_code sb (ns x) (k NGX_OK);
          Ok (leave_task st c st4 e).
Proof.
  intros Hx Hres Hmc Hterm Hs.
  assert (Hres' : result x ≠ NULL) by (by rewrite Hres).
  assert (Hswap : fst (swapcontext st) = None)
    by (unfold swapcontext; by rewrite Hs).
  destruct (eval_resume_unfold st c x k Hx Hres' Hmc Hterm Hswap)
    as (sb & Hps & Hd & Hl & Hact & Hctxs & Hscr & Hev).
  exists sb, (set_mcontext mc_stale x).
  repeat (split; [done|]).
  split. { rewrite Hscr. unfold swapcontext. by rewrite Hs. }
  split. { rewrite Hctxs, list_lookup_alter_eq, Hx. done. }
  repeat (split; [done|]). exact Hev.
Qed.

(** The steps on a running task, from a state [sb] inside the body to the
    final result: what the body computes with its blocking calls succeeding
    is what the steps deliver. *)
Lemma stepped_body (fuel : nat) (c : nat) (code0 : option prog) (w : nat) :
  ∀ n stc sb xs b s1 r,
    no_eval b -> blocks_le b n ->
    ngx_python_ctx sb = Some c -> swapcontext_script sb = [] ->
    ctxs sb !! c = Some xs -> result xs = NGX_PYTHON_AGAIN ->
    terminate xs = false ->
    run fuel sb (ns xs) (skip_yields b) = Ok (s1, Finished r) ->
    ∃ stn,
      ('(s4, e) ← run fuel sb (ns xs) b;
       let '(st', r') := leave_task stc c s4 e in
       match r', n with
       | NGX_PYTHON_AGAIN, S n' => steps n' fuel st' c code0 w
       | _, _ => Ok (st', r')
       end) = Ok (stn, of_option r)
      ∧ ps stn = ps stc
      ∧ ngx_python_ctx stn = ngx_python_ctx stc
      ∧ dicts stn = dicts s1
      ∧ log stn = (log s1 ++ error_entries (ps s1) r)%list
      ∧ snapshot (ctx_at stn c) = after_report (ps s1) r.
Proof.
  induction n as [|n IH]; intros stc sb xs b s1 r Hb Hn Hact Hs Hxs Hres Hterm Hrun.
  - destruct (first_block fuel c sb (ns xs) b s1 r 0 Hb Hn Hact Hs Hrun)
      as [Hl|(k1 & s_mid & n' & Hn' & _)]; [|done].
    rewrite Hl. simpl.
    destruct (run_straight_finishes _ _ _ _ _ _ (straight_skip_yields b Hb) Hrun)
      as [_ Hg].
    assert (Hy : ctxs s1 !! c = Some xs) by (by rewrite <- Hg).
    pose proof (leave_task_finished stc c s1 r xs Hy) as Hfin.
    destruct (leave_task stc c s1 (Finished r)) as [st' r'].
    simpl in Hfin. destruct Hfin as (-> & Hfin).
    exists st'. split; [by destruct r|done].
  - destruct (first_block fuel c sb (ns xs) b s1 r (S n) Hb Hn Hact Hs Hrun)
      as [Hl|(k1 & s_mid & n' & [= <-] & Hy & Hk1 & Hn' & Hg & Hrest)].
    + rewrite Hl. simpl.
      destruct (run_straight_finishes _ _ _ _ _ _ (straight_skip_yields b Hb) Hrun)
        as [_ Hg].
      assert (Hy : ctxs s1 !! c = Some xs) by (by rewrite <- Hg).
      pose proof (leave_task_finished stc c s1 r xs Hy) as Hfin.
      destruct (leave_task stc c s1 (Finished r)) as [st' r'].
      simpl in Hfin. destruct Hfin as (-> & Hfin).
      exists st'. split; [by destruct r|done].
    + rewrite Hy. simpl.
      set (s_y := with_ctx c (set_mcontext (mc_yield k1)) s_mid).
      assert (Hmid : ctxs s_mid = ctxs sb) by (by rewrite <- Hg).
      assert (Hxy : ctxs s_y !! c = Some (set_mcontext (mc_yield k1) xs)).
      { apply with_ctx_lookup_eq. by rewrite Hmid. }
      rewrite (leave_task_switched stc c s_y _ Hxy Hres).
      set (st' := set_ngx_python_ctx _ _).
      assert (Hx' : ctxs st' !! c =
                Some (set_snapshot (ps s_mid) (set_mcontext (mc_yield k1) xs))).
      { unfold st', save_snapshot, with_ctx. simpl.
        rewrite !list_lookup_alter_eq, Hmid, Hxs. done. }
      assert (Hs' : swapcontext_script st' = []).
      { unfold st'. simpl. by rewrite <- Hg. }
      destruct (resume_start st' c _ k1 Hx' Hres eq_refl Hterm Hs')
        as (sb2 & xb & Hps2 & Hd2 & Hl2 & Hact2 & Hs2 & Hxb & Hns2 & Hterm2
            & Hres2 & Hev).
      rewrite snapshot_set_snapshot in Hps2.
      assert (Hg2 : graft sb2 s_mid = sb2).
      { apply graft_same; [done|]. by rewrite Hd2. }
      pose proof (run_straight_graft fuel s_mid (ns xs) (skip_yields (k1 NGX_OK))
                    sb2 (straight_skip_yields _ (Hk1 _))) as Hgr.
      rewrite Hg2, Hrest in Hgr.
      destruct (run_straight_finishes _ _ _ _ _ _
                  (straight_skip_yields _ (Hk1 NGX_OK)) Hrest) as [_ Hg1].
      simpl in Hns2. rewrite <- Hns2 in Hgr.
      destruct (IH st' sb2 xb (k1 NGX_OK) (graft sb2 s1) r (Hk1 _) Hn' Hact2 Hs2
                  Hxb Hres2 Hterm2 Hgr)
        as (stn & Hsteps & Hpsn & Hactn & Hdn & Hln & Hsnn).
      exists stn. split.
      { rewrite steps_unfold. unfold ngx_python_eval.
        rewrite (Hev (run fuel) code0 w). rewrite Hns2 in Hsteps.
        simpl in Hsteps |- *.
        destruct (run fuel sb2 (ns xs) (k1 NGX_OK)) as [[s4 e]| |]; [|done..].
        simpl in Hsteps |- *.
        destruct (leave_task st' c s4 e) as [st'' r'']. exact Hsteps. }
      split; [by rewrite Hpsn|]. split; [by rewrite Hactn|].
      split; [by rewrite Hdn|]. split; [|by rewrite Hsnn].
      rewrite Hln. simpl. rewrite Hl2. unfold st'. simpl.
      by rewrite <- Hg1.
Qed.

(** X6. Blocking calls are transparent.  Take a body without nested
    evaluation that blocks at most [n] times when its blocking calls
    succeed, and a fresh task that is not terminated, with no platform
    failure ahead.  When the body with the blocking calls left out is
    evaluated by one step, then stepping the body itself -- one call of
    [ngx_python_eval], and one more per wake-up while the result is pending,
    at most [n] -- ends with the same result, which is not the pending
    sentinel, the same namespaces, the same log, the same thread state and
    active task for the caller and the same thread state saved in the
    task. *)
Theorem blocking_calls_are_transparent (n fuel : nat) (st : state) (c : nat)
    (x : ngx_python_ctx_t) (b : prog) (w : nat) (st1 : state) (r1 : pyresult) :
  ctxs st !! c = Some x ->
  result x = NULL ->
  terminate x = false ->
  (stack x = None -> is_Some (fst (ngx_palloc st))) ->
  fst (getcontext st) = None ->
  swapcontext_script st = [] ->
  no_eval b ->
  blocks_le b n ->
  ngx_python_eval fuel st c (Some (skip_yields b)) (Some w) = Ok (st1, r1) ->
  ∃ stn,
    steps n fuel st c (Some b) w = Ok (stn, r1)
    ∧ r1 ≠ NGX_PYTHON_AGAIN
    ∧ ps stn = ps st1
    ∧ ngx_python_ctx stn = ngx_python_ctx st1
    ∧ dicts stn = dicts st1
    ∧ log stn = log st1
    ∧ snapshot (ctx_at stn c) = snapshot (ctx_at st1 c).
Proof.
  intros Hx Hres Hterm Hpalloc Hget Hs Hb Hn Hev.
  pose proof (straight_skip_yields b Hb) as Hsk.
  destruct (first_run_start (run fuel) st c x (skip_yields b) w Hx Hres Hpalloc
              Hget Hs)
    as (sbs & xbs & Hpss & Hds & Hls & _ & _ & Hxbs & _ & _ & _ & Hevs).
  unfold ngx_python_eval in Hev. rewrite Hevs in Hev. clear Hevs.
  destruct (run fuel sbs (ns x) (skip_yields b)) as [[s1s e]| |] eqn:Hrun;
    [|done..].
  destruct (run_straight_finishes _ _ _ _ _ _ Hsk Hrun) as [[r ->] Hgs].
  simpl in Hev. injection Hev as Hev.
  assert (Hy : ctxs s1s !! c = Some xbs) by (by rewrite <- Hgs).
  pose proof (leave_task_finished st c s1s r xbs Hy) as Hfin.
  rewrite Hev in Hfin. simpl in Hfin.
  destruct Hfin as (-> & Hps1 & Hact1 & Hd1 & Hl1 & Hsn1).
  destruct (first_run_start (run fuel) st c x b w Hx Hres Hpalloc Hget Hs)
    as (sbb & xbb & Hpsb & Hdb & Hlb & Hactb & Hsb & Hxbb & Hnsb & Htermb
        & Hresb & Hevb).
  assert (Hg : graft sbb sbs = sbb).
  { apply graft_same; congruence. }
  pose proof (run_straight_graft fuel sbs (ns x) (skip_yields b) sbb Hsk) as Hgr.
  rewrite Hg, Hrun, <- Hnsb in Hgr.
  rewrite Hterm in Htermb.
  destruct (stepped_body fuel c (Some b) w n st sbb xbb b (graft sbb s1s) r Hb Hn
              Hactb Hsb Hxbb Hresb Htermb Hgr)
    as (stn & Hsteps & Hpsn & Hactn & Hdn & Hln & Hsnn).
  exists stn. split.
  { rewrite steps_unfold. unfold ngx_python_eval. rewrite Hevb.
    rewrite Hnsb in Hsteps.
    destruct (run fuel sbb (ns x) b) as [[s4 e]| |]; [|done..].
    simpl in Hsteps |- *.
    destruct (leave_task st c s4 e) as [st'' r'']. exact Hsteps. }
  split; [by destruct r|].
  split; [congruence|]. split; [congruence|].
  split; [by rewrite Hdn, Hd1|].
  split; [|by rewrite Hsnn, Hsn1].
  rewrite Hln, Hl1. simpl. rewrite Hlb, <- Hls. by rewrite <- Hgs.
Qed.

Lemma stepping_store_sleep_load :
  ∃ stn,
    steps 2 5 boot 0 (Some body_store_sleep_load) 9 = Ok (stn, Ptr (PyLong 1)).
Proof.
  assert (Hev : ∃ s,
    ngx_python_eval 5 boot 0 (Some (skip_yields body_store_sleep_load))
      (Some 9%nat) = Ok (s, Ptr (PyLong 1)))
    by (eexists; vm_compute; reflexivity).
  destruct Hev as [s Hev].
  destruct (blocking_calls_are_transparent 2 5 boot 0 _ body_store_sleep_load 9
              s (Ptr (PyLong 1)) eq_refl eq_refl eq_refl)
    as (stn & Hsteps & _);
    [by eexists|reflexivity|reflexivity|by simpl; intros|by simpl; intros
    |exact Hev|].
  by exists stn.
Defined.

(** ** The namespace of a configuration *)

Lemma add_module_spec (name : string) (s : conf_state) :
  let '(m, s') := add_module name s in
  sys_modules s' = <[name := m]> (sys_modules s)
  ∧ (match sys_modules s !! name with
     | Some m0 => m = m0 ∧ s' = s
     | None =>
         dicts (machine s) !! m = None
         ∧ dicts (machine s') =
             <[m := new_module_dict s name]> (dicts (machine s))
     end)
  ∧ pcf s' = pcf s ∧ initialized s' = initialized s ∧ counter s' = counter s
  ∧ cleanup s' = cleanup s ∧ conf_log s' = conf_log s
  ∧ python_script s' = python_script s ∧ open_globs s' = open_globs s
  ∧ ctxs (machine s') = ctxs (machine s) ∧ ps (machine s') = ps (machine s)
  ∧ log (machine s') = log (machine s)
  ∧ ngx_python_ctx (machine s') = ngx_python_ctx (machine s)
  ∧ brk (machine s') = brk (machine s)
  ∧ palloc_script (machine s') = palloc_script (machine s)
  ∧ new_module_dict s' = new_module_dict s ∧ refcnt s' = refcnt s.
Proof.
  unfold add_module. destruct (sys_modules s !! name) as [m0|] eqn:Hm.
  - split; [by rewrite insert_id|]. done.
  - simpl. split; [done|]. split; [|done]. split; [|done].
    apply not_elem_of_dom, is_fresh.
Qed.

Lemma set_cleanup_handler_head (h h0 : cleanup_handler)
    (pool : list cleanup_handler) :
  set_cleanup_handler (length pool) h (h0 :: pool) = h :: pool.
Proof.
  unfold set_cleanup_handler. simpl.
  replace (length pool - length pool)%nat with 0%nat by lia. done.
Qed.

Lemma add_namespace_spec (s : conf_state) :
  let name := namespace_name (counter s) in
  match add_namespace s with
  | (Some d, s') =>
      pcf s' = {| pcf_ns := Some d; pcf_stack_size := pcf_stack_size (pcf s) |}
      ∧ counter s' = ((counter s + 1) mod 2 ^ 64)%N
      ∧ sys_modules s' = <[name := d]> (sys_modules s)
      ∧ cleanup s' = cleanup_namespace_of d name :: cleanup s
      ∧ conf_log s' = conf_log s
      ∧ match sys_modules s !! name with
        | Some m0 =>
            d = m0
            ∧ dicts (machine s') =
                <[d := <["__builtins__" := PyEval_GetBuiltins]>
                         (dict_of (machine s) d)]> (dicts (machine s))
        | None =>
            dicts (machine s) !! d = None
            ∧ dicts (machine s') =
                <[d := <["__builtins__" := PyEval_GetBuiltins]>
                         (new_module_dict s name)]> (dicts (machine s))
        end
      ∧ ps (machine s') = ps (machine s)
      ∧ refcnt s' = <[d := default 0 (refcnt s !! d) + 1]> (refcnt s)
  | (None, s') =>
      pcf s' = pcf s
      ∧ (counter s' = counter s
         ∨ counter s' = ((counter s + 1) mod 2 ^ 64)%N)
      ∧ (sys_modules s' = sys_modules s
         ∨ counter s' = ((counter s + 1) mod 2 ^ 64)%N
           ∧ ∃ d, sys_modules s' = <[name := d]> (sys_modules s))
      ∧ (∀ d g, dicts (machine s) !! d = Some g ->
           dicts (machine s') !! d = Some g)
      ∧ (cleanup s' = cleanup s
         ∨ cleanup s' = handler_unset :: cleanup s
         ∨ ∃ d, cleanup s' = cleanup_namespace_of d name :: cleanup s
                ∧ sys_modules s' = <[name := d]> (sys_modules s))
  end
  ∧ initialized (snd (add_namespace s)) = initialized s
  ∧ open_globs (snd (add_namespace s)) = open_globs s
  ∧ ctxs (machine (snd (add_namespace s))) = ctxs (machine s)
  ∧ new_module_dict (snd (add_namespace s)) = new_module_dict s
  ∧ log (machine (snd (add_namespace s))) = log (machine s)
  ∧ ngx_python_ctx (machine (snd (add_namespace s))) = ngx_python_ctx (machine s).
Proof.
  intros name.
  unfold add_namespace, conf_palloc, ngx_pool_cleanup_add, ngx_palloc.
  destruct (next_outcome false (palloc_script (machine s))) as [[|] r1];
    simpl.
  { split; [|done]. split; [done|]. split; [by left|]. split; [by left|].
    split; [done|]. by left. }
  destruct (next_outcome false r1) as [[|] r2]; simpl.
  { split; [|done]. split; [done|]. split; [by left|]. split; [by left|].
    split; [done|]. by left. }
  destruct (next_outcome false r2) as [[|] r3]; simpl.
  { split; [|done]. split; [done|]. split; [by left|]. split; [by left|].
    split; [done|]. right. by left. }
  fold name.
  unfold PyImport_AddModule, python_call_fails. simpl.
  destruct (next_outcome None (python_script s)) as [[[t v]|] p1]; simpl.
  { split; [|done]. split; [done|]. split; [by right|]. split; [by left|].
    split; [done|]. right. by left. }
  match goal with |- context [add_module name ?s4] =>
    pose proof (add_module_spec name s4) as Hadd;
    destruct (add_module name s4) as [m s5]
  end.
  simpl in Hadd.
  destruct Hadd as (Hmods & Hcase & Hpcf & Hinit & Hcnt & Hcl & Hlog & Hscr & Hog
                    & Hctxs & Hps & Hmlog & Hact & Hbrk & Hpal & Hnmd & Hrc).
  assert (Hold : ∀ d g, dicts (machine s) !! d = Some g ->
            dicts (machine s5) !! d = Some g).
  { intros d g Hd. destruct (sys_modules s !! name) as [m0|].
    - destruct Hcase as [_ ->]. done.
    - destruct Hcase as [Hfresh ->].
      rewrite lookup_insert_ne; [done|]. intros ->. simpl in Hfresh.
      congruence. }
  unfold PyModule_GetDict, python_call_fails. rewrite Hscr. simpl.
  destruct (next_outcome None p1) as [[[t v]|] p2]; simpl.
  { split; [|by rewrite Hinit, Hog, Hctxs, Hnmd, Hmlog, Hact].
    split; [done|]. split; [by right|].
    split; [right; split; [done|]; by exists m|].
    split; [done|]. rewrite Hcl. right. by left. }
  destruct (next_outcome None p2) as [[[t v]|] p3]; simpl.
  { split; [|by rewrite Hinit, Hog, Hctxs, Hnmd, Hmlog, Hact].
    split; [done|]. split; [by right|].
    split; [right; split; [done|]; by exists m|].
    split; [done|].
    right. right. exists m. rewrite Hcl. simpl.
    by rewrite set_cleanup_handler_head. }
  split; [|by rewrite Hinit, Hog, Hctxs, Hnmd, Hmlog, Hact].
  split; [by rewrite Hpcf|]. split; [done|]. split; [done|].
  split; [by rewrite Hcl; simpl; rewrite set_cleanup_handler_head|].
  split; [done|]. split; [|by rewrite Hps, Hrc].
  destruct (sys_modules s !! name) as [m0|].
  - destruct Hcase as [-> ->]. done.
  - destruct Hcase as [Hfresh Hd]. split; [done|].
    unfold dict_of. rewrite Hd. rewrite lookup_total_insert_eq.
    by rewrite insert_insert_eq.
Qed.

Lemma add_constants_spec (m : nat) (l : list (string * Z)) :
  ∀ s,
    let s' := foldl (fun s2 '(name, v) => PyModule_AddIntConstant m name v s2)
                s l in
    pcf s' = pcf s ∧ initialized s' = initialized s ∧ counter s' = counter s
    ∧ sys_modules s' = sys_modules s ∧ cleanup s' = cleanup s
    ∧ conf_log s' = conf_log s ∧ python_script s' = python_script s
    ∧ open_globs s' = open_globs s
    ∧ ctxs (machine s') = ctxs (machine s) ∧ ps (machine s') = ps (machine s)
    ∧ log (machine s') = log (machine s)
    ∧ ngx_python_ctx (machine s') = ngx_python_ctx (machine s)
    ∧ palloc_script (machine s') = palloc_script (machine s)
    ∧ (new_module_dict s' = new_module_dict s ∧ refcnt s' = refcnt s)
    ∧ (∀ d, d ≠ m -> dicts (machine s') !! d = dicts (machine s) !! d)
    ∧ (∀ d, is_Some (dicts (machine s) !! d) ->
         is_Some (dicts (machine s') !! d)).
Proof.
  induction l as [|[name v] l IH]; intros s; simpl; [done|].
  specialize (IH (PyModule_AddIntConstant m name v s)). simpl in IH.
  destruct IH as (H1 & H2 & H3 & H4 & H5 & H6 & H7 & H8 & H9 & H10 & H11 & H12
                  & H13 & [Hn Hr] & H14 & H15).
  repeat (split; [done|]). split.
  - intros d Hd. rewrite (H14 d Hd). simpl. by rewrite lookup_insert_ne.
  - intros d Hd. apply H15. simpl.
    destruct (decide (d = m)) as [->|Hne].
    + rewrite lookup_insert_eq. by eexists.
    + by rewrite lookup_insert_ne.
Qed.

Lemma init_interpreter_spec (s : conf_state) :
  let '(ok, s') := init_interpreter s in
  pcf s' = pcf s ∧ counter s' = counter s ∧ cleanup s' = cleanup s
  ∧ conf_log s' = conf_log s ∧ open_globs s' = open_globs s
  ∧ ctxs (machine s') = ctxs (machine s)
  ∧ (new_module_dict s' = new_module_dict s ∧ refcnt s' = refcnt s
     ∧ (ok = true -> ps (machine s') = ps (machine s)))
  ∧ log (machine s') = log (machine s)
  ∧ ngx_python_ctx (machine s') = ngx_python_ctx (machine s)
  ∧ initialized s' = true
  ∧ (initialized s = true -> ok = true ∧ s' = s)
  ∧ (sys_modules s' = sys_modules s
     ∨ ∃ m, sys_modules s !! "ngx" = None ∧ dicts (machine s) !! m = None
            ∧ sys_modules s' = <["ngx" := m]> (sys_modules s))
  ∧ (∀ d g, dicts (machine s) !! d = Some g ->
       sys_modules s' !! "ngx" ≠ Some d -> dicts (machine s') !! d = Some g)
  ∧ (∀ d, is_Some (dicts (machine s) !! d) ->
       is_Some (dicts (machine s') !! d)).
Proof.
  unfold init_interpreter. generalize ngx_constants. intros l.
  destruct (initialized s) eqn:Hinit.
  { repeat (split; [done|]). split; [by left|]. done. }
  unfold PyImport_ImportModule, python_call_fails. simpl.
  destruct (next_outcome None (python_script s)) as [[[t v]|] p1]; simpl.
  { repeat (split; [done|]). split; [by left|]. done. }
  match goal with |- context [add_module "ngx" ?s1] =>
    pose proof (add_module_spec "ngx" s1) as Hadd;
    destruct (add_module "ngx" s1) as [m s2]
  end.
  simpl in Hadd.
  destruct Hadd as (Hmods & Hcase & Hpcf & Hin & Hcnt & Hcl & Hlog & Hscr & Hog
                    & Hctxs & Hps & Hmlog & Hact & Hbrk & Hpal & Hnmd & Hrc).
  pose proof (add_constants_spec m l s2) as Hc.
  set (s3 := foldl _ s2 l) in *. simpl in Hc.
  destruct Hc as (H1 & H2 & H3 & H4 & H5 & H6 & H7 & H8 & H9 & H10 & H11 & H12
                  & H13 & [Hn Hr] & H14 & H15).
  split; [by rewrite H1|]. split; [by rewrite H3|]. split; [by rewrite H5|].
  split; [by rewrite H6|]. split; [by rewrite H8|]. split; [by rewrite H9|].
  split; [by rewrite Hn, Hr, H10|]. split; [by rewrite H11|].
  split; [by rewrite H12|].
  split; [by rewrite H2|]. split; [done|].
  assert (Hngx : sys_modules s3 !! "ngx" = Some m).
  { rewrite H4, Hmods. apply lookup_insert_eq. }
  split.
  { destruct (sys_modules s !! "ngx") as [m0|] eqn:Hm0.
    - left. destruct Hcase as [-> ->]. by rewrite H4.
    - right. exists m. destruct Hcase as [Hfresh _].
      split; [done|]. split; [done|]. by rewrite H4. }
  split.
  - intros d g Hd Hne. rewrite Hngx in Hne.
    rewrite H14 by congruence.
    destruct (sys_modules s !! "ngx") as [m0|].
    + destruct Hcase as [_ ->]. done.
    + destruct Hcase as [_ ->]. rewrite lookup_insert_ne; [done|]. congruence.
  - intros d Hd. apply H15.
    destruct (sys_modules s !! "ngx") as [m0|].
    + destruct Hcase as [_ ->]. done.
    + destruct Hcase as [_ ->].
      destruct (decide (m = d)) as [->|Hne].
      * rewrite lookup_insert_eq. by eexists.
      * by rewrite lookup_insert_ne.
Qed.

(** ** Decimal numbers in names and messages *)

Lemma string_length_app (s1 s2 : string) :
  String.length (s1 +:+ s2) = (String.length s1 + String.length s2)%nat.
Proof. induction s1 as [|a s1 IH]; simpl; [done|]. by rewrite IH. Qed.

Lemma pretty_N_go_length_le (k : nat) :
  ∀ (x : N) (s : string),
    (x < 10 ^ N.of_nat k)%N ->
    (String.length (pretty_N_go x s) ≤ k + String.length s)%nat.
Proof.
  induction k as [|k IH]; intros x s Hx.
  - assert (x = 0%N) as -> by (simpl in Hx; lia).
    rewrite pretty_N_go_0. lia.
  - destruct (decide (x = 0%N)) as [->|Hne].
    + rewrite pretty_N_go_0. lia.
    + rewrite pretty_N_go_step by lia.
      etrans; [apply IH|simpl; lia].
      apply N.Div0.div_lt_upper_bound.
      replace (10 * 10 ^ N.of_nat k)%N with (10 ^ N.of_nat (S k))%N; [done|].
      rewrite Nat2N.inj_succ, N.pow_succ_r'. done.
Qed.

Lemma pretty_N_go_length_ge (x : N) :
  ∀ s : string, (String.length s ≤ String.length (pretty_N_go x s))%nat.
Proof.
  induction (N.lt_wf_0 x) as [x _ IH]; intros s.
  destruct (decide (x = 0%N)) as [->|Hne].
  - by rewrite pretty_N_go_0.
  - rewrite pretty_N_go_step by lia.
    etrans; [|apply IH; apply N.div_lt; lia]. simpl. lia.
Qed.

Lemma pretty_N_length_le (x : N) (k : nat) :
  (0 < k)%nat -> (x < 10 ^ N.of_nat k)%N ->
  (String.length (pretty x) ≤ k)%nat.
Proof.
  intros Hk Hx. unfold pretty, pretty_N.
  destruct (decide (x = 0%N)); [simpl; lia|].
  etrans; [by apply pretty_N_go_length_le|]. simpl. lia.
Qed.

Lemma pretty_N_nonempty (x : N) : pretty x ≠ "".
Proof.
  unfold pretty, pretty_N. destruct (decide (x = 0%N)); [done|].
  rewrite pretty_N_go_step by lia. intros H.
  pose proof (pretty_N_go_length_ge (x `div` 10)
                (String (pretty_N_char (x `mod` 10)) "")) as Hlen.
  rewrite H in Hlen. simpl in Hlen. lia.
Qed.

Lemma namespace_name_inj (n n' : N) :
  namespace_name n = namespace_name n' -> n = n'.
Proof. unfold namespace_name. intros [= H]. by apply (inj pretty). Qed.

Lemma namespace_name_not_ngx (n : N) : namespace_name n ≠ "ngx".
Proof. unfold namespace_name. intros [= H]. by apply pretty_N_nonempty in H. Qed.

(** X10. The texts written with [ngx_sprintf] fit the buffers allocated for
    them, final null included: the name of a namespace for every value of the
    counter, the file name given to [Py_CompileString] for every line number
    of the configuration file, and the message of [ngx_python_get_error] for
    every line number a [long] holds. *)
Theorem formatted_texts_fit (n line : N) (l : Z) (name text file : string) :
  (n < 2 ^ 64)%N -> (line < 2 ^ 64)%N -> - 2 ^ 63 ≤ l < 2 ^ 63 ->
  (String.length (namespace_name n) + 1 ≤ namespace_name_len)%nat
  ∧ (String.length (compile_filename name line) + 1
     ≤ compile_filename_len name)%nat
  ∧ (String.length (error_message text file l) + 1
     ≤ error_message_len text file)%nat.
Proof.
  intros Hn Hline Hl.
  assert (H20 : ∀ x : N, (x < 2 ^ 64)%N -> (String.length (pretty x) ≤ 20)%nat).
  { intros x Hx. apply pretty_N_length_le; [lia|].
    eapply N.lt_trans; [exact Hx|]. by vm_compute. }
  assert (H19 : ∀ x : N, (x ≤ 2 ^ 63)%N -> (String.length (pretty x) ≤ 19)%nat).
  { intros x Hx. apply pretty_N_length_le; [lia|].
    eapply N.le_lt_trans; [exact Hx|]. by vm_compute. }
  split; [|split].
  - unfold namespace_name, namespace_name_len, NGX_INT_T_LEN.
    rewrite string_length_app. specialize (H20 n Hn). simpl. lia.
  - unfold compile_filename, compile_filename_len, NGX_INT_T_LEN.
    rewrite !string_length_app. specialize (H20 line Hline). simpl. lia.
  - unfold error_message, error_message_len, NGX_INT_T_LEN.
    rewrite !string_length_app. simpl.
    assert (String.length (pretty l) ≤ 20)%nat; [|lia].
    unfold pretty, pretty_Z. destruct l as [|p|p]; [simpl; lia|..].
    + etrans; [apply (H19 (N.pos p)); lia|lia].
    + rewrite string_length_app.
      assert (Hp : (N.pos p ≤ 2 ^ 63)%N) by lia.
      pose proof (H19 (N.pos p) Hp) as H.
      change (String.length "-") with 1%nat.
      change (@pretty positive _ p) with (@pretty N _ (N.pos p)). lia.
Qed.

Lemma formatted_texts_fit_at_the_limits :
  (String.length (namespace_name 18446744073709551615) + 1
   ≤ namespace_name_len)%nat
  ∧ (String.length (compile_filename "nginx.conf" 18446744073709551615) + 1
     ≤ compile_filename_len "nginx.conf")%nat
  ∧ (String.length (error_message "boom" "a.py" (-9223372036854775808)) + 1
     ≤ error_message_len "boom" "a.py")%nat.
Proof.
  apply (formatted_texts_fit 18446744073709551615 18446744073709551615
           (-9223372036854775808) "nginx.conf" "boom" "a.py").
  - reflexivity.
  - reflexivity.
  - split; [intros H; discriminate H|reflexivity].
Defined.

(** ** One namespace for a configuration *)

Lemma init_namespace_pcf (s s' : conf_state) (r : option nat) :
  ngx_python_init_namespace s = (r, s') ->
  pcf_stack_size (pcf s') = pcf_stack_size (pcf s)
  ∧ match r with
    | Some d => pcf_ns (pcf s') = Some d
    | None => pcf_ns (pcf s) = None ∧ pcf s' = pcf s
    end.
Proof.
  unfold ngx_python_init_namespace.
  destruct (pcf_ns (pcf s)) as [d0|] eqn:Hns; [by intros [= <- <-]|].
  pose proof (init_interpreter_spec s) as Hi.
  destruct (init_interpreter s) as [ok s1].
  destruct Hi as (Hpcf & _).
  destruct ok; [|intros [= <- <-]; by rewrite Hpcf].
  pose proof (add_namespace_spec s1) as [Ha _].
  destruct (add_namespace s1) as [r2 s2]. intros [= <- <-].
  destruct r2 as [d|].
  - destruct Ha as (-> & _). simpl. by rewrite Hpcf.
  - destruct Ha as (-> & _). by rewrite Hpcf.
Qed.

(** X7. A configuration has one namespace.  When
    [ngx_python_init_namespace] returns a namespace, the configuration
    records it and the module is active; the call made again returns the
    same namespace and changes nothing; a later [ngx_python_compile] or
    [python] directive generates no name, leaves the interpreter
    initialised and keeps the configuration.  The directive runs its code in
    that namespace and returns [NGX_CONF_OK] exactly when the code returns a
    value; then the interpreter and the tasks are as the code left them and
    nothing is logged, and otherwise one entry, the error of the code, is
    logged.  What the code or the report of an error does to [sys.modules]
    is not stated.  When the call returns [NULL], no namespace was
    configured before, the configuration is as it was, the module is
    inactive and [ngx_python_create_ctx] returns [NULL] without touching
    anything.  The stack size of the configuration is never changed. *)
Theorem one_namespace_per_configuration (s s' : conf_state) (r : option nat) :
  ngx_python_init_namespace s = (r, s') ->
  pcf_stack_size (pcf s') = pcf_stack_size (pcf s)
  ∧ match r with
    | Some d =>
        pcf_ns (pcf s') = Some d
        ∧ ngx_python_active s' = NGX_OK
        ∧ ngx_python_init_namespace s' = (Some d, s')
        ∧ (∀ script,
             let s2 := snd (ngx_python_compile s' script) in
             pcf s2 = pcf s' ∧ counter s2 = counter s'
             ∧ initialized s2 = initialized s')
        ∧ (∀ fuel b rc s2,
             ngx_python_set_slot fuel s' b = Ok (rc, s2) ->
             pcf s2 = pcf s' ∧ counter s2 = counter s'
             ∧ initialized s2 = initialized s'
             ∧ ∃ m o, run fuel (machine s') d b = Ok (m, Finished o)
                      ∧ (rc = NGX_CONF_OK <-> is_Some o)
                      ∧ match o with
                        | Some _ => machine s2 = m ∧ conf_log s2 = conf_log s'
                        | None =>
                            ∃ e, conf_log s2 =
                                   (conf_log s' ++ [conf_python_error e])%list
                        end)
    | None =>
        pcf_ns (pcf s) = None ∧ pcf s' = pcf s
        ∧ ngx_python_active s' = NGX_DECLINED
        ∧ ∀ pool, ngx_python_create_ctx s' pool = (None, s', pool)
    end.
Proof.
  intros Hinit. destruct (init_namespace_pcf s s' r Hinit) as [Hsize Hr].
  split; [done|]. destruct r as [d|].
  - assert (Hagain : ngx_python_init_namespace s' = (Some d, s')).
    { unfold ngx_python_init_namespace. by rewrite Hr. }
    split; [done|]. split; [unfold ngx_python_active; by rewrite Hr|].
    split; [done|]. split.
    + intros script. unfold ngx_python_compile. rewrite Hagain.
      unfold conf_palloc, ngx_pool_cleanup_add, ngx_palloc.
      destruct (next_outcome false (palloc_script (machine s'))) as [[|] r1];
        simpl; [done|].
      destruct script as [b|t v]; simpl; [|done].
      destruct (next_outcome false r1) as [[|] r2]; simpl; done.
    + intros fuel b rc s2. unfold ngx_python_set_slot. rewrite Hagain.
      destruct (run fuel (machine s') d b) as [[m e]| |]; simpl; [|done..].
      destruct e as [o|]; [|done]. destruct o as [o|].
      * intros [= <- <-]. repeat (split; [done|]).
        exists m, (Some o). split; [done|].
        split; [split; [by eexists|done]|]. done.
      * intros [= <- <-]. repeat (split; [done|]).
        exists m, None. split; [done|].
        split; [split; [done|by intros [? ?]]|]. by eexists.
  - destruct Hr as [Hns Hpcf]. split; [done|]. split; [done|].
    unfold ngx_python_active, ngx_python_create_ctx. by rewrite Hpcf, Hns.
Qed.

Lemma one_namespace_in_cold :
  ngx_python_active (snd (ngx_python_init_namespace cold)) = NGX_OK.
Proof.
  pose proof (one_namespace_per_configuration cold _ _
                (surjective_pairing (ngx_python_init_namespace cold)))
    as [_ H].
  assert (Hr : fst (ngx_python_init_namespace cold) = Some 1%nat)
    by (vm_compute; reflexivity).
  rewrite Hr in H. destruct H as (_ & Hactive & _). exact Hactive.
Defined.

Lemma init_namespace_unfold (s : conf_state) :
  pcf_ns (pcf s) = None ->
  ∃ s1,
    counter s1 = counter s
    ∧ (cleanup s1 = cleanup s ∧ new_module_dict s1 = new_module_dict s
       ∧ refcnt s1 = refcnt s)
    ∧ (sys_modules s1 = sys_modules s
       ∨ ∃ m, sys_modules s !! "ngx" = None
              ∧ sys_modules s1 = <["ngx" := m]> (sys_modules s))
    ∧ (∀ d g, dicts (machine s) !! d = Some g ->
         sys_modules s1 !! "ngx" ≠ Some d -> dicts (machine s1) !! d = Some g)
    ∧ (∀ d, is_Some (dicts (machine s) !! d) ->
         is_Some (dicts (machine s1) !! d))
    ∧ (ngx_python_init_namespace s = (None, s1)
       ∨ ngx_python_init_namespace s = add_namespace s1).
Proof.
  intros Hns. unfold ngx_python_init_namespace. rewrite Hns.
  pose proof (init_interpreter_spec s) as Hi.
  destruct (init_interpreter s) as [ok s1].
  destruct Hi as (_ & Hcnt & Hcl & _ & _ & _ & (Hnmd & Hrc & _) & _ & _ & _ & _
                  & Hmods & Hd & Hdom).
  exists s1. split; [done|]. split; [done|]. split.
  { destruct Hmods as [?|(m & ? & _ & ?)]; [by left|right; by exists m]. }
  split; [done|]. split; [done|]. destruct ok; [by right|by left].
Qed.

Lemma names_below_ngx (s s1 : conf_state) :
  names_below s -> counter s1 = counter s ->
  (sys_modules s1 = sys_modules s
   ∨ ∃ m, sys_modules s !! "ngx" = None
          ∧ sys_modules s1 = <["ngx" := m]> (sys_modules s)) ->
  names_below s1.
Proof.
  intros Hbelow Hcnt Hmods n Hn. rewrite Hcnt. apply Hbelow.
  destruct Hmods as [<-|(m & _ & Hm)]; [done|].
  rewrite Hm, lookup_insert_ne in Hn; [done|].
  intros H. symmetry in H. by apply namespace_name_not_ngx in H.
Qed.

Lemma names_below_insert (s s' : conf_state) (d : nat) :
  names_below s -> (counter s < 2 ^ 64 - 1)%N ->
  counter s' = ((counter s + 1) mod 2 ^ 64)%N ->
  sys_modules s' = <[namespace_name (counter s) := d]> (sys_modules s) ->
  names_below s'.
Proof.
  intros Hbelow Hmax Hcnt Hmods n Hn.
  rewrite Hcnt, N.mod_small by lia.
  destruct (decide (n = counter s)) as [->|Hne]; [lia|].
  rewrite Hmods, lookup_insert_ne in Hn.
  - apply Hbelow in Hn. lia.
  - intros H. by apply namespace_name_inj in H.
Qed.

(** X8. The name generated for a namespace is new.  Suppose no module of
    [sys.modules] has a name the counter is still to reach, the counter is
    below its last value, and the configuration has no namespace.  Then the
    same holds of the modules and the counter after
    [ngx_python_init_namespace], whatever it returns; and the namespace it
    returns is a dictionary that did not exist before, registered under the
    name made from the counter: the dictionary the interpreter makes for a
    new module of that name, with [__builtins__] bound in it; while every
    dictionary that existed, the one of the module [ngx] apart, is as it
    was. *)
Theorem namespace_is_new (s s' : conf_state) (r : option nat) :
  names_below s ->
  (counter s < 2 ^ 64 - 1)%N ->
  pcf_ns (pcf s) = None ->
  ngx_python_init_namespace s = (r, s') ->
  names_below s'
  ∧ ∀ d, r = Some d ->
      dicts (machine s) !! d = None
      ∧ sys_modules s !! namespace_name (counter s) = None
      ∧ sys_modules s' !! namespace_name (counter s) = Some d
      ∧ dict_of (machine s') d =
          <["__builtins__" := PyEval_GetBuiltins]>
            (new_module_dict s (namespace_name (counter s)))
      ∧ dict_of (machine s') d !! "__builtins__" = Some PyEval_GetBuiltins
      ∧ ∀ d' g, dicts (machine s) !! d' = Some g ->
          sys_modules s' !! "ngx" ≠ Some d' ->
          dicts (machine s') !! d' = Some g.
Proof.
  intros Hbelow Hmax Hns Hinit.
  destruct (init_namespace_unfold s Hns)
    as (s1 & Hcnt & (_ & Hnmd & _) & Hmods & Hd & Hdom & Hcase).
  pose proof (names_below_ngx s s1 Hbelow Hcnt Hmods) as Hbelow1.
  destruct Hcase as [Hc|Hc]; rewrite Hc in Hinit.
  { injection Hinit as <- <-. split; [done|]. by intros d [=]. }
  pose proof (add_namespace_spec s1) as [Ha _]. cbv zeta in Ha.
  rewrite Hinit in Ha. clear Hc Hinit.
  assert (Hfree : sys_modules s1 !! namespace_name (counter s1) = None).
  { destruct (sys_modules s1 !! namespace_name (counter s1)) eqn:Hl; [|done].
    assert (counter s1 < counter s1)%N; [|lia].
    apply Hbelow1. rewrite Hl. by eexists. }
  rewrite <- Hcnt in Hmax.
  destruct r as [d|].
  - destruct Ha as (Hpcf & Hc' & Hm' & Hcl' & _ & Hdict & _).
    rewrite Hfree in Hdict. destruct Hdict as [Hfresh Hdicts].
    rewrite Hnmd in Hdicts.
    split; [by apply (names_below_insert s1 s' d)|].
    intros d0 [= <-]. rewrite <- Hcnt.
    split.
    { destruct (dicts (machine s) !! d) as [g|] eqn:Hg; [|done].
      destruct (Hdom d) as [g' Hg']; [by eexists|]. congruence. }
    split.
    { destruct Hmods as [<-|(m & _ & Hm)]; [done|].
      rewrite Hm, lookup_insert_ne in Hfree; [done|].
      intros H. symmetry in H. by apply namespace_name_not_ngx in H. }
    split; [by rewrite Hm', lookup_insert_eq|].
    split; [unfold dict_of; by rewrite Hdicts, lookup_total_insert_eq|].
    split.
    { unfold dict_of. rewrite Hdicts, lookup_total_insert_eq.
      apply lookup_insert_eq. }
    intros d' g Hg Hne.
    assert (Hngx : sys_modules s' !! "ngx" = sys_modules s1 !! "ngx").
    { rewrite Hm'. apply lookup_insert_ne. apply namespace_name_not_ngx. }
    rewrite Hngx in Hne. rewrite Hdicts, lookup_insert_ne; [by apply Hd|].
    intros <-. destruct (Hdom d) as [g' Hg']; [by eexists|]. congruence.
  - split; [|by intros d [=]].
    destruct Ha as (_ & Hc' & Hm' & _).
    destruct Hm' as [Hm'|[Hc'' [d Hm']]].
    + intros n Hn. rewrite Hm' in Hn. apply Hbelow1 in Hn.
      destruct Hc' as [->| ->]; [done|]. rewrite N.mod_small by lia. lia.
    + by apply (names_below_insert s1 s' d).
Qed.

Lemma namespace_is_new_in_cold :
  names_below (snd (ngx_python_init_namespace cold)).
Proof.
  destruct (namespace_is_new cold (snd (ngx_python_init_namespace cold))
              (fst (ngx_python_init_namespace cold))) as [H _];
    [|reflexivity|reflexivity|apply surjective_pairing|exact H].
  intros n [m Hm]. change (sys_modules cold) with (∅ : gmap string nat) in Hm.
  rewrite lookup_empty in Hm. discriminate Hm.
Defined.

(** X9. What [ngx_python_init_namespace] registers undoes what it did to
    [sys.modules] and to the reference count of the namespace.  When the
    call creates the namespace under a name no module had, it takes one
    reference on the namespace and puts one entry at the head of the cleanup
    list of the pool, the handler [ngx_python_cleanup_namespace] for that
    namespace and name.  The handler gives the reference back and removes
    the module again, so that the count is as before the call and
    [sys.modules] is as before it but for the module [ngx] the first call
    imports.  The handler is not idempotent: run once more it finds no
    module and leaves [sys.modules] alone, and gives back a reference it
    never took.  It never adds a name the counter is still to reach. *)
Theorem namespace_cleanup_roundtrip (s s' : conf_state) (d : nat) :
  pcf_ns (pcf s) = None ->
  sys_modules s !! namespace_name (counter s) = None ->
  ngx_python_init_namespace s = (Some d, s') ->
  let name := namespace_name (counter s) in
  let s2 := ngx_python_cleanup_namespace d name s' in
  let s3 := ngx_python_cleanup_namespace d name s2 in
  let n := default 0 (refcnt s !! d) in
  cleanup s' = cleanup_namespace_of d name :: cleanup s
  ∧ sys_modules s' !! name = Some d
  ∧ refcnt s' = <[d := n + 1]> (refcnt s)
  ∧ sys_modules s2 !! name = None
  ∧ (sys_modules s2 = sys_modules s
     ∨ ∃ m, sys_modules s !! "ngx" = None
            ∧ sys_modules s2 = <["ngx" := m]> (sys_modules s))
  ∧ refcnt s2 = <[d := n]> (refcnt s)
  ∧ sys_modules s3 = sys_modules s2
  ∧ refcnt s3 = <[d := n - 1]> (refcnt s)
  ∧ s3 ≠ s2
  ∧ (names_below s' -> names_below s2).
Proof.
  intros Hns Hfree Hinit name s2 s3 n.
  destruct (init_namespace_unfold s Hns)
    as (s1 & Hcnt & (Hcl & _ & Hrc) & Hmods & _ & _ & Hcase).
  destruct Hcase as [Hc|Hc]; rewrite Hc in Hinit; [done|].
  pose proof (add_namespace_spec s1) as [Ha _]. cbv zeta in Ha.
  rewrite Hinit, Hcnt in Ha. fold name in Ha.
  destruct Ha as (_ & _ & Hm' & Hcl' & _ & _ & _ & Hrc').
  rewrite Hrc in Hrc'. fold n in Hrc'.
  assert (Hfree1 : sys_modules s1 !! name = None).
  { destruct Hmods as [->|(m & _ & ->)]; [done|].
    rewrite lookup_insert_ne; [done|].
    intros H. symmetry in H. by apply namespace_name_not_ngx in H. }
  assert (Hs2 : sys_modules s2 = sys_modules s1).
  { unfold s2, ngx_python_cleanup_namespace.
    change (sys_modules (Py_DECREF d s')) with (sys_modules s').
    rewrite Hm', lookup_insert_eq. simpl.
    rewrite delete_insert_eq. by apply delete_id. }
  assert (Hr2 : refcnt s2 = <[d := n]> (refcnt s)).
  { unfold s2, ngx_python_cleanup_namespace.
    change (sys_modules (Py_DECREF d s')) with (sys_modules s').
    rewrite Hm', lookup_insert_eq. simpl.
    rewrite Hrc', lookup_insert_eq, insert_insert_eq. simpl.
    f_equal. lia. }
  assert (Hs3 : s3 = Py_DECREF d s2).
  { unfold s3, ngx_python_cleanup_namespace.
    change (sys_modules (Py_DECREF d s2)) with (sys_modules s2).
    by rewrite Hs2, Hfree1. }
  assert (Hr3 : refcnt s3 = <[d := n - 1]> (refcnt s)).
  { rewrite Hs3. unfold Py_DECREF. simpl.
    by rewrite Hr2, lookup_insert_eq, insert_insert_eq. }
  split; [by rewrite Hcl', Hcl|].
  split; [by rewrite Hm', lookup_insert_eq|].
  split; [done|].
  split; [by rewrite Hs2|].
  split.
  { rewrite Hs2. destruct Hmods as [?|(m & ? & ?)]; [by left|right; by exists m]. }
  split; [done|].
  split; [by rewrite Hs3|].
  split; [done|].
  split.
  { intros Heq. rewrite Heq, Hr2 in Hr3.
    assert (H : (<[d := n]> (refcnt s) : gmap nat Z) !! d
                = (<[d := n - 1]> (refcnt s) : gmap nat Z) !! d)
      by (by rewrite Hr3).
    rewrite !lookup_insert_eq in H. injection H. lia. }
  intros Hbelow k Hk.
  assert (Hc2 : counter s2 = counter s').
  { unfold s2, ngx_python_cleanup_namespace.
    by destruct (sys_modules (Py_DECREF d s') !! name). }
  rewrite Hc2. apply Hbelow. rewrite Hs2 in Hk. rewrite Hm'.
  destruct (decide (name = namespace_name k)) as [<-|Hne].
  - rewrite lookup_insert_eq. by eexists.
  - by rewrite lookup_insert_ne.
Qed.

Lemma namespace_cleanup_in_cold :
  sys_modules
    (ngx_python_cleanup_namespace 1 "ngx0"
       (snd (ngx_python_init_namespace cold))) !! "ngx0" = None.
Proof.
  assert (Hf : fst (ngx_python_init_namespace cold) = Some 1%nat)
    by (vm_compute; reflexivity).
  pose proof (surjective_pairing (ngx_python_init_namespace cold)) as Hr.
  rewrite Hf in Hr.
  destruct (namespace_cleanup_roundtrip cold _ 1%nat eq_refl eq_refl Hr)
    as (_ & _ & _ & H & _).
  exact H.
Defined.

(** ** Tasks of a configuration *)

Lemma ngx_palloc_frame (m : state) :
  ngx_python_ctx (snd (ngx_palloc m)) = ngx_python_ctx m
  ∧ ps (snd (ngx_palloc m)) = ps m ∧ ctxs (snd (ngx_palloc m)) = ctxs m
  ∧ dicts (snd (ngx_palloc m)) = dicts m ∧ log (snd (ngx_palloc m)) = log m
  ∧ getcontext_script (snd (ngx_palloc m)) = getcontext_script m
  ∧ swapcontext_script (snd (ngx_palloc m)) = swapcontext_script m.
Proof.
  unfold ngx_palloc.
  by destruct (next_outcome false (palloc_script m)) as [[|] rest].
Qed.

(** X11. [ngx_python_create_ctx] without a configured namespace returns
    [NULL] and touches nothing.  With one, a call that succeeds adds one
    record at the end of the task table: a task not started, with no stack,
    no saved context and the terminate flag unset, bound to the namespace of
    the configuration and with its stack size, 32768 bytes when the
    directive [python_stack_size] did not set it; and it puts one entry at
    the head of the cleanup list of the pool, [ngx_python_cleanup_ctx] for
    this record.  A call that fails for want of memory registers no handler.
    In every case the records that were there, the namespaces, the thread
    state, the log and the configuration are as before. *)
Theorem create_ctx_adds_a_fresh_task (s : conf_state)
    (pool : list cleanup_handler) :
  match pcf_ns (pcf s) with
  | None => ngx_python_create_ctx s pool = (None, s, pool)
  | Some d =>
      match ngx_python_create_ctx s pool with
      | (r, s', pool') =>
          match r with
          | Some c =>
              c = length (ctxs (machine s))
              ∧ ctxs (machine s') =
                  (ctxs (machine s) ++ [new_ctx d (pcf_stack_size (pcf s))])%list
              ∧ pool' = cleanup_ctx_of c :: pool
          | None =>
              (pool' = pool ∨ pool' = handler_unset :: pool)
              ∧ ∀ c x, ctxs (machine s) !! c = Some x ->
                  ctxs (machine s') !! c = Some x
          end
          ∧ dicts (machine s') = dicts (machine s)
          ∧ ps (machine s') = ps (machine s)
          ∧ log (machine s') = log (machine s)
          ∧ ngx_python_ctx (machine s') = ngx_python_ctx (machine s)
          ∧ set_machine (machine s) s' = s
      end
  end
  ∧ ∀ conf, pcf s = ngx_python_init_conf conf ->
      pcf_stack_size (pcf s) =
        if (pcf_stack_size conf =? NGX_CONF_UNSET_SIZE)%Z then 32768
        else pcf_stack_size conf.
Proof.
  split; [|by intros conf ->].
  unfold ngx_python_create_ctx.
  destruct (pcf_ns (pcf s)) as [d|]; [|done].
  pose proof (ngx_palloc_frame (machine s)) as Hf1.
  destruct (ngx_palloc (machine s)) as [[p|] m1]; simpl in Hf1;
    destruct Hf1 as (Ha1 & Hp1 & Hc1 & Hd1 & Hl1 & _).
  2:{ simpl. rewrite Hd1, Hp1, Hl1, Ha1. split; [|by destruct s].
      split; [by left|]. intros c x. by rewrite Hc1. }
  unfold ngx_pool_cleanup_add.
  set (m2 := set_ctxs _ m1).
  pose proof (ngx_palloc_frame m2) as Hf2.
  destruct (ngx_palloc m2) as [[q|] m3]; simpl in Hf2;
    destruct Hf2 as (Ha2 & Hp2 & Hc2 & Hd2 & Hl2 & _).
  2:{ simpl. rewrite Hd2, Hp2, Hl2, Ha2, Hd1, Hp1, Hl1, Ha1.
      split; [|by destruct s].
      split; [by left|]. intros c x Hx. rewrite Hc2, Hc1.
      by apply lookup_app_l_Some. }
  simpl. rewrite Hd2, Hp2, Hl2, Ha2, Hd1, Hp1, Hl1, Ha1, Hc2, Hc1.
  split; [|by destruct s].
  split; [done|].
  split; [|by rewrite set_cleanup_handler_head].
  replace (length (ctxs (machine s))) with (length (ctxs (machine s)) + 0)%nat
    by lia.
  by rewrite alter_app_r.
Qed.

Lemma create_ctx_ok (s s' : conf_state) (pool pool' : list cleanup_handler)
    (d c : nat) :
  pcf_ns (pcf s) = Some d ->
  ngx_python_create_ctx s pool = (Some c, s', pool') ->
  c = length (ctxs (machine s))
  ∧ ctxs (machine s') =
      (ctxs (machine s) ++ [new_ctx d (pcf_stack_size (pcf s))])%list
  ∧ dicts (machine s') = dicts (machine s)
  ∧ ps (machine s') = ps (machine s)
  ∧ pcf s' = pcf s.
Proof.
  intros Hns. unfold ngx_python_create_ctx. rewrite Hns.
  pose proof (ngx_palloc_frame (machine s)) as Hf1.
  destruct (ngx_palloc (machine s)) as [[p|] m1]; [|done]. simpl in Hf1.
  destruct Hf1 as (_ & Hp1 & Hc1 & Hd1 & _).
  unfold ngx_pool_cleanup_add.
  set (m2 := set_ctxs _ m1).
  pose proof (ngx_palloc_frame m2) as Hf2.
  destruct (ngx_palloc m2) as [[q|] m3]; [|done]. simpl in Hf2.
  destruct Hf2 as (_ & Hp2 & Hc2 & Hd2 & _).
  intros [= <- <- <-]. simpl. rewrite Hd2, Hp2, Hd1, Hp1, Hc2, Hc1.
  split; [done|]. split; [|done].
  replace (length (ctxs (machine s))) with (length (ctxs (machine s)) + 0)%nat
    by lia.
  by rewrite alter_app_r.
Qed.


(** ** From the configuration to an evaluation *)

Lemma init_namespace_machine (s s' : conf_state) (r : option nat) :
  ngx_python_init_namespace s = (r, s') ->
  ngx_python_ctx (machine s') = ngx_python_ctx (machine s)
  ∧ ctxs (machine s') = ctxs (machine s)
  ∧ log (machine s') = log (machine s)
  ∧ (is_Some r -> ps (machine s') = ps (machine s)).
Proof.
  unfold ngx_python_init_namespace.
  destruct (pcf_ns (pcf s)) as [d0|]; [by intros [= <- <-]|].
  pose proof (init_interpreter_spec s) as Hi.
  destruct (init_interpreter s) as [ok s1].
  destruct Hi as (_ & _ & _ & _ & _ & Hc & (_ & _ & Hp) & Hl & Ha & _).
  destruct ok.
  2:{ intros [= <- <-]. repeat (split; [done|]). by intros [? ?]. }
  pose proof (add_namespace_spec s1) as (Hcase & _ & _ & Hc2 & _ & Hl2 & Ha2).
  intros Hadd. rewrite Hadd in Hcase, Hc2, Hl2, Ha2. simpl in *.
  split; [by rewrite Ha2, Ha|]. split; [by rewrite Hc2, Hc|].
  split; [by rewrite Hl2, Hl|].
  intros [d ->]. destruct Hcase as (_ & _ & _ & _ & _ & _ & Hp2 & _).
  rewrite Hp2. by apply Hp.
Qed.

Lemma set_slot_ok (fuel : nat) (s s1 : conf_state) (b : prog) :
  ngx_python_set_slot fuel s b = Ok (NGX_CONF_OK, s1) ->
  ∃ d s0 m o,
    ngx_python_init_namespace s = (Some d, s0)
    ∧ run fuel (machine s0) d b = Ok (m, Finished (Some o))
    ∧ s1 = set_machine m s0.
Proof.
  unfold ngx_python_set_slot.
  destruct (ngx_python_init_namespace s) as [[d|] s0] eqn:Hinit; [|done].
  destruct (run fuel (machine s0) d b) as [[m e]| |] eqn:Hrun; simpl;
    [|done..].
  destruct e as [[o|]|]; [|done..].
  intros [= <-]. by exists d, s0, m, o.
Qed.

Lemma compile_ok (s s2 : conf_state) (b2 code : prog) (d : nat) :
  pcf_ns (pcf s) = Some d ->
  ngx_python_compile s (compiled b2) = (Some code, s2) ->
  code = b2 ∧ pcf s2 = pcf s ∧ dicts (machine s2) = dicts (machine s)
  ∧ ps (machine s2) = ps (machine s)
  ∧ cleanup s2 = decref_of b2 :: cleanup s.
Proof.
  intros Hns. unfold ngx_python_compile, ngx_python_init_namespace.
  rewrite Hns. unfold conf_palloc, ngx_pool_cleanup_add, ngx_palloc.
  destruct (next_outcome false (palloc_script (machine s))) as [[|] r1];
    simpl; [done|].
  destruct (next_outcome false r1) as [[|] r2]; simpl; [done|].
  intros [= <- <-]. simpl. by rewrite set_cleanup_handler_head.
Qed.

(** X12. What a [python] directive leaves in the namespace is what an
    evaluation finds.  When the directive succeeded, an expression was
    compiled after it and a task created, the code returned is the one
    compiled, the task is bound to the namespace of the configuration, and
    evaluating in the task, without a wake handle, a code that only computes
    gives the result, and leaves the namespaces, that running the code in
    that namespace right after the directive gives.  In the code of a
    directive read outside any task every blocking call fails. *)
Theorem directive_reaches_evaluation (fuel fuel2 : nat)
    (s s1 s2 s3 : conf_state) (b b2 code : prog)
    (pool pool' : list cleanup_handler) (c : nat) :
  ngx_python_set_slot fuel s b = Ok (NGX_CONF_OK, s1) ->
  ngx_python_compile s1 (compiled b2) = (Some code, s2) ->
  ngx_python_create_ctx s2 pool = (Some c, s3, pool') ->
  straight b2 ->
  code = b2
  ∧ pcf_ns (pcf s3) = Some (ns (ctx_at (machine s3) c))
  ∧ pcf_ns (pcf s1) = Some (ns (ctx_at (machine s3) c))
  ∧ (∀ m r,
       run fuel2 (machine s1) (ns (ctx_at (machine s3) c)) b2
         = Ok (m, Finished r) ->
       ∃ st',
         ngx_python_eval fuel2 (machine s3) c (Some code) None
           = Ok (st', of_option r)
         ∧ dicts st' = dicts m)
  ∧ (ngx_python_ctx (machine s) = None ->
     ngx_python_set_slot fuel s (fail_yields b) = ngx_python_set_slot fuel s b).
Proof.
  intros Hslot Hcomp Hctx Hb2.
  destruct (set_slot_ok fuel s s1 b Hslot) as (d & s0 & m0 & o & Hinit & Hrun0 & ->).
  destruct (init_namespace_pcf s s0 (Some d) Hinit) as [_ Hns0].
  assert (Hns1 : pcf_ns (pcf (set_machine m0 s0)) = Some d) by done.
  destruct (compile_ok _ s2 b2 code d Hns1 Hcomp)
    as (-> & Hpcf2 & Hd2 & Hp2 & _).
  assert (Hns2 : pcf_ns (pcf s2) = Some d) by (by rewrite Hpcf2).
  destruct (create_ctx_ok s2 s3 pool pool' d c Hns2 Hctx)
    as (-> & Hctxs & Hd3 & Hp3 & Hpcf3).
  assert (Hx : ctxs (machine s3) !! length (ctxs (machine s2))
               = Some (new_ctx d (pcf_stack_size (pcf s2)))).
  { rewrite Hctxs. rewrite lookup_app_r by lia.
    by replace (length (ctxs (machine s2)) - length (ctxs (machine s2)))%nat
      with 0%nat by lia. }
  rewrite (ctx_at_lookup _ _ _ Hx). simpl.
  split; [done|]. split; [by rewrite Hpcf3|]. split; [done|]. split.
  - intros m r Hrun.
    unfold ngx_python_eval, ngx_python_eval_with. rewrite Hx. simpl.
    set (base := set_ngx_python_ctx None (machine s3)).
    rewrite (ctx_at_lookup base _ _ Hx). simpl.
    assert (Hg : graft base m0 = base).
    { apply graft_same; simpl; [by rewrite Hp3, Hp2|by rewrite Hd3, Hd2]. }
    pose proof (run_straight_graft fuel2 m0 d b2 base Hb2) as Hgr.
    simpl in Hrun. rewrite Hg, Hrun in Hgr. rewrite Hgr. simpl.
    eexists. split; [reflexivity|]. by destruct r.
  - intros Hact. unfold ngx_python_set_slot. rewrite Hinit.
    destruct (init_namespace_machine s s0 _ Hinit) as (Ha0 & _).
    rewrite run_fail_yields; [done|]. by rewrite Ha0.
Qed.

Lemma directive_x_reaches_evaluation :
  ∃ st',
    ngx_python_eval 3 (machine cold_x_task) 0 (Some body_read_x) None
      = Ok (st', Ptr (PyLong 5)).
Proof.
  assert (H1 : ngx_python_set_slot 3 cold body_set_x = Ok (NGX_CONF_OK, cold_x))
    by (vm_compute; reflexivity).
  assert (H2 : ngx_python_compile cold_x (compiled body_read_x)
               = (Some body_read_x, cold_x_compiled))
    by (vm_compute; reflexivity).
  assert (H3 : ngx_python_create_ctx cold_x_compiled []
               = (Some 0%nat, cold_x_task, [cleanup_ctx_of 0]))
    by (vm_compute; reflexivity).
  assert (H4 : straight body_read_x) by (by intros []).
  destruct (directive_reaches_evaluation 3 3 cold cold_x cold_x_compiled
              cold_x_task body_set_x body_read_x body_read_x [] _ 0%nat
              H1 H2 H3 H4) as (_ & _ & _ & Hev & _).
  assert (Hrun : ∃ m,
    run 3 (machine cold_x) (ns (ctx_at (machine cold_x_task) 0)) body_read_x
      = Ok (m, Finished (Some (PyLong 5))))
    by (eexists; vm_compute; reflexivity).
  destruct Hrun as [m Hrun].
  destruct (Hev m _ Hrun) as (st' & Hst' & _). by exists st'.
Defined.

(** ** Including files *)

Lemma include_file_frame
    (fopen : string -> option prog) (fuel : nat) (s s' : conf_state)
    (d : nat) (file : string) (rv : conf_rc) :
  ngx_python_include_file fopen fuel s d file = Ok (rv, s') ->
  open_globs s' = open_globs s ∧ pcf s' = pcf s
  ∧ sys_modules s' = sys_modules s ∧ counter s' = counter s
  ∧ cleanup s' = cleanup s.
Proof.
  unfold ngx_python_include_file. destruct (fopen file) as [b|].
  - destruct (run fuel (machine s) d b) as [[m e]| |]; simpl; [|done..].
    destruct e as [[o|]|]; [| |done]; by intros [= <- <-].
  - by intros [= <- <-].
Qed.

Lemma include_glob_app
    (fopen fopen' : string -> option prog) (fuel : nat) (d : nat)
    (l1 l2 : list string) :
  (∀ f, f ∈ l1 -> fopen' f = fopen f) ->
  ∀ s,
    include_glob fopen' fuel s d (l1 ++ l2) =
      match include_glob fopen fuel s d l1 with
      | Ok (loop_break NGX_CONF_OK, s1) => include_glob fopen' fuel s1 d l2
      | other => other
      end.
Proof.
  induction l1 as [|name l1 IH]; intros Hsame s; simpl; [done|].
  destruct (conf_palloc s) as [[p|] s0]; [|done].
  assert (Hfile : ngx_python_include_file fopen' fuel s0 d name
                  = ngx_python_include_file fopen fuel s0 d name).
  { unfold ngx_python_include_file. by rewrite (Hsame name) by (by left). }
  rewrite Hfile.
  destruct (ngx_python_include_file fopen fuel s0 d name)
    as [[rv s2]| |]; simpl; [|done..].
  destruct rv; [|done].
  apply IH. intros f Hf. apply Hsame. by right.
Qed.

(** X13. The loop of [python_include] runs the files in the order of the
    glob and stops at the first that fails.  When the loop over the names
    [l1] ends with all of them included, the loop over [l1] followed by [l2]
    goes on with [l2] from the state reached; when it is left otherwise --
    a file could not be opened, its code failed, or its name could not be
    copied -- the loop over [l1] followed by any [l2] is left in the same
    way and state, whatever the files of [l2] hold: none of them is
    opened. *)
Theorem include_stops_at_first_failure
    (fopen fopen' : string -> option prog) (fuel : nat) (d : nat)
    (l1 l2 : list string) (s s1 : conf_state) (e : loop_end) :
  (∀ f, f ∈ l1 -> fopen' f = fopen f) ->
  include_glob fopen fuel s d l1 = Ok (e, s1) ->
  match e with
  | loop_break NGX_CONF_OK =>
      include_glob fopen' fuel s d (l1 ++ l2) = include_glob fopen' fuel s1 d l2
  | _ => include_glob fopen' fuel s d (l1 ++ l2) = Ok (e, s1)
  end.
Proof.
  intros Hsame Hl1.
  rewrite (include_glob_app fopen fopen' fuel d l1 l2 Hsame s), Hl1.
  by destruct e as [[|]|rv].
Qed.

Lemma include_stops_at_b :
  ∃ s1,
    include_glob two_files 3 cold_x 1 ["/etc/a.py"; "/etc/b.py"; "/etc/c.py"]
      = Ok (loop_break NGX_CONF_ERROR, s1).
Proof.
  assert (H : ∃ s1,
    include_glob two_files 3 cold_x 1 ["/etc/a.py"; "/etc/b.py"]
      = Ok (loop_break NGX_CONF_ERROR, s1))
    by (eexists; vm_compute; reflexivity).
  destruct H as [s1 H]. exists s1.
  apply (include_stops_at_first_failure two_files two_files 3 1
           ["/etc/a.py"; "/etc/b.py"] ["/etc/c.py"] cold_x s1
           (loop_break NGX_CONF_ERROR)); [done|exact H].
Defined.

Lemma init_namespace_open_globs (s s' : conf_state) (r : option nat) :
  ngx_python_init_namespace s = (r, s') -> open_globs s' = open_globs s.
Proof.
  unfold ngx_python_init_namespace.
  destruct (pcf_ns (pcf s)) as [d0|]; [by intros [= <- <-]|].
  pose proof (init_interpreter_spec s) as Hi.
  destruct (init_interpreter s) as [ok s1].
  destruct Hi as (_ & _ & _ & _ & Hog & _).
  destruct ok; [|by intros [= <- <-]].
  pose proof (add_namespace_spec s1) as (_ & _ & Hog2 & _).
  intros Hadd. rewrite Hadd in Hog2. simpl in Hog2. by rewrite Hog2.
Qed.

Lemma init_namespace_palloc (s s' : conf_state) (r : option nat) :
  ngx_python_init_namespace s = (r, s') ->
  palloc_script (machine s) = [] -> palloc_script (machine s') = [].
Proof.
  unfold ngx_python_init_namespace.
  destruct (pcf_ns (pcf s)) as [d0|]; [by intros [= <- <-]|].
  intros H Hs. revert H.
  assert (H1 : palloc_script (machine (snd (init_interpreter s))) = []).
  { unfold init_interpreter. generalize ngx_constants. intros l.
    destruct (initialized s); [done|].
    unfold PyImport_ImportModule, python_call_fails. simpl.
    destruct (next_outcome None (python_script s)) as [[[t v]|] p1]; simpl;
      [done|].
    match goal with |- context [add_module "ngx" ?s1] =>
      pose proof (add_module_spec "ngx" s1) as Hadd;
      destruct (add_module "ngx" s1) as [m s2]
    end.
    simpl in Hadd. destruct Hadd as (_ & _ & _ & _ & _ & _ & _ & _ & _ & _ & _
                                     & _ & _ & _ & Hpal & _).
    pose proof (add_constants_spec m l s2) as Hc. simpl in Hc.
    destruct Hc as (_ & _ & _ & _ & _ & _ & _ & _ & _ & _ & _ & _ & H13 & _).
    simpl. by rewrite H13, Hpal. }
  destruct (init_interpreter s) as [ok s1]. simpl in H1.
  destruct ok; [|by intros [= <- <-]].
  intros Hadd.
  assert (H2 : palloc_script (machine (snd (add_namespace s1))) = []);
    [|by rewrite Hadd in H2].
  clear Hadd.
  unfold add_namespace, conf_palloc, ngx_pool_cleanup_add, ngx_palloc.
  rewrite H1. simpl.
  unfold PyImport_AddModule, python_call_fails. simpl.
  destruct (next_outcome None (python_script s1)) as [[[t v]|] p1]; simpl;
    [done|].
  match goal with |- context [add_module ?name ?s4] =>
    pose proof (add_module_spec name s4) as Hadd;
    destruct (add_module name s4) as [m s5]
  end.
  simpl in Hadd. destruct Hadd as (_ & _ & _ & _ & _ & _ & _ & Hscr & _ & _ & _
                                   & _ & _ & _ & Hpal & _).
  unfold PyModule_GetDict, python_call_fails. rewrite Hscr. simpl.
  destruct (next_outcome None p1) as [[[t v]|] p2]; simpl; [done|].
  destruct (next_outcome None p2) as [[[t v]|] p3]; simpl; done.
Qed.

Lemma include_glob_open_globs
    (fopen : string -> option prog) (fuel : nat) (d : nat)
    (names : list string) :
  ∀ s e s',
    include_glob fopen fuel s d names = Ok (e, s') ->
    open_globs s' = open_globs s
    ∧ match e with
      | loop_break _ => True
      | loop_return rv => rv = NGX_CONF_ERROR
      end.
Proof.
  induction names as [|name names IH]; intros s e s'; simpl.
  - by intros [= <- <-].
  - unfold conf_palloc.
    destruct (ngx_palloc (machine s)) as [[p|] m0]; [|by intros [= <- <-]].
    destruct (ngx_python_include_file fopen fuel (set_machine m0 s) d name)
      as [[rv s2]| |] eqn:Hfile; simpl; [|done..].
    apply include_file_frame in Hfile as (Hog & _).
    destruct rv.
    + intros H. apply IH in H as [H1 H2]. split; [|done]. by rewrite H1, Hog.
    + by intros [= <- <-].
Qed.

Lemma include_glob_with_memory
    (fopen : string -> option prog) (fuel : nat) (d : nat)
    (names : list string) :
  (∀ f b, fopen f = Some b -> no_eval b) ->
  ∀ s e s',
    ngx_python_ctx (machine s) = None ->
    palloc_script (machine s) = [] ->
    include_glob fopen fuel s d names = Ok (e, s') ->
    ∃ rv, e = loop_break rv.
Proof.
  intros Hfiles.
  induction names as [|name names IH]; intros s e s' Hact Hs; simpl.
  - intros [= <- <-]. by eexists.
  - unfold conf_palloc, ngx_palloc. rewrite Hs. simpl.
    set (s0 := set_machine _ s).
    unfold ngx_python_include_file.
    destruct (fopen name) as [b|] eqn:Hb; [|intros [= <- <-]; by eexists].
    destruct (run fuel (machine s0) d b) as [[m e0]| |] eqn:Hrun; simpl;
      [|done..].
    apply run_no_eval_outside_task in Hrun
      as (Hact' & _ & _ & Hpal & _ & _ & r & ->); [|by eapply Hfiles|done].
    destruct r as [o|]; [|intros [= <- <-]; by eexists].
    apply IH; [done|]. simpl. by rewrite Hpal.
Qed.

(** X14. [python_include] and its glob.  A call that returns leaves as many
    globs open as it found, or one more, and then it returns
    [NGX_CONF_ERROR].  When the configuration is read outside any task, the
    code of the files makes no nested evaluation and no allocation is going
    to fail, the glob it opened is closed.  But when [ngx_pstrdup] cannot
    copy the first name of the glob, the call returns [NGX_CONF_ERROR] with
    the glob left open (line 531 returns past [ngx_close_glob]) and logs
    nothing. *)
Theorem include_closes_the_glob
    (ngx_conf_full_name : string -> option string)
    (ngx_glob : string -> option (list string))
    (fopen : string -> option prog)
    (fuel : nat) (s s' : conf_state) (value : string) (rc : conf_rc) :
  ngx_python_include_set_slot ngx_conf_full_name ngx_glob fopen fuel s value
    = Ok (rc, s') ->
  (open_globs s' = open_globs s
   ∨ open_globs s' = S (open_globs s) ∧ rc = NGX_CONF_ERROR)
  ∧ (ngx_python_ctx (machine s) = None ->
     (∀ f b, fopen f = Some b -> no_eval b) ->
     palloc_script (machine s) = [] ->
     open_globs s' = open_globs s)
  ∧ (∀ d s1 file name rest,
       ngx_python_init_namespace s = (Some d, s1) ->
       ngx_conf_full_name value = Some file ->
       has_glob_char file = true ->
       ngx_glob file = Some (name :: rest) ->
       fst (conf_palloc s1) = None ->
       open_globs s' = S (open_globs s) ∧ rc = NGX_CONF_ERROR
       ∧ conf_log s' = conf_log s1).
Proof.
  unfold ngx_python_include_set_slot.
  destruct (ngx_python_init_namespace s) as [[d|] s1] eqn:Hinit.
  2:{ intros [= <- <-].
      pose proof (init_namespace_open_globs _ _ _ Hinit) as Hog.
      split; [by left|]. split; [done|]. by intros. }
  pose proof (init_namespace_open_globs _ _ _ Hinit) as Hog.
  destruct (ngx_conf_full_name value) as [file|] eqn:Hfull.
  2:{ intros [= <- <-]. split; [by left|]. split; [done|]. by intros. }
  destruct (has_glob_char file) eqn:Hwild.
  2:{ intros Hfile. apply include_file_frame in Hfile as (Hog' & _).
      split; [left; by rewrite Hog'|]. split; [by rewrite Hog'|].
      intros ? ? ? ? ? _ [= <-] Hw. by rewrite Hwild in Hw. }
  destruct (ngx_glob file) as [names|] eqn:Hglob.
  2:{ intros [= <- <-]. split; [by left|]. split; [done|].
      intros ? ? ? ? ? _ [= <-] _ Hg. by rewrite Hglob in Hg. }
  set (s2 := set_open_globs (S (open_globs s1)) s1).
  destruct (include_glob fopen fuel s2 d names) as [[e s3]| |] eqn:Hloop;
    simpl; [|done..].
  destruct (include_glob_open_globs fopen fuel d names s2 e s3 Hloop)
    as [Hog3 He].
  simpl in Hog3.
  intros Hres. split; [|split].
  - destruct e as [rv|rv]; injection Hres as <- <-; simpl.
    + left. by rewrite Hog3, Hog.
    + right. by rewrite Hog3, Hog, He.
  - intros Hact Hfiles Hs.
    destruct (init_namespace_machine s s1 _ Hinit) as (Ha1 & _).
    pose proof (init_namespace_palloc s s1 _ Hinit Hs) as Hs1.
    destruct (include_glob_with_memory fopen fuel d names Hfiles s2 e s3)
      as [rv ->]; [by rewrite <- Ha1 in Hact|done|done|].
    injection Hres as <- <-. simpl. by rewrite Hog3, Hog.
  - intros d' s1' file' name rest [= <- <-] [= <-] _ Hg Hmem.
    rewrite Hglob in Hg. injection Hg as ->.
    revert Hloop. simpl. unfold conf_palloc in *.
    change (machine s2) with (machine s1).
    destruct (ngx_palloc (machine s1)) as [[p|] m0]; [done|].
    intros [= <- <-]. injection Hres as <- <-. simpl. by rewrite Hog.
Qed.

Lemma include_leaves_the_glob_open :
  ∃ s',
    ngx_python_include_set_slot Some etc_glob two_files 3 cold_x_no_memory
      "/etc/*.py" = Ok (NGX_CONF_ERROR, s')
    ∧ open_globs s' = 1%nat.
Proof.
  assert (H : ∃ s',
    ngx_python_include_set_slot Some etc_glob two_files 3 cold_x_no_memory
      "/etc/*.py" = Ok (NGX_CONF_ERROR, s'))
    by (eexists; vm_compute; reflexivity).
  destruct H as [s' H]. exists s'. split; [exact H|].
  destruct (include_closes_the_glob Some etc_glob two_files 3 cold_x_no_memory
              s' "/etc/*.py" NGX_CONF_ERROR H) as (_ & _ & Hleak).
  destruct (Hleak 1%nat cold_x_no_memory "/etc/*.py" "/etc/a.py"
              ["/etc/b.py"; "/etc/c.py"]) as (Hog & _).
  - vm_compute. reflexivity.
  - reflexivity.
  - vm_compute. reflexivity.
  - vm_compute. reflexivity.
  - vm_compute. reflexivity.
  - rewrite Hog. vm_compute. reflexivity.
Defined.

(** ** A task is confined to its record *)

Lemma confined_refl (a : option nat) (st st' : state) :
  ctxs st' = ctxs st -> confined a st st'.
Proof. intros Hc c _. by rewrite Hc. Qed.

Lemma confined_trans (a : option nat) (st1 st2 st3 : state) :
  confined a st1 st2 -> confined a st2 st3 -> confined a st1 st3.
Proof. intros Hc1 Hc2 c Hc. by rewrite Hc2, Hc1. Qed.

Lemma confined_with_ctx (c : nat) (f : ngx_python_ctx_t -> ngx_python_ctx_t)
    (st : state) :
  confined (Some c) st (with_ctx c f st).
Proof. intros c' Hc'. apply with_ctx_lookup_ne. congruence. Qed.

Lemma confined_task_handler_store (c : nat) (st : state) (e : body_end) :
  confined (Some c) st (task_handler_store st c e).
Proof.
  destruct e as [[o|]|]; simpl.
  - apply confined_with_ctx.
  - eapply confined_trans; [apply (confined_with_ctx c (set_result NULL))|].
    by apply confined_refl.
  - by apply confined_refl.
Qed.

Lemma confined_eval_finish (c : nat) (st : state) :
  confined (Some c) st (fst (ngx_python_eval_finish st c)).
Proof.
  unfold ngx_python_eval_finish.
  destruct (result (ctx_at st c)); simpl;
    (by apply confined_refl) || apply confined_with_ctx.
Qed.

Lemma run_no_eval_confined (fuel : nat) :
  ∀ st p b st' e,
    no_eval b -> run fuel st p b = Ok (st', e) ->
    confined (ngx_python_ctx st) st st'.
Proof.
  induction fuel as [|fuel IH]; intros st p b st' e Hb; [done|].
  destruct b as [r|f k|name k|name v k|k|c code0 wake0 k]; simpl in *.
  - intros [= <- <-]. by apply confined_refl.
  - intros H. apply (IH _ _ _ _ _ Hb) in H. simpl in H.
    eapply confined_trans; [|exact H]. by apply confined_refl.
  - intros H. by apply (IH _ _ _ _ _ (Hb _)) in H.
  - intros H. apply (IH _ _ _ _ _ Hb) in H. simpl in H.
    eapply confined_trans; [|exact H]. by apply confined_refl.
  - unfold ngx_python_yield_enter, ngx_python_get_ctx, swapcontext.
    destruct (ngx_python_ctx st) as [c|] eqn:Hact.
    + destruct (next_outcome None (swapcontext_script st)) as [[errno|] rest].
      * intros H. apply (IH _ _ _ _ _ (Hb _)) in H. simpl in H.
        rewrite ?Hact in H.
        eapply confined_trans; [|exact H]. by apply confined_refl.
      * intros [= <- <-].
        eapply confined_trans; [|apply confined_with_ctx].
        by apply confined_refl.
    + intros H. apply (IH _ _ _ _ _ (Hb _)) in H. simpl in H.
      rewrite ?Hact in H.
      eapply confined_trans; [|exact H]. by apply confined_refl.
  - done.
Qed.

Lemma switch_to_task_confined (fuel : nat) (st st4 : state) (c : nat)
    (x : ngx_python_ctx_t) :
  ctxs st !! c = Some x ->
  ngx_python_ctx st = Some c ->
  (∀ b, code x = Some b -> no_eval b) ->
  (∀ k rc, uc_mcontext (uc x) = mc_yield k -> no_eval (k rc)) ->
  switch_to_task (run fuel) st c = Ok st4 ->
  confined (Some c) st st4.
Proof.
  intros Hx Hact Hcode Hk. unfold switch_to_task, swapcontext.
  destruct (next_outcome None (swapcontext_script st)) as [[errno|] rest].
  { intros [= <-]. by apply confined_refl. }
  set (st1 := {| ngx_python_ctx := ngx_python_ctx st |}).
  assert (Hx1 : ctxs st1 !! c = Some x) by done.
  rewrite (ctx_at_lookup st1 c x Hx1).
  set (st2 := with_ctx c (set_mcontext mc_stale) st1).
  assert (Hx2 : ctxs st2 !! c = Some (set_mcontext mc_stale x))
    by (by apply with_ctx_lookup_eq).
  assert (H12 : confined (Some c) st st2).
  { eapply confined_trans; [|apply confined_with_ctx]. by apply confined_refl. }
  destruct (uc_mcontext (uc x)) as [| |k|] eqn:Hmc; [done| | |done].
  - unfold ngx_python_task_handler, ngx_python_get_ctx. simpl. rewrite Hact.
    fold st2. rewrite (ctx_at_lookup st2 c _ Hx2). simpl.
    destruct (code x) as [b|] eqn:Hb; [|done].
    destruct (run fuel st2 (ns x) b) as [[st3 e]| |] eqn:Hrun; simpl; [|done..].
    intros [= <-].
    apply run_no_eval_confined in Hrun; [|by apply Hcode].
    change (ngx_python_ctx st2) with (ngx_python_ctx st) in Hrun.
    rewrite Hact in Hrun.
    eapply confined_trans; [exact H12|].
    eapply confined_trans; [exact Hrun|]. apply confined_task_handler_store.
  - fold st2. unfold ngx_python_yield_regain.
    rewrite (ctx_at_lookup st2 c _ Hx2). simpl.
    destruct (terminate x); simpl.
    + set (st3 := PyErr_SetString _ _ st2).
      assert (Hx3 : ctxs st3 !! c = Some (set_mcontext mc_stale x)) by done.
      rewrite (ctx_at_lookup st3 c _ Hx3). simpl.
      destruct (run fuel st3 (ns x) (k NGX_ERROR)) as [[st5 e]| |] eqn:Hrun;
        simpl; [|done..].
      intros [= <-].
      apply run_no_eval_confined in Hrun; [|by apply Hk].
      change (ngx_python_ctx st3) with (ngx_python_ctx st) in Hrun.
      rewrite Hact in Hrun.
      eapply confined_trans; [exact H12|].
      eapply confined_trans; [by apply (confined_refl _ st2 st3)|].
      eapply confined_trans; [exact Hrun|]. apply confined_task_handler_store.
    + rewrite (ctx_at_lookup st2 c _ Hx2). simpl.
      destruct (run fuel st2 (ns x) (k NGX_OK)) as [[st5 e]| |] eqn:Hrun;
        simpl; [|done..].
      intros [= <-].
      apply run_no_eval_confined in Hrun; [|by apply Hk].
      change (ngx_python_ctx st2) with (ngx_python_ctx st) in Hrun.
      rewrite Hact in Hrun.
      eapply confined_trans; [exact H12|].
      eapply confined_trans; [exact Hrun|]. apply confined_task_handler_store.
Qed.

(** X15. A step is confined to the record of its task.  When neither the
    code given to the step, nor the code stored in the record, nor the rest
    of the body saved in it makes a nested evaluation, a call of
    [ngx_python_eval] on task [c] that returns leaves the record of every
    other task exactly as it was.  Nothing is said of the namespaces, which
    Python code can reach by other ways than the globals of its task. *)
Theorem step_is_confined_to_its_task (fuel : nat) (st st' : state) (c : nat)
    (x : ngx_python_ctx_t) (code0 : option prog) (wake0 : option nat)
    (r : pyresult) :
  ctxs st !! c = Some x ->
  (∀ b, code0 = Some b -> no_eval b) ->
  (∀ b, code x = Some b -> no_eval b) ->
  (∀ k rc, uc_mcontext (uc x) = mc_yield k -> no_eval (k rc)) ->
  ngx_python_eval fuel st c code0 wake0 = Ok (st', r) ->
  ∀ c', c' ≠ c -> ctxs st' !! c' = ctxs st !! c'.
Proof.
  intros Hx Hcode0 Hcode Hk Hev.
  cut (confined (Some c) st st').
  { intros H1 c' Hc'. apply H1. congruence. }
  revert Hev. unfold ngx_python_eval, ngx_python_eval_with. rewrite Hx.
  destruct wake0 as [w|].
  - pose proof (touches_first_step st c code0 w) as Hto.
    pose proof (first_step_caller st c code0 w) as Hcl.
    assert (Hfirst : match ngx_python_eval_first_step st c code0 w with
                     | proceed st1 | return_NULL st1 =>
                         confined (Some c) st st1
                     end).
    { destruct (ngx_python_eval_first_step st c code0 w) as [st1|st1];
        intros c' Hc'; specialize (Hto c');
        destruct (ctxs st !! c') as [y|], (ctxs st1 !! c') as [y'|]; try done;
        destruct Hto as [_ Hy]; rewrite Hy; congruence. }
    destruct (ngx_python_eval_first_step st c code0 w) as [st1|st1] eqn:Hfs;
      [|by intros [= <- _]].
    destruct Hcl as (Hps & Hact & Hd & Hl).
    assert (Hx1 : ∃ x1, ctxs st1 !! c = Some x1
                        ∧ (∀ b, code x1 = Some b -> no_eval b)
                        ∧ (∀ k rc, uc_mcontext (uc x1) = mc_yield k ->
                             no_eval (k rc))).
    { destruct (decide (result x = NULL)) as [Hres|Hres].
      - pose proof (first_step_spec (run fuel) st c x code0 w Hx Hres) as Hsp.
        rewrite Hfs in Hsp. destruct Hsp as (sp & _ & _ & Huc & _ & Hc0 & _).
        specialize (Hto c). rewrite Hx in Hto.
        destruct (ctxs st1 !! c) as [x1|] eqn:Hx1; [|done].
        rewrite (ctx_at_lookup st1 c x1 Hx1) in Huc, Hc0.
        exists x1. split; [done|]. split.
        + intros b Hb. apply Hcode0. congruence.
        + intros k rc Hmc. rewrite Huc in Hmc. done.
      - rewrite first_step_not_first in Hfs
          by (by rewrite (ctx_at_lookup st c x Hx)).
        injection Hfs as <-. by exists x. }
    destruct Hx1 as (x1 & Hx1 & Hcode1 & Hk1).
    simpl.
    set (st3 := load_snapshot (set_ngx_python_ctx (Some c) st1) c).
    assert (Hx3 : ctxs st3 !! c = Some x1) by done.
    destruct (switch_to_task (run fuel) st3 c) as [st4| |] eqn:Hsw; simpl;
      [|done..].
    apply (switch_to_task_confined fuel st3 st4 c x1 Hx3 eq_refl Hcode1 Hk1)
      in Hsw.
    intros [= Hfin].
    apply (f_equal fst) in Hfin. simpl in Hfin. rewrite <- Hfin.
    eapply confined_trans; [exact Hfirst|].
    eapply confined_trans; [by apply (confined_refl _ st1 st3)|].
    eapply confined_trans; [exact Hsw|].
    eapply confined_trans; [apply (confined_with_ctx c (set_snapshot (ps st4)))|].
    eapply confined_trans; [|apply confined_eval_finish].
    by apply confined_refl.
  - simpl. destruct code0 as [b|]; [|done].
    set (s0 := set_ngx_python_ctx None st).
    rewrite (ctx_at_lookup s0 c x Hx).
    destruct (run fuel s0 (ns x) b) as [[st2 e]| |] eqn:Hrun; simpl; [|done..].
    apply run_no_eval_confined in Hrun; [|by apply Hcode0].
    destruct e as [o|]; [|done]. intros [= <- _].
    intros c' _. destruct o; simpl; by apply Hrun.
Qed.

Lemma step_of_task_0_keeps_task_1 :
  ∃ st',
    ngx_python_eval 3 boot 0 (Some body_sleep) (Some 9%nat)
      = Ok (st', NGX_PYTHON_AGAIN)
    ∧ ctxs st' !! 1%nat = ctxs boot !! 1%nat.
Proof.
  assert (H : ∃ st',
    ngx_python_eval 3 boot 0 (Some body_sleep) (Some 9%nat)
      = Ok (st', NGX_PYTHON_AGAIN))
    by (eexists; vm_compute; reflexivity).
  destruct H as [st' H]. exists st'. split; [exact H|].
  apply (step_is_confined_to_its_task 3 boot st' 0 _ (Some body_sleep)
           (Some 9%nat) NGX_PYTHON_AGAIN eq_refl).
  - intros b [= <-] rc. unfold after_sleep. by destruct (rc =? NGX_OK)%Z.
  - intros b [=].
  - intros k rc [=].
  - exact H.
  - discriminate.
Defined.
(** ** A value bound for one evaluation *)

Lemma eval_keeps_ns (fuel : nat) (st st' : state) (c : nat)
    (x : ngx_python_ctx_t) (code0 : option prog) (wake0 : option nat)
    (r : pyresult) :
  ctxs st !! c = Some x ->
  ngx_python_eval fuel st c code0 wake0 = Ok (st', r) ->
  ∃ x', ctxs st' !! c = Some x' ∧ ns x' = ns x.
Proof.
  intros Hx Hev.
  assert (Hinv : tasks_rel (fun _ y y' => ns y' = ns y) st st').
  { eapply (inv_eval (fun y y' => ns y' = ns y)); [..|exact Hev]; simpl;
      try done.
    intros y1 y2 y3 H12 H23. congruence. }
  specialize (Hinv c). rewrite Hx in Hinv.
  destruct (ctxs st' !! c) as [x'|]; [|done]. by exists x'.
Qed.

(** X16. A value bound for one evaluation.  [ngx_python_set_value] returns
    the binding the name had in the namespace of the task and leaves the name
    bound, to the new value when it had none and to its old value otherwise.
    An evaluation in the task, whatever it runs, leaves the task its
    namespace.  [ngx_python_reset_value], given what [ngx_python_set_value]
    returned, after anything that left the task its namespace: it touches no
    other name; when the name had a binding it does nothing, so that what
    the code did to the name stays; when the name had none it is unbound
    afterwards, a binding the code made itself being removed as well, and
    when the code has deleted the name the deletion fails, the namespace
    of the task stays as it is and the error is logged.  When the name is bound after
    the evaluation as [ngx_python_set_value] left it, it is bound afterwards
    as it was before and nothing is logged. *)
Theorem value_is_bound_for_one_evaluation (st st2 : state) (c : nat)
    (x x2 : ngx_python_ctx_t) (name : string) (v : PyObject) :
  ctxs st !! c = Some x ->
  ctxs st2 !! c = Some x2 ->
  ns x2 = ns x ->
  let old := fst (ngx_python_set_value st c name v) in
  let st1 := snd (ngx_python_set_value st c name v) in
  let st3 := ngx_python_reset_value st2 c name old in
  old = dict_of st (ns x) !! name
  ∧ dict_of st1 (ns x) !! name = Some (default v old)
  ∧ (∀ fuel code0 wake0 st' r,
       ngx_python_eval fuel st1 c code0 wake0 = Ok (st', r) ->
       ∃ x', ctxs st' !! c = Some x' ∧ ns x' = ns x)
  ∧ (∀ n, n ≠ name -> dict_of st3 (ns x) !! n = dict_of st2 (ns x) !! n)
  ∧ (∀ o, old = Some o -> st3 = st2)
  ∧ (old = None ->
       dict_of st3 (ns x) !! name = None
       ∧ (is_Some (dict_of st2 (ns x) !! name) -> log st3 = log st2)
       ∧ (dict_of st2 (ns x) !! name = None ->
            dict_of st3 (ns x) = dict_of st2 (ns x)
            ∧ ∃ e, log st3 = (log st2 ++ [e])%list))
  ∧ (dict_of st2 (ns x) !! name = dict_of st1 (ns x) !! name ->
       dict_of st3 (ns x) !! name = old ∧ log st3 = log st2).
Proof.
  intros Hx Hx2 Hns old st1 st3.
  assert (Hx1 : ctxs st1 !! c = Some x).
  { unfold st1, ngx_python_set_value.
    destruct (PyDict_GetItemString st (ns (ctx_at st c)) name); done. }
  assert (Hold : old = dict_of st (ns x) !! name).
  { unfold old, ngx_python_set_value. rewrite (ctx_at_lookup st c x Hx).
    unfold PyDict_GetItemString.
    by destruct (dict_of st (ns x) !! name). }
  assert (H1 : dict_of st1 (ns x) !! name = Some (default v old)).
  { rewrite Hold. unfold st1, ngx_python_set_value.
    rewrite (ctx_at_lookup st c x Hx). unfold PyDict_GetItemString.
    destruct (dict_of st (ns x) !! name) as [o|] eqn:Ho; simpl; [done|].
    unfold dict_of at 1. simpl.
    by rewrite lookup_total_insert_eq, lookup_insert_eq. }
  assert (Hother : ∀ n, n ≠ name ->
            dict_of st3 (ns x) !! n = dict_of st2 (ns x) !! n).
  { intros n Hn. unfold st3, ngx_python_reset_value.
    rewrite (ctx_at_lookup st2 c x2 Hx2), Hns.
    destruct old as [o|]; [done|]. unfold PyDict_DelItemString.
    destruct (dict_of st2 (ns x) !! name) as [o2|]; simpl; [|done].
    unfold dict_of at 1. simpl.
    by rewrite lookup_total_insert_eq, lookup_delete_ne. }
  assert (Hnone : old = None ->
            dict_of st3 (ns x) !! name = None
            ∧ (is_Some (dict_of st2 (ns x) !! name) -> log st3 = log st2)
            ∧ (dict_of st2 (ns x) !! name = None ->
                 dict_of st3 (ns x) = dict_of st2 (ns x)
                 ∧ ∃ e, log st3 = (log st2 ++ [e])%list)).
  { intros Ho. unfold st3, ngx_python_reset_value.
    rewrite (ctx_at_lookup st2 c x2 Hx2), Hns, Ho.
    unfold PyDict_DelItemString.
    destruct (dict_of st2 (ns x) !! name) as [o2|] eqn:H2; simpl.
    - split; [|split; [done|done]].
      unfold dict_of at 1. simpl.
      by rewrite lookup_total_insert_eq, lookup_delete_eq.
    - split; [done|]. split; [by intros [? ?]|]. intros _.
      split; [done|]. by eexists. }
  split; [done|]. split; [done|].
  split; [intros fuel code0 wake0 st' r; by apply eval_keeps_ns|].
  split; [done|]. split.
  { intros o Ho. unfold st3. by rewrite Ho. }
  split; [done|].
  intros H2. rewrite H1 in H2. destruct old as [o|] eqn:Ho.
  - unfold st3. simpl. by rewrite H2.
  - destruct (Hnone eq_refl) as (H3 & Hlog & _). split; [done|].
    apply Hlog. rewrite H2. by eexists.
Qed.

Lemma x_is_bound_for_one_evaluation :
  ∃ st2,
    ngx_python_eval 3 (snd (ngx_python_set_value boot 0 "x" (PyLong 3))) 0
      (Some body_read_x) None = Ok (st2, Ptr (PyLong 3))
    ∧ dict_of (ngx_python_reset_value st2 0 "x" None) 0 !! "x" = None.
Proof.
  assert (H : ∃ st2 x2,
    ngx_python_eval 3 (snd (ngx_python_set_value boot 0 "x" (PyLong 3))) 0
      (Some body_read_x) None = Ok (st2, Ptr (PyLong 3))
    ∧ ctxs st2 !! 0%nat = Some x2 ∧ ns x2 = 0%nat)
    by (do 2 eexists; repeat split; vm_compute; reflexivity).
  destruct H as (st2 & x2 & H & Hx2 & Hns). exists st2. split; [exact H|].
  destruct (value_is_bound_for_one_evaluation boot st2 0 _ x2 "x" (PyLong 3)
              eq_refl Hx2 Hns) as (_ & _ & _ & _ & _ & Hnone & _).
  destruct (Hnone eq_refl) as [H3 _]. exact H3.
Defined.

(** ** When the module [ngx] cannot be imported *)

(** X17. The import of the module [ngx] is tried once.  When the first call
    of [ngx_python_init_namespace] in a process fails because
    [PyImport_ImportModule("ngx")] does, it returns [NULL] and logs nothing,
    and the exception of the import stays in the error indicator; no cleanup
    entry or name has been made, [sys.modules] has for [ngx] what it had and
    the module is inactive, but the static flag is set.  So a later call does
    not import the module or define its constants: it goes on from the
    allocation of line 678, and whatever it returns, [sys.modules] has for
    [ngx] what it had before the first call. *)
Theorem failed_import_is_not_retried (s : conf_state) (t v : PyObject)
    (rest : list (option (PyObject * PyObject))) :
  initialized s = false ->
  pcf_ns (pcf s) = None ->
  python_script s = Some (t, v) :: rest ->
  let s1 := snd (ngx_python_init_namespace s) in
  fst (ngx_python_init_namespace s) = None
  ∧ initialized s1 = true
  ∧ curexc_type (ps (machine s1)) = Some t
  ∧ curexc_value (ps (machine s1)) = Some v
  ∧ conf_log s1 = conf_log s
  ∧ sys_modules s1 !! "ngx" = sys_modules s !! "ngx"
  ∧ cleanup s1 = cleanup s
  ∧ counter s1 = counter s ∧ pcf s1 = pcf s
  ∧ ngx_python_active s1 = NGX_DECLINED
  ∧ ngx_python_init_namespace s1 = add_namespace s1
  ∧ (∀ r s2, ngx_python_init_namespace s1 = (r, s2) ->
       sys_modules s2 !! "ngx" = sys_modules s !! "ngx").
Proof.
  intros Hinit Hns Hscr.
  assert (Hfirst : ∃ m1, ngx_python_init_namespace s =
            (None, set_python_script rest
                     (set_machine m1 (set_initialized true s)))
            ∧ curexc_type (ps m1) = Some t ∧ curexc_value (ps m1) = Some v
            ∧ dicts m1 = dicts (machine s)).
  { unfold ngx_python_init_namespace, init_interpreter. rewrite Hns, Hinit.
    unfold PyImport_ImportModule, python_call_fails. simpl.
    rewrite Hscr. simpl. by eexists. }
  destruct Hfirst as (m1 & Hfirst & Ht & Hv & Hd).
  rewrite Hfirst. simpl.
  set (s1 := set_python_script rest (set_machine m1 (set_initialized true s))).
  assert (Hagain : ngx_python_init_namespace s1 = add_namespace s1).
  { unfold ngx_python_init_namespace. simpl. rewrite Hns.
    by change (init_interpreter s1) with (true, s1). }
  repeat (split; [done|]).
  split; [unfold ngx_python_active; simpl; by rewrite Hns|].
  split; [done|].
  intros r s2. rewrite Hagain.
  pose proof (add_namespace_spec s1) as [Ha _]. cbv zeta in Ha.
  intros Hadd. rewrite Hadd in Ha.
  assert (Hne : namespace_name (counter s1) ≠ "ngx")
    by apply namespace_name_not_ngx.
  destruct r as [d|].
  - destruct Ha as (_ & _ & -> & _). by rewrite lookup_insert_ne.
  - destruct Ha as (_ & _ & [->|[_ [d ->]]] & _); [done|].
    by rewrite lookup_insert_ne.
Qed.

Lemma import_error_stays_pending :
  curexc_type (ps (machine (snd (ngx_python_init_namespace cold_no_ngx))))
    = Some (PyOpaque 2)
  ∧ ngx_python_active (snd (ngx_python_init_namespace cold_no_ngx))
    = NGX_DECLINED.
Proof.
  destruct (failed_import_is_not_retried cold_no_ngx (PyOpaque 2)
              (PyString "No module named ngx") [] eq_refl eq_refl eq_refl)
    as (_ & _ & Ht & _ & _ & _ & _ & _ & _ & Hact & _).
  split; [exact Ht|exact Hact].
Defined.
